(** * ethdo, [validator depositdata]: deposit data for the Ethereum 1 deposit contract

    Shallow embedding of [cmd/validatordepositdata.go] and the properties its
    specification states about it.

    The command is one [Run] function.  It talks to a wallet, a BLS library,
    SHA-256, SSZ hashing, a unit converter and a beacon node: those are
    collaborators, kept abstract in the class [Collaborators] with the sizes
    the specification gives their results.  What the file itself computes is
    embedded as written: the contract call built by hand, the format strings,
    the checks and their order, the loop over the accounts and the final
    printing.

    A run is a function from the state of the beacon node to the events it
    produces, the node's new state, and the way it ends: by returning, by
    [os.Exit], or by a run-time panic.  The deadline of line 53 is not
    modelled: a collaborator that runs out of time answers with an error. *)

From Stdlib Require Import ZArith NArith List String Ascii Bool Lia.
From Stdlib Require Import Strings.Byte.
From Stdlib Require Import Numbers.DecimalString.
From Stdlib Require Numbers.DecimalFacts Numbers.DecimalN.
Import ListNotations.

Local Open Scope string_scope.
Local Open Scope list_scope.

(** ** Go values used by the command *)

Module Go.

(** [[]byte] *)
Definition bytes := list byte.

(** A Go [(value, error)] pair whose value is used only when the error is nil. *)
Inductive result (A : Type) : Type :=
| Ok (a : A)
| Err (e : string).
Arguments Ok {A} a.
Arguments Err {A} e.

(** *** [strings] *)

(** [strings.TrimPrefix(s, prefix)] *)
Definition TrimPrefix (s prefix : string) : string :=
  if String.prefix prefix s
  then String.substring (String.length prefix) (String.length s - String.length prefix) s
  else s.

(** [strings.Join(elems, sep)] *)
Fixpoint Join (elems : list string) (sep : string) : string :=
  match elems with
  | [] => ""
  | [e] => e
  | e :: rest => e ++ sep ++ Join rest sep
  end.

(** *** [encoding/hex] *)

Definition ldigits : string := "0123456789abcdef".

Definition digit_at (i : nat) : ascii :=
  match String.get i ldigits with Some c => c | None => "0"%char end.

(** Two lower-case digits per byte, high nibble first. *)
Fixpoint EncodeToString (b : bytes) : string :=
  match b with
  | [] => ""
  | c :: rest =>
      String (digit_at (Byte.to_nat c / 16))
        (String (digit_at (Byte.to_nat c mod 16)) (EncodeToString rest))
  end.

(** [reverseHexTable]: the value of a hex digit, either case. *)
Definition fromHexChar (c : ascii) : option N :=
  let n := N_of_ascii c in
  if (48 <=? n)%N && (n <=? 57)%N then Some (n - 48)%N
  else if (97 <=? n)%N && (n <=? 102)%N then Some (n - 87)%N
  else if (65 <=? n)%N && (n <=? 70)%N then Some (n - 55)%N
  else None.

Definition byte_of_nibbles (a b : N) : byte :=
  match Byte.of_N (a * 16 + b) with Some x => x | None => x00 end.

Definition udigits : string := "0123456789ABCDEF".

Definition udigit_at (i : nat) : ascii :=
  match String.get i udigits with Some c => c | None => "0"%char end.

(** [strconv.IsPrint] of a rune up to U+00FF. *)
Definition IsPrint (n : N) : bool :=
  ((32 <=? n)%N && (n <=? 126)%N)
  || ((161 <=? n)%N && (n <=? 255)%N && negb (n =? 173)%N).

(** The UTF-8 encoding of the rune of a byte. *)
Definition utf8_of_byte (c : ascii) : string :=
  let n := N_of_ascii c in
  if (n <? 128)%N then String c ""
  else String (ascii_of_N (192 + n / 64)) (String (ascii_of_N (128 + n mod 64)) "").

(** [%#U] of a byte taken as a rune: [U+0058 'X'], the character itself
    only when it is printable. *)
Definition verb_sharp_U (c : ascii) : string :=
  "U+00"
    ++ String (udigit_at (nat_of_ascii c / 16)) (String (udigit_at (nat_of_ascii c mod 16)) "")
    ++ (if IsPrint (N_of_ascii c) then " '" ++ utf8_of_byte c ++ "'" else "").

(** [hex.InvalidByteError.Error] *)
Definition InvalidByteError (c : ascii) : string :=
  "encoding/hex: invalid byte: " ++ verb_sharp_U c.

(** [hex.ErrLength] *)
Definition ErrLength : string := "encoding/hex: odd length hex string".

(** [hex.DecodeString]: pairs of digits.  The first invalid digit is an
    error that names it; an odd length is an error when every digit is
    valid. *)
Fixpoint DecodeString (s : string) : result bytes :=
  match s with
  | "" => Ok []
  | String p "" =>
      match fromHexChar p with
      | None => Err (InvalidByteError p)
      | Some _ => Err ErrLength
      end
  | String p (String q rest) =>
      match fromHexChar p, fromHexChar q with
      | Some a, Some b =>
          match DecodeString rest with
          | Ok bs => Ok (byte_of_nibbles a b :: bs)
          | Err e => Err e
          end
      | None, _ => Err (InvalidByteError p)
      | Some _, None => Err (InvalidByteError q)
      end
  end.

(** *** [fmt] *)

(** The operands this command hands to [fmt.Sprintf]. *)
Inductive operand : Type :=
| a_string (s : string)
| a_bytes (b : bytes)
| a_uint64 (n : N).

(** [%d] *)
Definition verb_d (n : N) : string := NilEmpty.string_of_uint (N.to_uint n).

(** [%x] of a byte slice or byte array. *)
Definition verb_x (b : bytes) : string := EncodeToString b.

(** [%#x] of a byte slice or byte array: one leading [0x] for the whole
    operand, and nothing at all for an empty operand ([fmtSbx]). *)
Definition verb_sharp_x (b : bytes) : string :=
  match b with
  | [] => ""
  | _ :: _ => "0x" ++ EncodeToString b
  end.

(** How [fmt] starts what it prints for an operand of the wrong type, and
    what it prints for a missing one; the command causes neither. *)
Definition bad_verb : string := "%!".
Definition missing : string := "%!(MISSING)".

Definition format_s (a : operand) : string :=
  match a with a_string s => s | _ => bad_verb end.
Definition format_x (a : operand) : string :=
  match a with a_bytes b => verb_x b | _ => bad_verb end.
Definition format_sharp_x (a : operand) : string :=
  match a with a_bytes b => verb_sharp_x b | _ => bad_verb end.
Definition format_d (a : operand) : string :=
  match a with a_uint64 n => verb_d n | _ => bad_verb end.

Definition with_operand (f : operand -> string) (args : list operand)
    (k : list operand -> string) : string :=
  match args with
  | a :: args' => f a ++ k args'
  | [] => missing ++ k []
  end.

(** [fmt.Sprintf] for the verbs the command uses, [%s], [%x], [%#x] and [%d],
    each with the operand types it is given here; no other verb and no [%%]
    occur in its format strings. *)
Fixpoint Sprintf (format : string) (args : list operand) : string :=
  match format with
  | "" => ""
  | String "%" (String "#" (String "x" rest)) =>
      with_operand format_sharp_x args (Sprintf rest)
  | String "%" (String "s" rest) => with_operand format_s args (Sprintf rest)
  | String "%" (String "x" rest) => with_operand format_x args (Sprintf rest)
  | String "%" (String "d" rest) => with_operand format_d args (Sprintf rest)
  | String c rest => String c (Sprintf rest args)
  end.

End Go.

Import Go.

(** ** The contract call built by hand (raw mode) *)

Module Raw.

(** Lines 162-181: [txData], one [append] after another. *)
Definition txData (depositDataRoot validatorPubKey withdrawalCredentials signature : bytes)
    : bytes :=
  (* Build a raw transaction by hand *)
  let txData := [x22; x89; x51; x18] in
  (* Pointer to validator public key *)
  let txData := txData ++
    [x00; x00; x00; x00; x00; x00; x00; x00; x00; x00; x00; x00; x00; x00; x00; x00;
     x00; x00; x00; x00; x00; x00; x00; x00; x00; x00; x00; x00; x00; x00; x00; x80] in
  (* Pointer to withdrawal credentials *)
  let txData := txData ++
    [x00; x00; x00; x00; x00; x00; x00; x00; x00; x00; x00; x00; x00; x00; x00; x00;
     x00; x00; x00; x00; x00; x00; x00; x00; x00; x00; x00; x00; x00; x00; x00; xe0] in
  (* Pointer to validator signature *)
  let txData := txData ++
    [x00; x00; x00; x00; x00; x00; x00; x00; x00; x00; x00; x00; x00; x00; x00; x00;
     x00; x00; x00; x00; x00; x00; x00; x00; x00; x00; x00; x00; x00; x00; x01; x20] in
  (* Deposit data root *)
  let txData := txData ++ depositDataRoot in
  (* Validator public key (pad to 32-byte boundary) *)
  let txData := txData ++
    [x00; x00; x00; x00; x00; x00; x00; x00; x00; x00; x00; x00; x00; x00; x00; x00;
     x00; x00; x00; x00; x00; x00; x00; x00; x00; x00; x00; x00; x00; x00; x00; x30] in
  let txData := txData ++ validatorPubKey in
  let txData := txData ++
    [x00; x00; x00; x00; x00; x00; x00; x00; x00; x00; x00; x00; x00; x00; x00; x00] in
  (* Withdrawal credentials *)
  let txData := txData ++
    [x00; x00; x00; x00; x00; x00; x00; x00; x00; x00; x00; x00; x00; x00; x00; x00;
     x00; x00; x00; x00; x00; x00; x00; x00; x00; x00; x00; x00; x00; x00; x00; x20] in
  let txData := txData ++ withdrawalCredentials in
  (* Deposit signature *)
  let txData := txData ++
    [x00; x00; x00; x00; x00; x00; x00; x00; x00; x00; x00; x00; x00; x00; x00; x00;
     x00; x00; x00; x00; x00; x00; x00; x00; x00; x00; x00; x00; x00; x00; x00; x60] in
  let txData := txData ++ signature in
  txData.

(** Line 182: the entry appended to [outputs]. *)
Definition output (depositDataRoot validatorPubKey withdrawalCredentials signature : bytes)
    : string :=
  Sprintf "%#x"
    [a_bytes (txData depositDataRoot validatorPubKey withdrawalCredentials signature)].

(** *** The layout the specification describes

    The contract ABI in the specification's words: a selector, 32-byte
    big-endian words, pointers relative to the start of the arguments, and for
    each dynamic argument a length word followed by the value padded with
    zeros to a multiple of 32 bytes. *)

Definition selector : bytes := [x22; x89; x51; x18].

Fixpoint le_bytes (width : nat) (n : N) : bytes :=
  match width with
  | O => []
  | S w => byte_of_nibbles ((n / 16) mod 16) (n mod 16) :: le_bytes w (n / 256)
  end.

(** [width] bytes, most significant first. *)
Definition be_bytes (width : nat) (n : N) : bytes := rev (le_bytes width n).

Definition word (n : N) : bytes := be_bytes 32 n.

(** The number a sequence of bytes denotes, most significant first. *)
Definition be_value (b : bytes) : N :=
  fold_left (fun acc x => (acc * 256 + Byte.to_N x)%N) b 0%N.

Definition pad32 (v : bytes) : bytes :=
  v ++ repeat x00 ((32 - List.length v mod 32) mod 32).

Definition dynamic (v : bytes) : bytes := word (N.of_nat (List.length v)) ++ pad32 v.

(** The call [deposit(bytes, bytes, bytes, bytes32)]: after the selector, a
    head of four words, where each dynamic argument has the offset of its
    tail from the start of the head and the root stands for itself, and then
    the tails in order. *)
Definition abi_call (root pubkey credentials signature : bytes) : bytes :=
  let first := 4 * 32 in
  let second := first + List.length (dynamic pubkey) in
  let third := second + List.length (dynamic credentials) in
  selector
    ++ word (N.of_nat first) ++ word (N.of_nat second) ++ word (N.of_nat third) ++ root
    ++ dynamic pubkey ++ dynamic credentials ++ dynamic signature.

(** The parts of this call: the three pointer words, and the tail of each
    dynamic argument at the sizes of a deposit. *)
Definition head : bytes := word 0x80 ++ word 0xe0 ++ word 0x120.
Definition tail_pubkey (pubkey : bytes) : bytes := word 0x30 ++ pubkey ++ repeat x00 16.
Definition tail_credentials (credentials : bytes) : bytes := word 0x20 ++ credentials.
Definition tail_signature (signature : bytes) : bytes := word 0x60 ++ signature.

(** Go's [b[lo:hi]] on a slice long enough. *)
Definition slice (lo hi : nat) (b : bytes) : bytes := firstn (hi - lo) (skipn lo b).

(** The four fields read back at their fixed places in the call data. *)
Record fields : Type := mk_fields {
  f_pubkey : bytes;
  f_credentials : bytes;
  f_signature : bytes;
  f_root : bytes
}.

Definition parse_fixed (tx : bytes) : fields :=
  {| f_pubkey := slice 164 212 tx;
     f_credentials := slice 260 292 tx;
     f_signature := slice 324 420 tx;
     f_root := slice 100 132 tx |}.

(** The same fields read the way a contract reads them: the selector is
    checked, each dynamic argument is found through its pointer word and cut
    to the size its length word gives. *)
Definition word_at (args : bytes) (off : nat) : nat :=
  N.to_nat (be_value (slice off (off + 32) args)).

Definition dynamic_at (args : bytes) (head : nat) : bytes :=
  let tail := word_at args head in
  let size := word_at args tail in
  slice (tail + 32) (tail + 32 + size) args.

Definition bytes_eqb (a b : bytes) : bool :=
  if list_eq_dec Byte.byte_eq_dec a b then true else false.

Definition decode_call (tx : bytes) : option fields :=
  if bytes_eqb (slice 0 4 tx) selector then
    let args := skipn 4 tx in
    Some {| f_pubkey := dynamic_at args 0;
            f_credentials := dynamic_at args 32;
            f_signature := dynamic_at args 64;
            f_root := slice 96 128 args |}
  else None.

End Raw.

(** ** Data handed to the collaborators *)

(** The anonymous struct of lines 102-110 (and 184-192): the deposit message. *)
Module DepositData.
Record t : Type := make {
  PubKey : bytes;                 (* ssz-size:"48" *)
  WithdrawalCredentials : bytes;  (* ssz-size:"32" *)
  Value : N                       (* uint64 *)
}.
End DepositData.

(** The anonymous struct of lines 137-147. *)
Module SignedDepositData.
Record t : Type := make {
  PubKey : bytes;                 (* ssz-size:"48" *)
  WithdrawalCredentials : bytes;  (* ssz-size:"32" *)
  Value : N;                      (* uint64 *)
  Signature : bytes               (* ssz-size:"96" *)
}.
End SignedDepositData.

(** What [ssz.HashTreeRoot] is given in this file. *)
Inductive ssz_value : Type :=
| ssz_deposit (d : DepositData.t)
| ssz_signed (d : SignedDepositData.t).

(** A value of the chain configuration, a Go [interface{}]: the command only
    asks whether it is a byte slice. *)
Inductive config_value : Type :=
| cv_bytes (b : bytes)
| cv_other.

(** [map[string]interface{}] as returned by [grpc.FetchChainConfig]; the
    command reads one key. *)
Definition config := list (string * config_value).

Fixpoint config_get (c : config) (key : string) : option config_value :=
  match c with
  | [] => None
  | (k, v) :: rest => if String.eqb k key then Some v else config_get rest key
  end.

(** ** Collaborators

    The functions the command calls and does not define: those of other files
    of package [cmd] ([walletAndAccountsFromPath], [walletAndAccountFromPath],
    [bestPublicKey], [signStruct], [connect]), of package [grpc]
    ([FetchChainConfig]) and of the libraries (BLS keys and signatures,
    SHA-256, SSZ hashing, the unit conversion, the signing domain).  All are
    functions of their arguments but the two that reach the beacon node:
    [connect] and [FetchChainConfig] are steps on a [NodeState], so two calls
    may answer differently.  The last four fields are the sizes the
    specification gives the collaborators' results. *)
Class Collaborators : Type := {
  Wallet : Type;
  Account : Type;
  PublicKey : Type;
  BLSSignature : Type;
  NodeState : Type;
  Wallet_Name : Wallet -> string;
  Account_Name : Account -> string;
  walletAndAccountsFromPath : string -> result (Wallet * list Account);
  walletAndAccountFromPath : string -> result (Wallet * Account);
  bestPublicKey : Account -> result PublicKey;
  PublicKey_Marshal : PublicKey -> bytes;
  BLSPublicKeyFromBytes : bytes -> result PublicKey;
  Signature_Marshal : BLSSignature -> bytes;
  SHA256 : bytes -> bytes;
  StringToGWei : string -> result N;
  connect : NodeState -> result unit * NodeState;
  FetchChainConfig : NodeState -> result config * NodeState;
  DomainDeposit : bytes;
  ZeroGenesisValidatorsRoot : bytes;
  Domain : bytes -> bytes -> bytes -> bytes;
  signStruct : Account -> DepositData.t -> bytes -> result BLSSignature;
  HashTreeRoot : ssz_value -> result bytes;
  PublicKey_Marshal_size : forall k, List.length (PublicKey_Marshal k) = 48;
  Signature_Marshal_size : forall s, List.length (Signature_Marshal s) = 96;
  SHA256_size : forall m, List.length (SHA256 m) = 32;
  HashTreeRoot_size : forall v r, HashTreeRoot v = Ok r -> List.length r = 32
}.

(** The package-level switches ([quiet], [verbose], [debug]) and the flags of
    this command (lines 32-38, 218-224). *)
Record Flags : Type := {
  quiet : bool;
  verbose : bool;
  debug : bool;
  validatorDepositDataValidatorAccount : string;
  validatorDepositDataWithdrawalAccount : string;
  validatorDepositDataWithdrawalPubKey : string;
  validatorDepositDataDepositValue : string;
  validatorDepositDataRaw : bool;
  validatorDepositDataForkVersion : string;
  validatorDepositDataLaunchpad : bool
}.

(** ** Format strings *)

Module Format.

Definition dq : string := String "034"%char "".
Definition nl : string := String "010"%char "".
Definition tab : string := String "009"%char "".

(** A double-quoted piece of a format string. *)
Definition q (s : string) : string := dq ++ s ++ dq.

(** Line 123. *)
Definition could_not_connect : string := Eval cbv in
  "Could not connect to beacon node; supply a connection with --connection or "
    ++ "provide a fork version with --forkversion to generate a deposit".

(** Line 111. *)
Definition deposit_data : string := Eval cbv in
  "Deposit data:" ++ nl ++ tab ++ "Public key: %x" ++ nl ++ tab
    ++ "Withdrawal credentials: %x" ++ nl ++ tab ++ "Value: %d".

(** Line 195. *)
Definition launchpad : string := Eval cbv in
  "[{" ++ q "pubkey" ++ ":" ++ q "%x" ++ ","
       ++ q "withdrawal_credentials" ++ ":" ++ q "%x" ++ ","
       ++ q "amount" ++ ":%d,"
       ++ q "signature" ++ ":" ++ q "%x" ++ ","
       ++ q "deposit_message_root" ++ ":" ++ q "%x" ++ ","
       ++ q "deposit_data_root" ++ ":" ++ q "%x" ++ ","
       ++ q "fork_version" ++ ":" ++ q "%x" ++ "}]".

(** Line 197. *)
Definition default : string := Eval cbv in
  "{" ++ q "name" ++ ":" ++ q "Deposit for %s" ++ ","
      ++ q "account" ++ ":" ++ q "%s" ++ ","
      ++ q "pubkey" ++ ":" ++ q "%#x" ++ ","
      ++ q "withdrawal_credentials" ++ ":" ++ q "%#x" ++ ","
      ++ q "signature" ++ ":" ++ q "%#x" ++ ","
      ++ q "value" ++ ":%d,"
      ++ q "deposit_data_root" ++ ":" ++ q "%#x" ++ ","
      ++ q "version" ++ ":2}".

End Format.

(** ** The command *)

(** How a run ends: the function returns, the process exits through
    [os.Exit], or a Go run-time panic stops it. *)
Inductive outcome (A : Type) : Type :=
| Ret (a : A)
| Exit (code : Z)
| Panic.
Arguments Ret {A} a.
Arguments Exit {A} code.
Arguments Panic {A}.

(** The exit status of the process: 0 on return, the argument of [os.Exit],
    2 after a panic. *)
Definition exit_status {A : Type} (o : outcome A) : Z :=
  match o with
  | Ret _ => 0
  | Exit code => code
  | Panic => 2
  end.

Section Command.

Context {C : Collaborators}.

(** What a run does that can be seen from outside, in order. *)
Inductive event : Type :=
| Ev_outputIf (msg : string)        (* [outputIf] called with a true condition *)
| Ev_stderr (msg : string)          (* the message of a failed [errCheck] or [assert] *)
| Ev_debug (text : string)          (* [fmt.Printf] under [if debug]: standard output *)
| Ev_print (text : string)          (* [fmt.Printf], [Print], [Println] of the results:
                                       standard output *)
| Ev_connect                        (* a call of [connect] *)
| Ev_FetchChainConfig               (* a call of [grpc.FetchChainConfig] *)
| Ev_signStruct (account : Account) (data : DepositData.t) (domain : bytes).
                                    (* a call of [signStruct] *)

(** A computation: from the state of the beacon node to the events it
    produces, the node's new state and how it ends. *)
Definition M (A : Type) : Type := NodeState -> list event * NodeState * outcome A.

Definition ret {A : Type} (a : A) : M A := fun s => ([], s, Ret a).

Definition bind {A B : Type} (m : M A) (k : A -> M B) : M B :=
  fun s =>
    match m s with
    | (tr, s', Ret a) =>
        match k a s' with
        | (tr', s'', o) => (tr ++ tr', s'', o)
        end
    | (tr, s', Exit code) => (tr, s', Exit code)
    | (tr, s', Panic) => (tr, s', Panic)
    end.

Notation "x <- m ;; k" := (bind m (fun x => k))
  (at level 61, m at next level, right associativity).
Notation "' pat <- m ;; k" := (bind m (fun x => match x with pat => k end))
  (at level 61, pat pattern, m at next level, right associativity).
Notation "m ;; k" := (bind m (fun _ => k))
  (at level 61, right associativity).

Definition emit (e : event) : M unit := fun s => ([e], s, Ret tt).

(** [os.Exit(code)] *)
Definition os_Exit {A : Type} (code : Z) : M A := fun s => ([], s, Exit code).

(** A Go run-time panic.  What the run-time then writes to standard error,
    the reason and the stack, is not recorded as an event. *)
Definition panic {A : Type} : M A := fun s => ([], s, Panic).

(** [for _, x := range l { body }] *)
Fixpoint for_range {A : Type} (l : list A) (body : A -> M unit) : M unit :=
  match l with
  | [] => ret tt
  | x :: rest => body x ;; for_range rest body
  end.

(** The same loop when its body updates a variable declared before it. *)
Fixpoint for_range_with {A V : Type} (l : list A) (body : V -> A -> M V) (v : V) : M V :=
  match l with
  | [] => ret v
  | x :: rest => v' <- body v x ;; for_range_with rest body v'
  end.

Variable flags : Flags.

(** *** Helpers of the package that these sources call *)

(** Modelled from the spec: the constant [_exitFailure] is declared outside the
    files at hand.  A failure is "a nonzero process exit status"; the help text
    of the command (line 51) says which: "otherwise 1". *)
Definition _exitFailure : Z := 1.

(** Modelled from the spec: [outputIf] is defined outside the files at hand and
    the specification does not name it.  A call with a true condition is
    recorded as its own kind of event, with the message; the stream the
    message is written to is left open. *)
Definition outputIf (condition : bool) (msg : string) : M unit :=
  if condition then emit (Ev_outputIf msg) else ret tt.

(** Modelled from the spec: [assert] is defined outside the files at hand.  On
    failure, "a descriptive message to an error stream and a nonzero process
    exit status ... except in quiet mode where even descriptive text is
    suppressed". *)
Definition assert (condition : bool) (msg : string) : M unit :=
  if condition then ret tt
  else (if quiet flags then ret tt else emit (Ev_stderr msg)) ;; os_Exit _exitFailure.

(** Modelled from the spec: [errCheck] is defined outside the files at hand;
    it behaves as [assert] does when the error is not nil.  The Go code binds
    [v, err := f(...)] and then calls [errCheck(err, msg)]; here [errCheck]
    is given the pair and hands back [v]. *)
Definition errCheck {A : Type} (r : result A) (msg : string) : M A :=
  match r with
  | Ok v => ret v
  | Err e =>
      (if quiet flags then ret tt else emit (Ev_stderr (msg ++ ": " ++ e))) ;;
      os_Exit _exitFailure
  end.

(** *** Calls that reach outside the process *)

Definition call_connect : M (result unit) :=
  fun s => let (r, s') := connect s in ([Ev_connect], s', Ret r).

Definition call_FetchChainConfig : M (result config) :=
  fun s => let (r, s') := FetchChainConfig s in ([Ev_FetchChainConfig], s', Ret r).

Definition call_signStruct (account : Account) (data : DepositData.t) (domain : bytes)
    : M (result BLSSignature) :=
  emit (Ev_signStruct account data domain) ;; ret (signStruct account data domain).

(** *** [Run], lines 52-212 *)

Definition path (validatorWallet : Wallet) (validatorAccount : Account) : string :=
  Sprintf "%s/%s" [a_string (Wallet_Name validatorWallet);
                   a_string (Account_Name validatorAccount)].

(** Lines 56-66: the validator accounts, each checked for a public key. *)
Definition validator_accounts : M (Wallet * list Account) :=
  assert (negb (validatorDepositDataValidatorAccount flags =? ""))
    "--validatoraccount is required" ;;
  ' (validatorWallet, validatorAccounts) <-
    errCheck (walletAndAccountsFromPath (validatorDepositDataValidatorAccount flags))
      "Failed to obtain validator accounts" ;;
  assert (0 <? List.length validatorAccounts)%nat "Failed to obtain validator account" ;;
  for_range validatorAccounts (fun validatorAccount =>
    outputIf (verbose flags)
      (Sprintf "Creating deposit for %s/%s"
         [a_string (Wallet_Name validatorWallet);
          a_string (Account_Name validatorAccount)]) ;;
    pubKey <- errCheck (bestPublicKey validatorAccount)
                "Validator account does not provide a public key" ;;
    outputIf (debug flags)
      (Sprintf "Validator public key is %#x" [a_bytes (PublicKey_Marshal pubKey)])) ;;
  ret (validatorWallet, validatorAccounts).

(** Line 88: [withdrawalCredentials[0] = byte(0)], an index out of range on an
    empty slice. *)
Definition set_first (b : bytes) (x : byte) : M bytes :=
  match b with
  | [] => panic
  | _ :: rest => ret (x :: rest)
  end.

(** Lines 68-89.  The [errCheck] calls of lines 77 and 85 test an error that
    was nil one line before and do nothing. *)
Definition withdrawal_credentials : M bytes :=
  assert (negb (validatorDepositDataWithdrawalAccount flags =? "")
          || negb (validatorDepositDataWithdrawalPubKey flags =? ""))
    "--withdrawalaccount or --withdrawalpubkey is required" ;;
  withdrawalCredentials <-
    (if negb (validatorDepositDataWithdrawalAccount flags =? "") then
       ' (_, withdrawalAccount) <-
         errCheck (walletAndAccountFromPath (validatorDepositDataWithdrawalAccount flags))
           "Failed to obtain withdrawal account" ;;
       pubKey <- errCheck (bestPublicKey withdrawalAccount)
                   "Withdrawal account does not provide a public key" ;;
       outputIf (debug flags)
         (Sprintf "Withdrawal public key is %#x" [a_bytes (PublicKey_Marshal pubKey)]) ;;
       ret (SHA256 (PublicKey_Marshal pubKey))
     else
       withdrawalPubKeyBytes <-
         errCheck (DecodeString
                     (TrimPrefix (validatorDepositDataWithdrawalPubKey flags) "0x"))
           "Invalid withdrawal public key" ;;
       assert (List.length withdrawalPubKeyBytes =? 48)%nat "Public key should be 48 bytes" ;;
       withdrawalPubKey <-
         errCheck (BLSPublicKeyFromBytes withdrawalPubKeyBytes)
           "Value supplied with --withdrawalpubkey is not a valid public key" ;;
       ret (SHA256 (PublicKey_Marshal withdrawalPubKey))) ;;
  (* This is hard-coded, to allow deposit data to be generated without a
     connection to the beacon node. *)
  withdrawalCredentials <- set_first withdrawalCredentials x00 ;; (* BLS_WITHDRAWAL_PREFIX *)
  outputIf (debug flags)
    (Sprintf "Withdrawal credentials are %#x" [a_bytes withdrawalCredentials]) ;;
  ret withdrawalCredentials.

(** Lines 91-95. *)
Definition deposit_value : M N :=
  assert (negb (validatorDepositDataDepositValue flags =? "")) "--depositvalue is required" ;;
  val <- errCheck (StringToGWei (validatorDepositDataDepositValue flags)) "Invalid value" ;;
  (* This is hard-coded, to allow deposit data to be generated without a
     connection to the beacon node. *)
  assert (1000000000 <=? val)%N "deposit value must be at least 1 Ether" ;; (* MIN_DEPOSIT_AMOUNT *)
  ret val.

(** Line 128: [genesisForkVersion.([]byte)], a panic on any other dynamic type. *)
Definition as_bytes (v : option config_value) : M bytes :=
  match v with
  | Some (cv_bytes b) => ret b
  | _ => panic
  end.

Definition is_some {A : Type} (o : option A) : bool :=
  match o with Some _ => true | None => false end.

(** Lines 113-129. *)
Definition fork_version : M bytes :=
  if negb (validatorDepositDataForkVersion flags =? "") then
    forkVersion <-
      errCheck (DecodeString (TrimPrefix (validatorDepositDataForkVersion flags) "0x"))
        (Sprintf "Failed to decode fork version %s"
           [a_string (validatorDepositDataForkVersion flags)]) ;;
    assert (List.length forkVersion =? 4)%nat "Fork version must be exactly four bytes" ;;
    ret forkVersion
  else
    err <- call_connect ;;
    errCheck err "Failed to connect to beacon node" ;;
    fetched <- call_FetchChainConfig ;;
    config <-
      match fetched with
      | Ok config => ret config
      | Err _ =>
          outputIf (negb (quiet flags)) Format.could_not_connect ;;
          os_Exit _exitFailure
      end ;;
    let genesisForkVersion := config_get config "GenesisForkVersion" in
    assert (is_some genesisForkVersion) "Failed to obtain genesis fork version" ;;
    as_bytes genesisForkVersion.

(** Lines 148-154. *)
Definition print_signed (signedDepositData : SignedDepositData.t) : M unit :=
  if debug flags then
    emit (Ev_debug (Sprintf ("Signed deposit data:" ++ Format.nl) [])) ;;
    emit (Ev_debug (Sprintf (" Public key: %#x" ++ Format.nl)
                      [a_bytes (SignedDepositData.PubKey signedDepositData)])) ;;
    emit (Ev_debug (Sprintf (" Withdrawal credentials: %#x" ++ Format.nl)
                      [a_bytes (SignedDepositData.WithdrawalCredentials signedDepositData)])) ;;
    emit (Ev_debug (Sprintf (" Value: %d" ++ Format.nl)
                      [a_uint64 (SignedDepositData.Value signedDepositData)])) ;;
    emit (Ev_debug (Sprintf (" Signature: %#x" ++ Format.nl)
                      [a_bytes (SignedDepositData.Signature signedDepositData)]))
  else ret tt.

(** Line 197, the default output of one validator. *)
Definition default_output (validatorWallet : Wallet) (validatorAccount : Account)
    (signedDepositData : SignedDepositData.t) (val : N) (depositDataRoot : bytes) : string :=
  Sprintf Format.default
    [a_string (path validatorWallet validatorAccount);
     a_string (path validatorWallet validatorAccount);
     a_bytes (SignedDepositData.PubKey signedDepositData);
     a_bytes (SignedDepositData.WithdrawalCredentials signedDepositData);
     a_bytes (SignedDepositData.Signature signedDepositData);
     a_uint64 val;
     a_bytes depositDataRoot].

(** Line 195, the launchpad output of one validator. *)
Definition launchpad_output (signedDepositData : SignedDepositData.t) (val : N)
    (depositMessageRoot depositDataRoot forkVersion : bytes) : string :=
  Sprintf Format.launchpad
    [a_bytes (SignedDepositData.PubKey signedDepositData);
     a_bytes (SignedDepositData.WithdrawalCredentials signedDepositData);
     a_uint64 val;
     a_bytes (SignedDepositData.Signature signedDepositData);
     a_bytes depositMessageRoot;
     a_bytes depositDataRoot;
     a_bytes forkVersion].

(** Lines 99-199: the body of the loop that generates the deposit data of one
    key and appends its output to [outputs]. *)
Definition deposit (validatorWallet : Wallet) (withdrawalCredentials : bytes) (val : N)
    (outputs : list string) (validatorAccount : Account) : M (list string) :=
  validatorPubKey <- errCheck (bestPublicKey validatorAccount)
                       "Validator account does not provide a public key" ;;
  let depositData :=
    {| DepositData.PubKey := PublicKey_Marshal validatorPubKey;
       DepositData.WithdrawalCredentials := withdrawalCredentials;
       DepositData.Value := val |} in
  outputIf (debug flags)
    (Sprintf Format.deposit_data
       [a_bytes (DepositData.PubKey depositData);
        a_bytes (DepositData.WithdrawalCredentials depositData);
        a_uint64 (DepositData.Value depositData)]) ;;
  forkVersion <- fork_version ;;
  outputIf (debug flags) (Sprintf "Fork version is %x" [a_bytes forkVersion]) ;;
  let domain := Domain DomainDeposit forkVersion ZeroGenesisValidatorsRoot in
  outputIf (debug flags) (Sprintf "Domain is %x" [a_bytes domain]) ;;
  signed <- call_signStruct validatorAccount depositData domain ;;
  signature <- errCheck signed "Failed to generate deposit data signature" ;;
  let signedDepositData :=
    {| SignedDepositData.PubKey := PublicKey_Marshal validatorPubKey;
       SignedDepositData.WithdrawalCredentials := withdrawalCredentials;
       SignedDepositData.Value := val;
       SignedDepositData.Signature := Signature_Marshal signature |} in
  print_signed signedDepositData ;;
  depositDataRoot <- errCheck (HashTreeRoot (ssz_signed signedDepositData))
                       "Failed to generate deposit data root" ;;
  outputIf (debug flags) (Sprintf "Deposit data root is %x" [a_bytes depositDataRoot]) ;;
  if validatorDepositDataRaw flags then
    ret (outputs ++
         [Raw.output depositDataRoot (PublicKey_Marshal validatorPubKey)
            withdrawalCredentials (SignedDepositData.Signature signedDepositData)])
  else if validatorDepositDataLaunchpad flags then
    let depositMessage :=
      {| DepositData.PubKey := PublicKey_Marshal validatorPubKey;
         DepositData.WithdrawalCredentials := withdrawalCredentials;
         DepositData.Value := val |} in
    depositMessageRoot <- errCheck (HashTreeRoot (ssz_deposit depositMessage))
                            "Failed to generate deposit message root" ;;
    ret (outputs ++
         [launchpad_output signedDepositData val depositMessageRoot depositDataRoot
            forkVersion])
  else
    ret (outputs ++
         [default_output validatorWallet validatorAccount signedDepositData val
            depositDataRoot]).

(** Lines 201-211. *)
Definition print_outputs (outputs : list string) : M unit :=
  (if quiet flags then os_Exit 0 else ret tt) ;;
  if (List.length outputs =? 1)%nat then
    emit (Ev_print (Sprintf ("%s" ++ Format.nl) [a_string (nth 0 outputs "")]))
  else
    emit (Ev_print "[") ;;
    emit (Ev_print (Join outputs ",")) ;;
    emit (Ev_print ("]" ++ Format.nl)).

(** Lines 56-95: what is settled before the loop over the keys. *)
Definition prelude : M (Wallet * list Account * bytes * N) :=
  ' (validatorWallet, validatorAccounts) <- validator_accounts ;;
  withdrawalCredentials <- withdrawal_credentials ;;
  val <- deposit_value ;;
  ret (validatorWallet, validatorAccounts, withdrawalCredentials, val).

(** Lines 56-199: everything before the printing, ending with [outputs]. *)
Definition generate : M (list string) :=
  ' (validatorWallet, validatorAccounts, withdrawalCredentials, val) <- prelude ;;
  (* For each key, generate deposit data *)
  let outputs := [] in
  for_range_with validatorAccounts (deposit validatorWallet withdrawalCredentials val)
    outputs.

Definition Run : M unit :=
  outputs <- generate ;;
  print_outputs outputs.

End Command.

(** ** The outputs in the specification's words *)

Module Layout.

(** A member value of the default output: a string or a number. *)
Inductive value : Type :=
| J_string (s : string)
| J_number (n : N).

Definition backslash : string := "\".

(** A character that stands for itself inside a JSON string: any but the
    double quote, the backslash and the control characters below 0x20. *)
Definition plain_char (c : ascii) : bool :=
  let n := N_of_ascii c in
  (32 <=? n)%N && negb (n =? 34)%N && negb (n =? 92)%N.

Fixpoint plain (s : string) : bool :=
  match s with
  | "" => true
  | String c rest => plain_char c && plain rest
  end.

(** The other characters escaped: the double quote and the backslash after a
    backslash, a control character by its code. *)
Definition escape_char (c : ascii) : string :=
  if plain_char c then String c ""
  else if (N_of_ascii c =? 34)%N || (N_of_ascii c =? 92)%N
  then backslash ++ String c ""
  else backslash ++ "u00"
         ++ String (digit_at (nat_of_ascii c / 16))
              (String (digit_at (nat_of_ascii c mod 16)) "").

Fixpoint escape (s : string) : string :=
  match s with
  | "" => ""
  | String c rest => escape_char c ++ escape rest
  end.

(** The text of a value: a string between double quotes, escaped; a number
    in decimal. *)
Definition render_value (v : value) : string :=
  match v with
  | J_string s => Format.dq ++ escape s ++ Format.dq
  | J_number n => verb_d n
  end.

Definition render_member (m : string * value) : string :=
  Format.dq ++ escape (fst m) ++ Format.dq ++ ":" ++ render_value (snd m).

(** An object: its members in order, separated by commas, between braces. *)
Definition render_object (members : list (string * value)) : string :=
  "{" ++ Join (map render_member members) "," ++ "}".

(** The same with every string written between the quotes as it is. *)
Definition written_value (v : value) : string :=
  match v with
  | J_string s => Format.dq ++ s ++ Format.dq
  | J_number n => verb_d n
  end.

Definition written_member (m : string * value) : string :=
  Format.dq ++ fst m ++ Format.dq ++ ":" ++ written_value (snd m).

Definition written_object (members : list (string * value)) : string :=
  "{" ++ Join (map written_member members) "," ++ "}".

Definition plain_member (m : string * value) : bool :=
  plain (fst m) && match snd m with J_string s => plain s | J_number _ => true end.

(** What stands after a value in an object. *)
Definition closing (tail : string) : bool :=
  match tail with
  | String c _ => (N_of_ascii c =? 125)%N || (N_of_ascii c =? 44)%N
  | "" => false
  end.

(** What follows the first member of an object. *)
Fixpoint members_after (rest : list (string * value)) : string :=
  match rest with
  | [] => "}"
  | m :: rest' => ("," ++ render_member m ++ members_after rest')%string
  end.

(** *** Reading an object back

    The members are strings and unsigned integers; white space may stand
    between the tokens. *)

Definition is_space (c : ascii) : bool :=
  let n := N_of_ascii c in
  (n =? 32)%N || (n =? 9)%N || (n =? 10)%N || (n =? 13)%N.

Fixpoint skip_space (s : string) : string :=
  match s with
  | String c rest => if is_space c then skip_space rest else s
  | "" => ""
  end.

Definition ascii_of_nibbles (a b : N) : ascii := ascii_of_N (a * 16 + b).

(** What follows a backslash: the character meant, and the rest. *)
Definition read_escape (s : string) : option (ascii * string) :=
  match s with
  | String "u" (String "0" (String "0" (String x (String y rest)))) =>
      match fromHexChar x, fromHexChar y with
      | Some a, Some b => Some (ascii_of_nibbles a b, rest)
      | _, _ => None
      end
  | String "b" rest => Some ("008"%char, rest)
  | String "t" rest => Some ("009"%char, rest)
  | String "n" rest => Some ("010"%char, rest)
  | String "f" rest => Some ("012"%char, rest)
  | String "r" rest => Some ("013"%char, rest)
  | String "/" rest => Some ("/"%char, rest)
  | String c rest =>
      if (N_of_ascii c =? 34)%N || (N_of_ascii c =? 92)%N then Some (c, rest) else None
  | "" => None
  end.

(** A string from after its opening quote: its characters, and what follows
    the closing quote.  Nothing when the text ends before the quote closes,
    or holds a bare control character or an escape that is none. *)
Fixpoint read_string (fuel : nat) (s : string) : option (string * string) :=
  match fuel with
  | O => None
  | S fuel =>
      match s with
      | "" => None
      | String c rest =>
          if (N_of_ascii c =? 34)%N then Some ("", rest)
          else if (N_of_ascii c =? 92)%N then
            match read_escape rest with
            | Some (x, rest') =>
                match read_string fuel rest' with
                | Some (str, tail) => Some (String x str, tail)
                | None => None
                end
            | None => None
            end
          else if (N_of_ascii c <? 32)%N then None
          else
            match read_string fuel rest with
            | Some (str, tail) => Some (String c str, tail)
            | None => None
            end
      end
  end.

Definition is_digit (c : ascii) : bool :=
  let n := N_of_ascii c in (48 <=? n)%N && (n <=? 57)%N.

(** The digits a text starts with, and what follows them. *)
Fixpoint digits_of (s : string) : string * string :=
  match s with
  | String c rest =>
      if is_digit c
      then let (digits, tail) := digits_of rest in (String c digits, tail)
      else ("", s)
  | "" => ("", "")
  end.

(** An unsigned integer: [0] alone, or digits of which the first is not [0]. *)
Definition read_number (s : string) : option (N * string) :=
  let (digits, tail) := digits_of s in
  match digits with
  | "" => None
  | String "0" (String _ _) => None
  | _ =>
      match NilEmpty.uint_of_string digits with
      | Some d => Some (N.of_uint d, tail)
      | None => None
      end
  end.

Definition read_value (s : string) : option (value * string) :=
  match s with
  | String c rest =>
      if (N_of_ascii c =? 34)%N then
        match read_string (String.length rest) rest with
        | Some (str, tail) => Some (J_string str, tail)
        | None => None
        end
      else
        match read_number s with
        | Some (n, tail) => Some (J_number n, tail)
        | None => None
        end
  | "" => None
  end.

(** A member: a key, a colon, a value. *)
Definition read_member (s : string) : option (string * value * string) :=
  match skip_space s with
  | String c rest =>
      if (N_of_ascii c =? 34)%N then
        match read_string (String.length rest) rest with
        | Some (key, tail) =>
            match skip_space tail with
            | String ":" tail' =>
                match read_value (skip_space tail') with
                | Some (v, tail'') => Some (key, v, tail'')
                | None => None
                end
            | _ => None
            end
        | None => None
        end
      else None
  | "" => None
  end.

(** The members after the first, up to the closing brace. *)
Fixpoint read_more (fuel : nat) (s : string)
    : option (list (string * value) * string) :=
  match fuel with
  | O => None
  | S fuel =>
      match skip_space s with
      | String "}" rest => Some ([], rest)
      | String "," rest =>
          match read_member rest with
          | Some (key, v, tail) =>
              match read_more fuel tail with
              | Some (members, tail') => Some ((key, v) :: members, tail')
              | None => None
              end
          | None => None
          end
      | _ => None
      end
  end.

(** A text that is one object and nothing more. *)
Definition read_object (s : string) : option (list (string * value)) :=
  match skip_space s with
  | String "{" rest =>
      match skip_space rest with
      | String "}" tail =>
          match skip_space tail with "" => Some [] | _ => None end
      | _ =>
          match read_member rest with
          | Some (key, v, tail) =>
              match read_more (String.length tail) tail with
              | Some (members, tail') =>
                  match skip_space tail' with
                  | "" => Some ((key, v) :: members)
                  | _ => None
                  end
              | None => None
              end
          | None => None
          end
      end
  | _ => None
  end.

(** A byte string in hexadecimal with the [0x] prefix. *)
Definition hex0x (b : bytes) : string := "0x" ++ EncodeToString b.

(** The object of the default mode, for the validator named [name]. *)
Definition deposit_object (name : string)
    (pubkey credentials signature : bytes) (amount : N) (root : bytes)
    : list (string * value) :=
  [("name", J_string ("Deposit for " ++ name));
   ("account", J_string name);
   ("pubkey", J_string (hex0x pubkey));
   ("withdrawal_credentials", J_string (hex0x credentials));
   ("signature", J_string (hex0x signature));
   ("value", J_number amount);
   ("deposit_data_root", J_string (hex0x root));
   ("version", J_number 2)].

(** What a batch prints: one result as it is, several as an array. *)
Definition batch (results : list string) : string :=
  match results with
  | [one] => one ++ Format.nl
  | _ => "[" ++ Join results "," ++ "]" ++ Format.nl
  end.

(** A digest with its first byte replaced. *)
Definition with_prefix (x : byte) (digest : bytes) : bytes := x :: skipn 1 digest.

End Layout.

(** ** What is observed of a run *)

Section Observations.

Context {C : Collaborators}.

Definition events_of {A : Type} (r : list event * NodeState * outcome A) : list event :=
  fst (fst r).

Definition outcome_of {A : Type} (r : list event * NodeState * outcome A) : outcome A :=
  snd r.

(** The run ended in failure: a nonzero exit status. *)
Definition failure {A : Type} (o : outcome A) : Prop := exit_status o <> 0%Z.

Definition is_print (e : event) : bool :=
  match e with Ev_print _ => true | _ => false end.

Definition is_debug (e : event) : bool :=
  match e with Ev_debug _ => true | _ => false end.

Definition is_fetch (e : event) : bool :=
  match e with Ev_FetchChainConfig => true | _ => false end.

Definition is_connect (e : event) : bool :=
  match e with Ev_connect => true | _ => false end.

Definition is_sign (e : event) : bool :=
  match e with Ev_signStruct _ _ _ => true | _ => false end.

(** How many events of one kind a run produced. *)
Definition count (f : event -> bool) (tr : list event) : nat :=
  List.length (filter f tr).

(** The text of the results, as printed by lines 205-211. *)
Fixpoint printed (tr : list event) : string :=
  match tr with
  | [] => ""
  | Ev_print text :: rest => text ++ printed rest
  | _ :: rest => printed rest
  end.

(** What the command writes to standard output with [fmt.Printf], [fmt.Print]
    and [fmt.Println].  What [outputIf] writes is not part of it: where that
    goes is decided outside these sources. *)
Fixpoint standard_output (tr : list event) : string :=
  match tr with
  | [] => ""
  | Ev_print text :: rest => text ++ standard_output rest
  | Ev_debug text :: rest => text ++ standard_output rest
  | _ :: rest => standard_output rest
  end.

(** The signing requests of a run, in order. *)
Fixpoint signing_requests (tr : list event) : list (Account * DepositData.t * bytes) :=
  match tr with
  | [] => []
  | Ev_signStruct a d domain :: rest => (a, d, domain) :: signing_requests rest
  | _ :: rest => signing_requests rest
  end.

(** Events that are messages only: what [outputIf], [errCheck] and [assert]
    say. *)
Definition message (e : event) : Prop :=
  match e with
  | Ev_outputIf _ | Ev_stderr _ => True
  | _ => False
  end.

(** The public key the withdrawal credentials are derived from: the one of
    the withdrawal account when an account is given (line 70), otherwise the
    one parsed from the 48 bytes of [--withdrawalpubkey]. *)
Definition withdrawal_key (flags : Flags) (key : PublicKey) : Prop :=
  (validatorDepositDataWithdrawalAccount flags <> "" /\
   exists w a,
     walletAndAccountFromPath (validatorDepositDataWithdrawalAccount flags) = Ok (w, a) /\
     bestPublicKey a = Ok key)
  \/
  (validatorDepositDataWithdrawalAccount flags = "" /\
   exists k,
     DecodeString (TrimPrefix (validatorDepositDataWithdrawalPubKey flags) "0x") = Ok k /\
     List.length k = 48 /\
     BLSPublicKeyFromBytes k = Ok key).

(** The fork version given on the command line, when one is. *)
Definition explicit_fork_version (flags : Flags) (forkVersion : bytes) : Prop :=
  validatorDepositDataForkVersion flags <> "" /\
  DecodeString (TrimPrefix (validatorDepositDataForkVersion flags) "0x") = Ok forkVersion /\
  List.length forkVersion = 4.

(** Where the fork version of a validator comes from: the command line, or
    an answer of the node that has a byte slice under [GenesisForkVersion]. *)
Definition fork_version_source (flags : Flags) (forkVersion : bytes) : Prop :=
  explicit_fork_version flags forkVersion \/
  (validatorDepositDataForkVersion flags = "" /\
   exists s cfg,
     fst (FetchChainConfig s) = Ok cfg /\
     config_get cfg "GenesisForkVersion" = Some (cv_bytes forkVersion)).

(** The validator accounts of a run. *)
Definition validators (flags : Flags) (w : Wallet) (accts : list Account) : Prop :=
  validatorDepositDataValidatorAccount flags <> "" /\
  walletAndAccountsFromPath (validatorDepositDataValidatorAccount flags) = Ok (w, accts) /\
  accts <> [] /\
  Forall (fun a => exists key, bestPublicKey a = Ok key) accts.

(** The withdrawal credentials of a run. *)
Definition credentials (flags : Flags) (wc : bytes) : Prop :=
  exists key,
    withdrawal_key flags key /\
    wc = Layout.with_prefix x00 (SHA256 (PublicKey_Marshal key)).

(** The amount of a run, in Gwei. *)
Definition amount (flags : Flags) (val : N) : Prop :=
  validatorDepositDataDepositValue flags <> "" /\
  StringToGWei (validatorDepositDataDepositValue flags) = Ok val /\
  (1000000000 <= val)%N.

(** What lines 56-95 settle. *)
Definition settled (flags : Flags) (x : Wallet * list Account * bytes * N) : Prop :=
  match x with
  | (w, accts, wc, val) => validators flags w accts /\ credentials flags wc /\ amount flags val
  end.

(** The output of the validator account [a], in the mode the flags choose:
    its key, a fork version, the signature of the deposit message under the
    deposit domain of that fork version, and the root of the signed data. *)
Definition deposit_result (flags : Flags) (w : Wallet) (wc : bytes) (val : N)
    (a : Account) (o : string) : Prop :=
  exists key forkVersion sig root,
    bestPublicKey a = Ok key /\
    fork_version_source flags forkVersion /\
    let depositData := DepositData.make (PublicKey_Marshal key) wc val in
    let signedDepositData :=
      SignedDepositData.make (PublicKey_Marshal key) wc val (Signature_Marshal sig) in
    signStruct a depositData (Domain DomainDeposit forkVersion ZeroGenesisValidatorsRoot)
      = Ok sig /\
    HashTreeRoot (ssz_signed signedDepositData) = Ok root /\
    if validatorDepositDataRaw flags then
      o = Raw.output root (PublicKey_Marshal key) wc (Signature_Marshal sig)
    else if validatorDepositDataLaunchpad flags then
      exists messageRoot,
        HashTreeRoot (ssz_deposit depositData) = Ok messageRoot /\
        o = launchpad_output signedDepositData val messageRoot root forkVersion
    else
      o = default_output w a signedDepositData val root.

(** What the loop over the keys may produce, for the credentials [wc] and the
    amount [val] settled before it: messages; debug text when [debug] is set;
    calls to the node when no fork version is given; signing requests for
    [wc] and [val], under the deposit domain of a fork version that was given
    or fetched.  Never a result. *)
Definition deposit_event (flags : Flags) (wc : bytes) (val : N) (e : event) : Prop :=
  match e with
  | Ev_outputIf _ | Ev_stderr _ => True
  | Ev_debug _ => debug flags = true
  | Ev_print _ => False
  | Ev_connect | Ev_FetchChainConfig => validatorDepositDataForkVersion flags = ""
  | Ev_signStruct _ d domain =>
      DepositData.WithdrawalCredentials d = wc /\
      DepositData.Value d = val /\
      exists forkVersion,
        fork_version_source flags forkVersion /\
        domain = Domain DomainDeposit forkVersion ZeroGenesisValidatorsRoot
  end.

(** What [print_outputs] produces when it prints. *)
Definition print_events (outputs : list string) : list event :=
  if (List.length outputs =? 1)%nat
  then [Ev_print (nth 0 outputs "" ++ Format.nl)]
  else [Ev_print "["; Ev_print (Join outputs ","); Ev_print ("]" ++ Format.nl)].

(** A kind of event that no message belongs to. *)
Definition silent (f : event -> bool) : Prop :=
  forall msg, f (Ev_outputIf msg) = false /\ f (Ev_stderr msg) = false.

(** The node can be reached and knows its genesis fork version, whenever it
    is asked. *)
Definition node_answers : Prop :=
  forall s,
    fst (connect s) = Ok tt /\
    exists cfg forkVersion,
      fst (FetchChainConfig s) = Ok cfg /\
      config_get cfg "GenesisForkVersion" = Some (cv_bytes forkVersion).

(** A fork version can be had: one is given and is four bytes of hex, or
    none is given and the node answers. *)
Definition fork_version_available (flags : Flags) : Prop :=
  (exists forkVersion, explicit_fork_version flags forkVersion) \/
  (validatorDepositDataForkVersion flags = "" /\ node_answers).

(** The accounts sign what they are asked to, and SSZ hashing works. *)
Definition willing (accts : list Account) : Prop :=
  (forall a, In a accts -> forall d domain, exists sig, signStruct a d domain = Ok sig) /\
  (forall v, exists r, HashTreeRoot v = Ok r).

(** Three judgements on a computation, each for every state of the node.

    [spec P Q m]: every event [m] produces satisfies [P]; when [m] returns, its
    value satisfies [Q]; when it does not return, the process has failed. *)
Definition spec {A : Type} (P : event -> Prop) (Q : A -> Prop) (m : M A) : Prop :=
  forall s,
    Forall P (events_of (m s)) /\
    match outcome_of (m s) with
    | Ret a => Q a
    | o => failure o
    end.

(** [succeeds m]: [m] returns. *)
Definition succeeds {A : Type} (m : M A) : Prop :=
  forall s, exists a, outcome_of (m s) = Ret a.

(** [tally f n m]: when [m] returns it has produced [n] events of kind [f]. *)
Definition tally {A : Type} (f : event -> bool) (n : nat) (m : M A) : Prop :=
  forall s a, outcome_of (m s) = Ret a -> count f (events_of (m s)) = n.

End Observations.

(** ** A small world to run the command in

    Stand-ins for the collaborators, enough to run the command on concrete
    inputs.  A key or a signature is one byte, repeated to its full size; the
    digest is 32 copies of the first byte of the message; the beacon node is
    the list of answers it will give to the coming [FetchChainConfig] calls,
    and is unreachable when the list is empty. *)
Module Mock.

Definition accounts (p : string) : result (string * list string) :=
  if p =? "primary/validator" then Ok ("primary", ["validator"])
  else if p =? "primary/.*" then Ok ("primary", ["validator"; "second"])
  else if p =? "primary/locked" then Ok ("primary", ["locked"])
  else if p =? "primary/mixed" then Ok ("primary", ["validator"; "locked"])
  else if p =? "odd/.*" then Ok ("odd", ["validator"; String "034"%char "quoted"])
  else if p =? "empty/.*" then Ok ("empty", [])
  else Err "wallet not found".

Definition account (p : string) : result (string * string) :=
  if p =? "primary/current" then Ok ("primary", "current")
  else if p =? "primary/offline" then Ok ("primary", "offline")
  else Err "account not found".

Definition public_key (a : string) : result byte :=
  if a =? "validator" then Ok xaa
  else if a =? "second" then Ok xab
  else if a =? "locked" then Ok xac
  else if a =? "current" then Ok xbb
  else if a =? String "034"%char "quoted" then Ok xad
  else Err "no public key".

Definition key_from_bytes (b : bytes) : result byte :=
  match b with
  | [] => Err "no bytes"
  | k :: _ => if Byte.eqb k xff then Err "not a point of the curve" else Ok k
  end.

Definition digest (m : bytes) : bytes := repeat (hd x00 m) 32.

Definition gwei (s : string) : result N :=
  if s =? "32 Ether" then Ok 32000000000%N
  else if s =? "1 Ether" then Ok 1000000000%N
  else if s =? "999999999 Gwei" then Ok 999999999%N
  else Err "failed to parse".

Definition node := list (result config).

Definition fetch (s : node) : result config * node :=
  match s with
  | [] => (Err "unreachable", [])
  | answer :: rest => (answer, rest)
  end.

Definition sign (a : string) (d : DepositData.t) (domain : bytes) : result byte :=
  if a =? "locked" then Err "account is locked"
  else Ok (hd x00 (DepositData.PubKey d ++ domain)).

Definition root (v : ssz_value) : result bytes :=
  match v with
  | ssz_deposit _ => Ok (repeat x11 32)
  | ssz_signed _ => Ok (repeat x22 32)
  end.

Definition world_with (fetch_config : node -> result config * node) : Collaborators.
Proof.
  refine {|
    Wallet := string;
    Account := string;
    PublicKey := byte;
    BLSSignature := byte;
    NodeState := node;
    Wallet_Name := fun w => w;
    Account_Name := fun a => a;
    walletAndAccountsFromPath := accounts;
    walletAndAccountFromPath := account;
    bestPublicKey := public_key;
    PublicKey_Marshal := fun k => repeat k 48;
    BLSPublicKeyFromBytes := key_from_bytes;
    Signature_Marshal := fun s => repeat s 96;
    SHA256 := digest;
    StringToGWei := gwei;
    connect := fun s => (Ok tt, s);
    FetchChainConfig := fetch_config;
    DomainDeposit := [x03; x00; x00; x00];
    ZeroGenesisValidatorsRoot := repeat x00 32;
    Domain := fun domainType forkVersion genesisValidatorsRoot =>
                domainType ++ forkVersion ++ firstn 24 genesisValidatorsRoot;
    signStruct := sign;
    HashTreeRoot := root
  |}.
  - intros k; apply repeat_length.
  - intros s; apply repeat_length.
  - intros m; apply repeat_length.
  - intros [d | d] r E; injection E as <-; reflexivity.
Defined.

(** A node that gives the answers it was primed with. *)
Definition world : Collaborators := world_with fetch.

(** A node that cannot be reached. *)
Definition offline : Collaborators :=
  world_with (fun s => (Err "connection refused", s)).

(** The flags of
    [ethdo validator depositdata --validatoraccount=primary/validator
       --withdrawalaccount=primary/current --depositvalue="32 Ether"
       --forkversion=0x00000001]. *)
Definition one_validator : Flags :=
  {| quiet := false; verbose := false; debug := false;
     validatorDepositDataValidatorAccount := "primary/validator";
     validatorDepositDataWithdrawalAccount := "primary/current";
     validatorDepositDataWithdrawalPubKey := "";
     validatorDepositDataDepositValue := "32 Ether";
     validatorDepositDataRaw := false;
     validatorDepositDataForkVersion := "0x00000001";
     validatorDepositDataLaunchpad := false |}.

Definition with_accounts (p : string) (f : Flags) : Flags :=
  {| quiet := quiet f; verbose := verbose f; debug := debug f;
     validatorDepositDataValidatorAccount := p;
     validatorDepositDataWithdrawalAccount := validatorDepositDataWithdrawalAccount f;
     validatorDepositDataWithdrawalPubKey := validatorDepositDataWithdrawalPubKey f;
     validatorDepositDataDepositValue := validatorDepositDataDepositValue f;
     validatorDepositDataRaw := validatorDepositDataRaw f;
     validatorDepositDataForkVersion := validatorDepositDataForkVersion f;
     validatorDepositDataLaunchpad := validatorDepositDataLaunchpad f |}.

Definition with_fork_version (v : string) (f : Flags) : Flags :=
  {| quiet := quiet f; verbose := verbose f; debug := debug f;
     validatorDepositDataValidatorAccount := validatorDepositDataValidatorAccount f;
     validatorDepositDataWithdrawalAccount := validatorDepositDataWithdrawalAccount f;
     validatorDepositDataWithdrawalPubKey := validatorDepositDataWithdrawalPubKey f;
     validatorDepositDataDepositValue := validatorDepositDataDepositValue f;
     validatorDepositDataRaw := validatorDepositDataRaw f;
     validatorDepositDataForkVersion := v;
     validatorDepositDataLaunchpad := validatorDepositDataLaunchpad f |}.

Definition with_value (v : string) (f : Flags) : Flags :=
  {| quiet := quiet f; verbose := verbose f; debug := debug f;
     validatorDepositDataValidatorAccount := validatorDepositDataValidatorAccount f;
     validatorDepositDataWithdrawalAccount := validatorDepositDataWithdrawalAccount f;
     validatorDepositDataWithdrawalPubKey := validatorDepositDataWithdrawalPubKey f;
     validatorDepositDataDepositValue := v;
     validatorDepositDataRaw := validatorDepositDataRaw f;
     validatorDepositDataForkVersion := validatorDepositDataForkVersion f;
     validatorDepositDataLaunchpad := validatorDepositDataLaunchpad f |}.

Definition with_withdrawal (a k : string) (f : Flags) : Flags :=
  {| quiet := quiet f; verbose := verbose f; debug := debug f;
     validatorDepositDataValidatorAccount := validatorDepositDataValidatorAccount f;
     validatorDepositDataWithdrawalAccount := a;
     validatorDepositDataWithdrawalPubKey := k;
     validatorDepositDataDepositValue := validatorDepositDataDepositValue f;
     validatorDepositDataRaw := validatorDepositDataRaw f;
     validatorDepositDataForkVersion := validatorDepositDataForkVersion f;
     validatorDepositDataLaunchpad := validatorDepositDataLaunchpad f |}.

Definition with_debug (f : Flags) : Flags :=
  {| quiet := quiet f; verbose := verbose f; debug := true;
     validatorDepositDataValidatorAccount := validatorDepositDataValidatorAccount f;
     validatorDepositDataWithdrawalAccount := validatorDepositDataWithdrawalAccount f;
     validatorDepositDataWithdrawalPubKey := validatorDepositDataWithdrawalPubKey f;
     validatorDepositDataDepositValue := validatorDepositDataDepositValue f;
     validatorDepositDataRaw := validatorDepositDataRaw f;
     validatorDepositDataForkVersion := validatorDepositDataForkVersion f;
     validatorDepositDataLaunchpad := validatorDepositDataLaunchpad f |}.

Definition with_raw (f : Flags) : Flags :=
  {| quiet := quiet f; verbose := verbose f; debug := debug f;
     validatorDepositDataValidatorAccount := validatorDepositDataValidatorAccount f;
     validatorDepositDataWithdrawalAccount := validatorDepositDataWithdrawalAccount f;
     validatorDepositDataWithdrawalPubKey := validatorDepositDataWithdrawalPubKey f;
     validatorDepositDataDepositValue := validatorDepositDataDepositValue f;
     validatorDepositDataRaw := true;
     validatorDepositDataForkVersion := validatorDepositDataForkVersion f;
     validatorDepositDataLaunchpad := validatorDepositDataLaunchpad f |}.

Definition two_validators : Flags := with_accounts "primary/.*" one_validator.

(** Two validators and no [--forkversion]: the node is asked. *)
Definition two_validators_ask : Flags := with_fork_version "" two_validators.

(** [--withdrawalpubkey] in place of [--withdrawalaccount]. *)
Definition raw_key (k : string) : Flags := with_withdrawal "" k one_validator.

(** Both [--withdrawalaccount] and [--withdrawalpubkey]. *)
Definition both (k : string) : Flags := with_withdrawal "primary/current" k one_validator.

(** Two validators of a wallet in which an account name holds a double
    quote. *)
Definition odd_names : Flags := with_accounts "odd/.*" one_validator.

(** Two validators, the second one locked, with [--debug]. *)
Definition mixed_debug : Flags := with_debug (with_accounts "primary/mixed" one_validator).

Definition good_key : string := Eval cbv in "0x" ++ EncodeToString (repeat xbb 48).
Definition bad_key : string := Eval cbv in "0x" ++ EncodeToString (repeat xff 48).
Definition short_key : string := "0xbbbb".

(** Bytes of the sizes of a signed deposit. *)
Definition pubkey : bytes := repeat xaa 48.
Definition withdrawal : bytes := x00 :: repeat xbb 31.
Definition signature : bytes := repeat x5a 96.
Definition data_root : bytes := repeat x22 32.

(** The answer of a node that knows its genesis fork version. *)
Definition mainnet : result config :=
  Ok [("DepositContract", cv_other); ("GenesisForkVersion", cv_bytes [x00; x00; x00; x00])].

Definition testnet : result config :=
  Ok [("GenesisForkVersion", cv_bytes [x00; x00; x00; x01])].

End Mock.

(** ** More to observe *)

(** The flags as [init] declares them (lines 216-224), before the command
    line is read: every string empty, [--raw] and [--launchpad] off.  The
    switches [quiet], [verbose] and [debug] belong to the package. *)
Definition init (quiet verbose debug : bool) : Flags :=
  {| quiet := quiet; verbose := verbose; debug := debug;
     validatorDepositDataValidatorAccount := "";
     validatorDepositDataWithdrawalAccount := "";
     validatorDepositDataWithdrawalPubKey := "";
     validatorDepositDataDepositValue := "";
     validatorDepositDataRaw := false;
     validatorDepositDataForkVersion := "";
     validatorDepositDataLaunchpad := false |}.

Definition set_launchpad (b : bool) (f : Flags) : Flags :=
  {| quiet := quiet f; verbose := verbose f; debug := debug f;
     validatorDepositDataValidatorAccount := validatorDepositDataValidatorAccount f;
     validatorDepositDataWithdrawalAccount := validatorDepositDataWithdrawalAccount f;
     validatorDepositDataWithdrawalPubKey := validatorDepositDataWithdrawalPubKey f;
     validatorDepositDataDepositValue := validatorDepositDataDepositValue f;
     validatorDepositDataRaw := validatorDepositDataRaw f;
     validatorDepositDataForkVersion := validatorDepositDataForkVersion f;
     validatorDepositDataLaunchpad := b |}.

Definition set_fork_version (v : string) (f : Flags) : Flags :=
  {| quiet := quiet f; verbose := verbose f; debug := debug f;
     validatorDepositDataValidatorAccount := validatorDepositDataValidatorAccount f;
     validatorDepositDataWithdrawalAccount := validatorDepositDataWithdrawalAccount f;
     validatorDepositDataWithdrawalPubKey := validatorDepositDataWithdrawalPubKey f;
     validatorDepositDataDepositValue := validatorDepositDataDepositValue f;
     validatorDepositDataRaw := validatorDepositDataRaw f;
     validatorDepositDataForkVersion := v;
     validatorDepositDataLaunchpad := validatorDepositDataLaunchpad f |}.

Definition set_withdrawal_pubkey (k : string) (f : Flags) : Flags :=
  {| quiet := quiet f; verbose := verbose f; debug := debug f;
     validatorDepositDataValidatorAccount := validatorDepositDataValidatorAccount f;
     validatorDepositDataWithdrawalAccount := validatorDepositDataWithdrawalAccount f;
     validatorDepositDataWithdrawalPubKey := k;
     validatorDepositDataDepositValue := validatorDepositDataDepositValue f;
     validatorDepositDataRaw := validatorDepositDataRaw f;
     validatorDepositDataForkVersion := validatorDepositDataForkVersion f;
     validatorDepositDataLaunchpad := validatorDepositDataLaunchpad f |}.

Definition set_switches (q v d : bool) (f : Flags) : Flags :=
  {| quiet := q; verbose := v; debug := d;
     validatorDepositDataValidatorAccount := validatorDepositDataValidatorAccount f;
     validatorDepositDataWithdrawalAccount := validatorDepositDataWithdrawalAccount f;
     validatorDepositDataWithdrawalPubKey := validatorDepositDataWithdrawalPubKey f;
     validatorDepositDataDepositValue := validatorDepositDataDepositValue f;
     validatorDepositDataRaw := validatorDepositDataRaw f;
     validatorDepositDataForkVersion := validatorDepositDataForkVersion f;
     validatorDepositDataLaunchpad := validatorDepositDataLaunchpad f |}.

(** Two sets of flags that differ at most in [quiet], [verbose] and
    [debug]. *)
Definition same_command (f f' : Flags) : Prop :=
  validatorDepositDataValidatorAccount f = validatorDepositDataValidatorAccount f' /\
  validatorDepositDataWithdrawalAccount f = validatorDepositDataWithdrawalAccount f' /\
  validatorDepositDataWithdrawalPubKey f = validatorDepositDataWithdrawalPubKey f' /\
  validatorDepositDataDepositValue f = validatorDepositDataDepositValue f' /\
  validatorDepositDataRaw f = validatorDepositDataRaw f' /\
  validatorDepositDataForkVersion f = validatorDepositDataForkVersion f' /\
  validatorDepositDataLaunchpad f = validatorDepositDataLaunchpad f'.

(** The object of the launchpad mode (line 195). *)
Module Launchpad.

Definition members (pubkey credentials : bytes) (amount : N)
    (signature messageRoot dataRoot forkVersion : bytes) : list (string * Layout.value) :=
  [("pubkey", Layout.J_string (EncodeToString pubkey));
   ("withdrawal_credentials", Layout.J_string (EncodeToString credentials));
   ("amount", Layout.J_number amount);
   ("signature", Layout.J_string (EncodeToString signature));
   ("deposit_message_root", Layout.J_string (EncodeToString messageRoot));
   ("deposit_data_root", Layout.J_string (EncodeToString dataRoot));
   ("fork_version", Layout.J_string (EncodeToString forkVersion))].

End Launchpad.

(** How a computation that stopped is seen from the one it is part of: the
    same exit, or the same panic. *)
Definition stop_of {A B : Type} (o : outcome A) (o' : outcome B) : Prop :=
  match o with
  | Exit code => o' = Exit code
  | Panic => o' = Panic
  | Ret _ => False
  end.

Section Further.

Context {C : Collaborators}.

Definition state_of {A : Type} (r : list event * NodeState * outcome A) : NodeState :=
  snd (fst r).

(** What [outputIf] says and what the debug dump of lines 148-154 writes. *)
Definition is_note (e : event) : bool :=
  match e with Ev_outputIf _ | Ev_debug _ => true | _ => false end.

(** What a run does, as opposed to what it says: the calls to the node and
    the signing requests. *)
Definition is_deed (e : event) : bool :=
  match e with Ev_connect | Ev_FetchChainConfig | Ev_signStruct _ _ _ => true | _ => false end.

Definition is_outputIf (e : event) : bool :=
  match e with Ev_outputIf _ => true | _ => false end.

(** [alike keep m m']: started in the same state, [m] and [m'] end the same
    way, leave the node in the same state, and have produced the same events
    of the kinds [keep]. *)
Definition alike (keep : event -> bool) {A : Type} (m m' : M A) : Prop :=
  forall s,
    filter keep (events_of (m s)) = filter keep (events_of (m' s)) /\
    state_of (m s) = state_of (m' s) /\
    outcome_of (m s) = outcome_of (m' s).

(** [steady Q m]: [m] returns a value that satisfies [Q], has said things
    through [outputIf] and done nothing else, and the node is as before. *)
Definition steady {A : Type} (Q : A -> Prop) (m : M A) : Prop :=
  forall s, exists notes a,
    m s = (notes, s, Ret a) /\ forallb is_outputIf notes = true /\ Q a.

(** The account a signing request is for. *)
Definition request_account (r : Account * DepositData.t * bytes) : Account := fst (fst r).
Definition request_data (r : Account * DepositData.t * bytes) : DepositData.t := snd (fst r).
Definition request_domain (r : Account * DepositData.t * bytes) : bytes := snd r.

(** What a failed [assert] or [errCheck] leaves behind. *)
Definition said (flags : Flags) (msg : string) : list event :=
  if quiet flags then [] else [Ev_stderr msg].

(** [tidy m]: [m] returns or ends through [os.Exit(_exitFailure)]; it does
    not panic. *)
Definition tidy {A : Type} (m : M A) : Prop :=
  forall s,
    match outcome_of (m s) with
    | Ret _ => True
    | Exit code => code = _exitFailure
    | Panic => False
    end.

(** Whatever configuration the node gives, what it holds under
    [GenesisForkVersion], if anything, is a byte slice. *)
Definition node_well_typed : Prop :=
  forall s cfg,
    fst (FetchChainConfig s) = Ok cfg ->
    config_get cfg "GenesisForkVersion" <> Some cv_other.

End Further.

(** Other worlds to run the command in. *)
Module Worlds.

(** The stand-ins of [Mock] with other accounts or another node. *)
Definition make (accounts : string -> result (string * list string))
    (connect_node : Mock.node -> result unit * Mock.node)
    (fetch_config : Mock.node -> result config * Mock.node) : Collaborators.
Proof.
  refine {|
    Wallet := string;
    Account := string;
    PublicKey := byte;
    BLSSignature := byte;
    NodeState := Mock.node;
    Wallet_Name := fun w => w;
    Account_Name := fun a => a;
    walletAndAccountsFromPath := accounts;
    walletAndAccountFromPath := Mock.account;
    bestPublicKey := Mock.public_key;
    PublicKey_Marshal := fun k => repeat k 48;
    BLSPublicKeyFromBytes := Mock.key_from_bytes;
    Signature_Marshal := fun s => repeat s 96;
    SHA256 := Mock.digest;
    StringToGWei := Mock.gwei;
    connect := connect_node;
    FetchChainConfig := fetch_config;
    DomainDeposit := [x03; x00; x00; x00];
    ZeroGenesisValidatorsRoot := repeat x00 32;
    Domain := fun domainType forkVersion genesisValidatorsRoot =>
                domainType ++ forkVersion ++ firstn 24 genesisValidatorsRoot;
    signStruct := Mock.sign;
    HashTreeRoot := Mock.root
  |}.
  - intros k; apply repeat_length.
  - intros s; apply repeat_length.
  - intros m; apply repeat_length.
  - intros [d | d] r E; injection E as <-; reflexivity.
Defined.

(** A node that gives the same answer whenever it is asked. *)
Definition constant (answer : result config) : Collaborators :=
  make Mock.accounts (fun s => (Ok tt, s)) (fun s => (answer, s)).

(** A node that refuses the connection. *)
Definition unreachable : Collaborators :=
  make Mock.accounts (fun s => (Err "connection refused", s)) Mock.fetch.

(** A wallet whose second account has no public key. *)
Definition keyless : Collaborators :=
  make (fun _ => Ok ("primary", ["validator"; "keyless"])) (fun s => (Ok tt, s)) Mock.fetch.

End Worlds.

(** ** One validator after another *)

Section Validators.

Context {C : Collaborators}.

(** The node once a validator has had its fork version: as it was when a
    version is given on the command line, after a connection and a fetch
    when the node is asked (lines 119-121). *)
Definition node_after (flags : Flags) (s : NodeState) : NodeState :=
  if validatorDepositDataForkVersion flags =? ""
  then snd (FetchChainConfig (snd (connect s)))
  else s.

(** The node when the loop comes to the validator of index [i], the
    validators before it having had their fork versions. *)
Fixpoint node_at (flags : Flags) (i : nat) (s : NodeState) : NodeState :=
  match i with
  | O => s
  | S i' => node_at flags i' (node_after flags s)
  end.

(** The fork version of a validator the loop comes to with the node in state
    [s]: the one of the command line, or the byte slice under
    [GenesisForkVersion] in what the node, connected to in that state,
    gives. *)
Definition fork_version_at (flags : Flags) (s : NodeState) (forkVersion : bytes) : Prop :=
  explicit_fork_version flags forkVersion \/
  (validatorDepositDataForkVersion flags = "" /\
   fst (connect s) = Ok tt /\
   exists cfg,
     fst (FetchChainConfig (snd (connect s))) = Ok cfg /\
     config_get cfg "GenesisForkVersion" = Some (cv_bytes forkVersion)).

(** Asked with the node in state [s], the node has no genesis fork version
    to give: the fetch fails, or what it fetches has no such key. *)
Definition no_fork_version_at (s : NodeState) : Prop :=
  match fst (FetchChainConfig (snd (connect s))) with
  | Ok cfg => config_get cfg "GenesisForkVersion" = None
  | Err _ => True
  end.

(** What the command says then: the notice of line 123 through [outputIf]
    after a failed fetch, the message of line 127 when the key is missing. *)
Definition no_fork_version_said (flags : Flags) (s : NodeState) : list event :=
  match fst (FetchChainConfig (snd (connect s))) with
  | Ok _ => said flags "Failed to obtain genesis fork version"
  | Err _ => if quiet flags then [] else [Ev_outputIf Format.could_not_connect]
  end.

(** The signing request of the validator account [a] when the loop comes to
    it with the node in state [s]: for itself, with its own public key, the
    credentials [wc] and the amount [val], under the deposit domain of its
    fork version. *)
Definition request_at (flags : Flags) (wc : bytes) (val : N) (a : Account)
    (s : NodeState) (r : Account * DepositData.t * bytes) : Prop :=
  request_account r = a /\
  (exists key,
     bestPublicKey a = Ok key /\
     request_data r = DepositData.make (PublicKey_Marshal key) wc val) /\
  exists forkVersion,
    fork_version_at flags s forkVersion /\
    request_domain r = Domain DomainDeposit forkVersion ZeroGenesisValidatorsRoot.

(** The requests [l] are those of the first accounts of [accts], in order,
    the loop starting with the node in state [s]. *)
Fixpoint requests_from (flags : Flags) (wc : bytes) (val : N) (accts : list Account)
    (s : NodeState) (l : list (Account * DepositData.t * bytes)) {struct l} : Prop :=
  match l with
  | [] => True
  | r :: l' =>
      match accts with
      | [] => False
      | a :: accts' =>
          request_at flags wc val a s r /\
          requests_from flags wc val accts' (node_after flags s) l'
      end
  end.

(** What the checks of lines 115-117 say of a fork version that is no four
    bytes of hexadecimal. *)
Definition invalid_fork_version (flags : Flags) : string :=
  match DecodeString (TrimPrefix (validatorDepositDataForkVersion flags) "0x") with
  | Ok _ => "Fork version must be exactly four bytes"
  | Err e =>
      (Sprintf "Failed to decode fork version %s"
         [a_string (validatorDepositDataForkVersion flags)] ++ ": " ++ e)%string
  end.

(** What the checks of lines 68 and 81-83 say of a [--withdrawalpubkey]
    that is no 48 bytes of hexadecimal, no withdrawal account being given. *)
Definition invalid_withdrawal_pubkey (flags : Flags) : string :=
  if validatorDepositDataWithdrawalPubKey flags =? "" then
    "--withdrawalaccount or --withdrawalpubkey is required"
  else
    match DecodeString (TrimPrefix (validatorDepositDataWithdrawalPubKey flags) "0x") with
    | Ok _ => "Public key should be 48 bytes"
    | Err e => ("Invalid withdrawal public key: " ++ e)%string
    end.

(** What lines 148-154 write to standard output for signed deposit data. *)
Definition dump_text (signedDepositData : SignedDepositData.t) : string :=
  (Sprintf ("Signed deposit data:" ++ Format.nl) []
   ++ Sprintf (" Public key: %#x" ++ Format.nl)
        [a_bytes (SignedDepositData.PubKey signedDepositData)]
   ++ Sprintf (" Withdrawal credentials: %#x" ++ Format.nl)
        [a_bytes (SignedDepositData.WithdrawalCredentials signedDepositData)]
   ++ Sprintf (" Value: %d" ++ Format.nl)
        [a_uint64 (SignedDepositData.Value signedDepositData)]
   ++ Sprintf (" Signature: %#x" ++ Format.nl)
        [a_bytes (SignedDepositData.Signature signedDepositData)])%string.

(** What the signing request [r] leaves on standard output: with [debug]
    set, the signed deposit data when the account has signed; nothing
    otherwise. *)
Definition signed_dump (flags : Flags) (r : Account * DepositData.t * bytes) : string :=
  if debug flags then
    match signStruct (request_account r) (request_data r) (request_domain r) with
    | Ok signature =>
        dump_text
          {| SignedDepositData.PubKey := DepositData.PubKey (request_data r);
             SignedDepositData.WithdrawalCredentials :=
               DepositData.WithdrawalCredentials (request_data r);
             SignedDepositData.Value := DepositData.Value (request_data r);
             SignedDepositData.Signature := Signature_Marshal signature |}
    | Err _ => ""
    end
  else "".

Fixpoint dumped (flags : Flags) (l : list (Account * DepositData.t * bytes)) : string :=
  match l with
  | [] => ""
  | r :: rest => (signed_dump flags r ++ dumped flags rest)%string
  end.

(** The last word of a run that gives up: a message of [assert] or
    [errCheck] on the error stream, or the notice of line 123. *)
Definition is_reason (e : event) : bool :=
  match e with
  | Ev_stderr _ => true
  | Ev_outputIf msg => msg =? Format.could_not_connect
  | _ => false
  end.

(** [explained flags m]: unless [quiet] is set, when [m] ends through
    [os.Exit] the last thing it did was to say why. *)
Definition explained {A : Type} (flags : Flags) (m : M A) : Prop :=
  quiet flags = false ->
  forall s code,
    outcome_of (m s) = Exit code ->
    exists before e, events_of (m s) = before ++ [e] /\ is_reason e = true.

End Validators.

(** ** Reading a batch back *)

Module Json.

(** An object at the head of a text, and what follows it. *)
Definition read_object_then (s : string)
    : option (list (string * Layout.value) * string) :=
  match Layout.skip_space s with
  | String "{" rest =>
      match Layout.skip_space rest with
      | String "}" tail => Some ([], tail)
      | _ =>
          match Layout.read_member rest with
          | Some (key, v, tail) =>
              match Layout.read_more (String.length tail) tail with
              | Some (members, tail') => Some ((key, v) :: members, tail')
              | None => None
              end
          | None => None
          end
      end
  | _ => None
  end.

(** The elements after the first, up to the closing bracket. *)
Fixpoint read_elements {E : Type} (read : string -> option (E * string)) (fuel : nat)
    (s : string) : option (list E * string) :=
  match fuel with
  | O => None
  | S fuel =>
      match Layout.skip_space s with
      | String "]" rest => Some ([], rest)
      | String "," rest =>
          match read rest with
          | Some (e, tail) =>
              match read_elements read fuel tail with
              | Some (elements, tail') => Some (e :: elements, tail')
              | None => None
              end
          | None => None
          end
      | _ => None
      end
  end.

(** An array at the head of a text, its elements read by [read], and what
    follows it. *)
Definition read_array_then {E : Type} (read : string -> option (E * string)) (s : string)
    : option (list E * string) :=
  match Layout.skip_space s with
  | String "[" rest =>
      match Layout.skip_space rest with
      | String "]" tail => Some ([], tail)
      | _ =>
          match read rest with
          | Some (e, tail) =>
              match read_elements read (String.length tail) tail with
              | Some (elements, tail') => Some (e :: elements, tail')
              | None => None
              end
          | None => None
          end
      end
  | _ => None
  end.

(** A text that is one array and nothing more. *)
Definition read_array {E : Type} (read : string -> option (E * string)) (s : string)
    : option (list E) :=
  match read_array_then read s with
  | Some (elements, tail) =>
      match Layout.skip_space tail with
      | "" => Some elements
      | _ => None
      end
  | None => None
  end.

(** *** Whether a text is JSON at all

    The grammar of RFC 8259: objects, arrays, strings, numbers with sign,
    fraction and exponent, and the three literals. *)

Definition is_hex (c : ascii) : bool :=
  match fromHexChar c with Some _ => true | None => false end.

(** What follows the closing quote of a string, from after its opening
    quote. *)
Fixpoint after_string (s : string) : option string :=
  match s with
  | "" => None
  | String c rest =>
      if (N_of_ascii c =? 34)%N then Some rest
      else if (N_of_ascii c =? 92)%N then
        match rest with
        | String "u" (String h1 (String h2 (String h3 (String h4 rest')))) =>
            if is_hex h1 && is_hex h2 && is_hex h3 && is_hex h4
            then after_string rest' else None
        | String e rest' =>
            if (N_of_ascii e =? 34)%N || (N_of_ascii e =? 92)%N || (N_of_ascii e =? 47)%N
               || (N_of_ascii e =? 98)%N || (N_of_ascii e =? 102)%N
               || (N_of_ascii e =? 110)%N || (N_of_ascii e =? 114)%N
               || (N_of_ascii e =? 116)%N
            then after_string rest' else None
        | "" => None
        end
      else if (N_of_ascii c <? 32)%N then None
      else after_string rest
  end.

Fixpoint after_digits (s : string) : string :=
  match s with
  | String c rest => if Layout.is_digit c then after_digits rest else s
  | "" => ""
  end.

(** One digit or more. *)
Definition digits_then (s : string) : option string :=
  match s with
  | String c rest => if Layout.is_digit c then Some (after_digits rest) else None
  | "" => None
  end.

Definition after_fraction (s : string) : option string :=
  match s with
  | String "." rest => digits_then rest
  | _ => Some s
  end.

Definition after_exponent (s : string) : option string :=
  match s with
  | String c rest =>
      if (N_of_ascii c =? 101)%N || (N_of_ascii c =? 69)%N then
        match rest with
        | String "+" rest' => digits_then rest'
        | String "-" rest' => digits_then rest'
        | _ => digits_then rest
        end
      else Some s
  | "" => Some s
  end.

Definition after_number (s : string) : option string :=
  let unsigned := match s with String "-" rest => rest | _ => s end in
  let integer :=
    match unsigned with
    | String "0" rest => Some rest
    | String c rest => if Layout.is_digit c then Some (after_digits rest) else None
    | "" => None
    end in
  match integer with
  | Some rest =>
      match after_fraction rest with
      | Some rest' => after_exponent rest'
      | None => None
      end
  | None => None
  end.

Definition after_literal (s : string) : option string :=
  if String.prefix "true" s then Some (String.substring 4 (String.length s - 4) s)
  else if String.prefix "false" s then Some (String.substring 5 (String.length s - 5) s)
  else if String.prefix "null" s then Some (String.substring 4 (String.length s - 4) s)
  else None.

(** What follows a value at the head of a text; what follows the members of
    an object, up to and with its closing brace; what follows the elements
    of an array, up to and with its closing bracket. *)
Fixpoint after_value (fuel : nat) (s : string) : option string :=
  match fuel with
  | O => None
  | S fuel =>
      match Layout.skip_space s with
      | String "{" rest =>
          match Layout.skip_space rest with
          | String "}" tail => Some tail
          | _ => after_members fuel rest
          end
      | String "[" rest =>
          match Layout.skip_space rest with
          | String "]" tail => Some tail
          | _ => after_elements fuel rest
          end
      | String c rest =>
          if (N_of_ascii c =? 34)%N then after_string rest
          else if Layout.is_digit c || (N_of_ascii c =? 45)%N then after_number (String c rest)
          else after_literal (String c rest)
      | "" => None
      end
  end
with after_members (fuel : nat) (s : string) : option string :=
  match fuel with
  | O => None
  | S fuel =>
      match Layout.skip_space s with
      | String c rest =>
          if (N_of_ascii c =? 34)%N then
            match after_string rest with
            | Some tail =>
                match Layout.skip_space tail with
                | String ":" tail' =>
                    match after_value fuel tail' with
                    | Some more =>
                        match Layout.skip_space more with
                        | String "}" tail'' => Some tail''
                        | String "," tail'' => after_members fuel tail''
                        | _ => None
                        end
                    | None => None
                    end
                | _ => None
                end
            | None => None
            end
          else None
      | "" => None
      end
  end
with after_elements (fuel : nat) (s : string) : option string :=
  match fuel with
  | O => None
  | S fuel =>
      match after_value fuel s with
      | Some more =>
          match Layout.skip_space more with
          | String "]" tail => Some tail
          | String "," tail => after_elements fuel tail
          | _ => None
          end
      | None => None
      end
  end.

(** A text that is one JSON value and nothing more. *)
Definition valid (s : string) : bool :=
  match after_value (2 * String.length s + 2) s with
  | Some tail =>
      match Layout.skip_space tail with
      | "" => true
      | _ => false
      end
  | None => false
  end.

(** A text that is one JSON array and nothing more. *)
Definition is_array (s : string) : bool :=
  valid s && match Layout.skip_space s with String "[" _ => true | _ => false end.

End Json.

(** Batches of two validators in the other two modes. *)
Module Batches.

Definition launchpad : Flags := set_launchpad true Mock.two_validators.
Definition raw : Flags := Mock.with_raw Mock.two_validators.

End Batches.

(** * Properties *)

(** ** Strings *)

Lemma append_nil_r (s : string) : (s ++ "")%string = s.
Proof. induction s as [| c s IH]; simpl; [reflexivity | now rewrite IH]. Qed.

Lemma append_assoc (a b c : string) : ((a ++ b) ++ c)%string = (a ++ (b ++ c))%string.
Proof. induction a as [| x a IH]; simpl; [reflexivity | now rewrite IH]. Qed.

Lemma substring_all (s : string) : String.substring 0 (String.length s) s = s.
Proof. induction s as [| c s IH]; simpl; [reflexivity | now rewrite IH]. Qed.

Lemma TrimPrefix_0x (s : string) : TrimPrefix ("0x" ++ s) "0x" = s.
Proof.
  unfold TrimPrefix. simpl. rewrite Nat.sub_0_r.
  replace (String.prefix "" s) with true by (destruct s; reflexivity).
  apply substring_all.
Qed.

(** ** Hexadecimal *)

Lemma hex_digits_of_byte (c : byte) :
  fromHexChar (digit_at (Byte.to_nat c / 16)) = Some (N.of_nat (Byte.to_nat c / 16)) /\
  fromHexChar (digit_at (Byte.to_nat c mod 16)) = Some (N.of_nat (Byte.to_nat c mod 16)) /\
  byte_of_nibbles (N.of_nat (Byte.to_nat c / 16)) (N.of_nat (Byte.to_nat c mod 16)) = c.
Proof. destruct c; vm_compute; repeat split. Qed.

Lemma DecodeString_EncodeToString (b : bytes) : DecodeString (EncodeToString b) = Ok b.
Proof.
  induction b as [| c b IH]; [reflexivity |].
  destruct (hex_digits_of_byte c) as (Hhi & Hlo & Hc).
  cbn [EncodeToString DecodeString].
  rewrite Hhi, Hlo, IH, Hc. reflexivity.
Qed.

Lemma verb_sharp_x_nonempty (b : bytes) :
  b <> [] -> verb_sharp_x b = ("0x" ++ EncodeToString b)%string.
Proof. destruct b; [congruence | reflexivity]. Qed.

Lemma Sprintf_sharp_x (b : bytes) :
  b <> [] -> Sprintf "%#x" [a_bytes b] = ("0x" ++ EncodeToString b)%string.
Proof.
  intros Hb. cbn [Sprintf with_operand format_sharp_x].
  rewrite verb_sharp_x_nonempty by assumption. apply append_nil_r.
Qed.

Lemma EncodeToString_length (b : bytes) :
  String.length (EncodeToString b) = 2 * List.length b.
Proof. induction b as [| c b IH]; simpl; [reflexivity | rewrite IH; lia]. Qed.

(** ** The contract call *)

Lemma to_N_byte_of_nibbles (n : N) :
  Byte.to_N (byte_of_nibbles ((n / 16) mod 16) (n mod 16)) = (n mod 256)%N.
Proof.
  unfold byte_of_nibbles.
  assert (E : ((n / 16) mod 16 * 16 + n mod 16 = n mod 256)%N).
  { change 256%N with (16 * 16)%N. rewrite N.Div0.mod_mul_r. lia. }
  rewrite E. destruct (Byte.of_N (n mod 256)) as [x |] eqn:Ex.
  - now apply Byte.to_of_N.
  - apply Byte.of_N_None_iff in Ex.
    pose proof (N.mod_upper_bound n 256). lia.
Qed.

Lemma le_bytes_length (width : nat) (n : N) : List.length (Raw.le_bytes width n) = width.
Proof. revert n. induction width as [| w IH]; intros n; cbn; [reflexivity | now rewrite IH]. Qed.

Lemma be_value_app (a : bytes) (x : byte) :
  Raw.be_value (a ++ [x]) = (Raw.be_value a * 256 + Byte.to_N x)%N.
Proof. unfold Raw.be_value. now rewrite fold_left_app. Qed.

Lemma be_value_be_bytes (width : nat) (n : N) :
  Raw.be_value (Raw.be_bytes width n) = (n mod 256 ^ N.of_nat width)%N.
Proof.
  unfold Raw.be_bytes. revert n. induction width as [| w IH]; intros n.
  - cbn. now rewrite N.mod_1_r.
  - cbn [Raw.le_bytes rev]. rewrite be_value_app, IH, to_N_byte_of_nibbles.
    rewrite Nat2N.inj_succ, N.pow_succ_r'.
    rewrite (N.Div0.mod_mul_r n 256 (256 ^ N.of_nat w)). lia.
Qed.

Lemma word_size (n : N) : List.length (Raw.word n) = 32.
Proof. unfold Raw.word, Raw.be_bytes. now rewrite length_rev, le_bytes_length. Qed.

Lemma word_value (n : N) : (n < 2 ^ 256)%N -> Raw.be_value (Raw.word n) = n.
Proof.
  intros H. unfold Raw.word. rewrite be_value_be_bytes.
  apply N.mod_small. exact H.
Qed.

Section Slices.

Variable A : Type.

Lemma skipn_exact (a b : list A) (n : nat) :
  List.length a = n -> skipn n (a ++ b) = b.
Proof.
  intros <-. rewrite skipn_app, skipn_all, Nat.sub_diag. reflexivity.
Qed.

Lemma firstn_exact (a b : list A) (n : nat) :
  List.length a = n -> firstn n (a ++ b) = a.
Proof.
  intros <-. rewrite firstn_app, firstn_all, Nat.sub_diag. simpl. apply app_nil_r.
Qed.

End Slices.

Lemma slice_middle (a b c : bytes) (lo hi : nat) :
  List.length a = lo -> List.length b = hi - lo ->
  Raw.slice lo hi (a ++ b ++ c) = b.
Proof.
  intros Ha Hb. unfold Raw.slice.
  rewrite (skipn_exact _ a (b ++ c) lo Ha). apply firstn_exact, Hb.
Qed.

Lemma slice_last (a b : bytes) (lo hi : nat) :
  List.length a = lo -> List.length b = hi - lo ->
  Raw.slice lo hi (a ++ b) = b.
Proof.
  intros Ha Hb. rewrite <- (app_nil_r b) at 1. apply slice_middle; assumption.
Qed.

Section Call.

Variables root pubkey credentials signature : bytes.
Hypothesis pubkey_size : List.length pubkey = 48.
Hypothesis credentials_size : List.length credentials = 32.
Hypothesis signature_size : List.length signature = 96.
Hypothesis root_size : List.length root = 32.

Lemma txData_layout :
  Raw.txData root pubkey credentials signature =
  Raw.selector ++ Raw.word 0x80 ++ Raw.word 0xe0 ++ Raw.word 0x120 ++ root
    ++ (Raw.word 0x30 ++ pubkey ++ repeat x00 16)
    ++ (Raw.word 0x20 ++ credentials)
    ++ (Raw.word 0x60 ++ signature).
Proof.
  unfold Raw.txData. repeat rewrite <- app_assoc. reflexivity.
Qed.

Lemma abi_call_layout :
  Raw.abi_call root pubkey credentials signature =
  Raw.selector ++ Raw.word 0x80 ++ Raw.word 0xe0 ++ Raw.word 0x120 ++ root
    ++ (Raw.word 0x30 ++ pubkey ++ repeat x00 16)
    ++ (Raw.word 0x20 ++ credentials)
    ++ (Raw.word 0x60 ++ signature).
Proof.
  unfold Raw.abi_call, Raw.dynamic, Raw.pad32. cbn zeta.
  rewrite !length_app, !word_size, !repeat_length.
  rewrite pubkey_size, credentials_size, signature_size.
  change ((32 - 48 mod 32) mod 32) with 16.
  change ((32 - 32 mod 32) mod 32) with 0.
  change ((32 - 96 mod 32) mod 32) with 0.
  change (N.of_nat (4 * 32)) with 0x80%N.
  change (N.of_nat (4 * 32 + (32 + (48 + 16)))) with 0xe0%N.
  change (N.of_nat (4 * 32 + (32 + (48 + 16)) + (32 + (32 + 0)))) with 0x120%N.
  change (N.of_nat 48) with 0x30%N.
  change (N.of_nat 32) with 0x20%N.
  change (N.of_nat 96) with 0x60%N.
  cbn [repeat]. rewrite !app_nil_r. reflexivity.
Qed.

Lemma txData_length : List.length (Raw.txData root pubkey credentials signature) = 420.
Proof.
  unfold Raw.txData. rewrite !length_app.
  rewrite pubkey_size, credentials_size, signature_size, root_size. reflexivity.
Qed.

Lemma txData_nonempty : Raw.txData root pubkey credentials signature <> [].
Proof. intros E. pose proof txData_length as L. rewrite E in L. discriminate. Qed.

Lemma slice_at (l a b c : bytes) (lo hi : nat) :
  l = a ++ b ++ c -> List.length a = lo -> List.length b = hi - lo ->
  Raw.slice lo hi l = b.
Proof. intros ->. apply slice_middle. Qed.

Lemma bytes_eqb_refl (a : bytes) : Raw.bytes_eqb a a = true.
Proof. unfold Raw.bytes_eqb. destruct (list_eq_dec _ a a); congruence. Qed.

Lemma args_layout :
  skipn 4 (Raw.txData root pubkey credentials signature) =
  Raw.head ++ root ++ Raw.tail_pubkey pubkey
    ++ Raw.tail_credentials credentials ++ Raw.tail_signature signature.
Proof. rewrite txData_layout. reflexivity. Qed.

Ltac parts := unfold Raw.head, Raw.tail_pubkey, Raw.tail_credentials, Raw.tail_signature.

Ltac lengths :=
  parts; repeat rewrite length_app;
  rewrite ?pubkey_size, ?credentials_size, ?signature_size, ?root_size;
  reflexivity.

Ltac same_bytes := parts; repeat rewrite <- app_assoc; rewrite ?app_nil_r; reflexivity.

(** The slice of the call data, or of its arguments, between [before] and
    [after]. *)
Ltac cut_at before after :=
  apply (slice_at _ before _ after);
  [ try first [ rewrite txData_layout | rewrite args_layout ]; same_bytes
  | lengths
  | lengths ].

Lemma parse_fixed_txData :
  Raw.parse_fixed (Raw.txData root pubkey credentials signature) =
  Raw.mk_fields pubkey credentials signature root.
Proof.
  unfold Raw.parse_fixed. f_equal.
  - cut_at (Raw.selector ++ Raw.head ++ root ++ Raw.word 0x30)
           (repeat x00 16 ++ Raw.tail_credentials credentials
              ++ Raw.tail_signature signature).
  - cut_at (Raw.selector ++ Raw.head ++ root ++ Raw.tail_pubkey pubkey ++ Raw.word 0x20)
           (Raw.tail_signature signature).
  - cut_at (Raw.selector ++ Raw.head ++ root ++ Raw.tail_pubkey pubkey
              ++ Raw.tail_credentials credentials ++ Raw.word 0x60)
           (@nil byte).
  - cut_at (Raw.selector ++ Raw.head)
           (Raw.tail_pubkey pubkey ++ Raw.tail_credentials credentials
              ++ Raw.tail_signature signature).
Qed.

Lemma word_at_cut (l a c : bytes) (n : N) (off : nat) :
  l = a ++ Raw.word n ++ c -> List.length a = off ->
  Raw.be_value (Raw.word n) = n ->
  Raw.word_at l off = N.to_nat n.
Proof.
  intros E Ha Hn. unfold Raw.word_at.
  rewrite (slice_at l a (Raw.word n) c off (off + 32) E Ha).
  - now rewrite Hn.
  - replace (off + 32 - off) with 32 by lia. reflexivity.
Qed.

(** The word of the arguments between [before] and [after] is [n]. *)
Ltac word_is n before after :=
  rewrite (word_at_cut _ before after n); [ | same_bytes | lengths | reflexivity ].

Lemma decode_call_txData :
  Raw.decode_call (Raw.txData root pubkey credentials signature) =
  Some (Raw.mk_fields pubkey credentials signature root).
Proof.
  unfold Raw.decode_call.
  replace (Raw.slice 0 4 (Raw.txData root pubkey credentials signature))
    with Raw.selector by (rewrite txData_layout; reflexivity).
  rewrite bytes_eqb_refl, args_layout. unfold Raw.dynamic_at.
  f_equal. f_equal.
  - word_is 0x80%N (@nil byte)
      (Raw.word 0xe0 ++ Raw.word 0x120 ++ root ++ Raw.tail_pubkey pubkey
         ++ Raw.tail_credentials credentials ++ Raw.tail_signature signature).
    word_is 0x30%N (Raw.head ++ root)
      (pubkey ++ repeat x00 16 ++ Raw.tail_credentials credentials
         ++ Raw.tail_signature signature).
    cut_at (Raw.head ++ root ++ Raw.word 0x30)
           (repeat x00 16 ++ Raw.tail_credentials credentials
              ++ Raw.tail_signature signature).
  - word_is 0xe0%N (Raw.word 0x80)
      (Raw.word 0x120 ++ root ++ Raw.tail_pubkey pubkey
         ++ Raw.tail_credentials credentials ++ Raw.tail_signature signature).
    word_is 0x20%N (Raw.head ++ root ++ Raw.tail_pubkey pubkey)
      (credentials ++ Raw.tail_signature signature).
    cut_at (Raw.head ++ root ++ Raw.tail_pubkey pubkey ++ Raw.word 0x20)
           (Raw.tail_signature signature).
  - word_is 0x120%N (Raw.word 0x80 ++ Raw.word 0xe0)
      (root ++ Raw.tail_pubkey pubkey ++ Raw.tail_credentials credentials
         ++ Raw.tail_signature signature).
    word_is 0x60%N
      (Raw.head ++ root ++ Raw.tail_pubkey pubkey ++ Raw.tail_credentials credentials)
      signature.
    cut_at (Raw.head ++ root ++ Raw.tail_pubkey pubkey
              ++ Raw.tail_credentials credentials ++ Raw.word 0x60)
           (@nil byte).
  - cut_at Raw.head
           (Raw.tail_pubkey pubkey ++ Raw.tail_credentials credentials
              ++ Raw.tail_signature signature).
Qed.

Lemma output_decodes :
  DecodeString (TrimPrefix (Raw.output root pubkey credentials signature) "0x") =
  Ok (Raw.txData root pubkey credentials signature).
Proof.
  unfold Raw.output. rewrite Sprintf_sharp_x by apply txData_nonempty.
  rewrite TrimPrefix_0x. apply DecodeString_EncodeToString.
Qed.

End Call.

Section Logic.

Context {C : Collaborators}.

Lemma failure_Exit {A : Type} (code : Z) : code <> 0%Z -> failure (@Exit A code).
Proof. intros H. exact H. Qed.

Lemma failure_Panic {A : Type} : failure (@Panic A).
Proof. unfold failure. simpl. discriminate. Qed.

Lemma failure_exitFailure {A : Type} : failure (@Exit A _exitFailure).
Proof. unfold failure. simpl. discriminate. Qed.

Lemma not_failure_Ret {A : Type} (a : A) : ~ failure (Ret a).
Proof. unfold failure. simpl. congruence. Qed.

(** *** Rules of [spec] *)

Lemma spec_ret {A : Type} (P : event -> Prop) (Q : A -> Prop) (a : A) :
  Q a -> spec P Q (ret a).
Proof. intros H s. split; [constructor | exact H]. Qed.

Lemma spec_bind {A B : Type} (P : event -> Prop) (Q : A -> Prop) (R : B -> Prop)
    (m : M A) (k : A -> M B) :
  spec P Q m -> (forall a, Q a -> spec P R (k a)) -> spec P R (bind m k).
Proof.
  intros Hm Hk s. specialize (Hm s). unfold bind.
  destruct (m s) as [[tr s'] [a | code |]]; cbn in Hm |- *; try exact Hm.
  destruct Hm as [Htr Ha]. specialize (Hk a Ha s').
  destruct (k a s') as [[tr' s''] o]. cbn in Hk |- *.
  split; [apply Forall_app | ]; tauto.
Qed.

Lemma spec_weaken {A : Type} (P P' : event -> Prop) (Q Q' : A -> Prop) (m : M A) :
  spec P Q m -> (forall e, P e -> P' e) -> (forall a, Q a -> Q' a) -> spec P' Q' m.
Proof.
  intros Hm HP HQ s. destruct (Hm s) as [Htr Ho]. split.
  - eapply Forall_impl; eassumption.
  - destruct (outcome_of (m s)); auto.
Qed.

Lemma spec_post {A : Type} (P : event -> Prop) (Q Q' : A -> Prop) (m : M A) :
  spec P Q m -> (forall a, Q a -> Q' a) -> spec P Q' m.
Proof. intros Hm HQ. eapply spec_weaken; eauto. Qed.

Lemma spec_emit (P : event -> Prop) (Q : unit -> Prop) (e : event) :
  P e -> Q tt -> spec P Q (emit e).
Proof. intros He Hq s. split; [repeat constructor; exact He | exact Hq]. Qed.

Lemma spec_os_Exit {A : Type} (P : event -> Prop) (Q : A -> Prop) (code : Z) :
  code <> 0%Z -> spec P Q (os_Exit code).
Proof. intros H s. split; [constructor | exact H]. Qed.

Lemma spec_panic {A : Type} (P : event -> Prop) (Q : A -> Prop) : spec P Q panic.
Proof. intros s. split; [constructor | apply failure_Panic]. Qed.

Lemma spec_outputIf (P : event -> Prop) (condition : bool) (msg : string) :
  P (Ev_outputIf msg) -> spec P (fun _ => True) (outputIf condition msg).
Proof.
  intros H. unfold outputIf. destruct condition.
  - apply spec_emit; auto.
  - apply spec_ret; auto.
Qed.

Lemma spec_assert (flags : Flags) (P : event -> Prop) (condition : bool) (msg : string) :
  P (Ev_stderr msg) -> spec P (fun _ => condition = true) (assert flags condition msg).
Proof.
  intros H. unfold assert. destruct condition.
  - apply spec_ret; reflexivity.
  - eapply spec_bind with (Q := fun _ => True).
    + destruct (quiet flags); [apply spec_ret | apply spec_emit]; auto.
    + intros _ _. apply spec_os_Exit. discriminate.
Qed.

Lemma spec_errCheck {A : Type} (flags : Flags) (P : event -> Prop)
    (r : result A) (msg : string) :
  (forall text, P (Ev_stderr text)) ->
  spec P (fun v => r = Ok v) (errCheck flags r msg).
Proof.
  intros H. unfold errCheck. destruct r as [v | e].
  - apply spec_ret; reflexivity.
  - eapply spec_bind with (Q := fun _ => True).
    + destruct (quiet flags); [apply spec_ret | apply spec_emit]; auto.
    + intros _ _. apply spec_os_Exit. discriminate.
Qed.

Lemma spec_call_connect (P : event -> Prop) :
  P Ev_connect -> spec P (fun _ => True) call_connect.
Proof.
  intros H s. unfold call_connect. destruct (connect s) as [r s'].
  split; [repeat constructor; exact H | exact I].
Qed.

Lemma spec_call_FetchChainConfig (P : event -> Prop) :
  P Ev_FetchChainConfig ->
  spec P (fun r => exists s, fst (FetchChainConfig s) = r) call_FetchChainConfig.
Proof.
  intros H s. unfold call_FetchChainConfig.
  destruct (FetchChainConfig s) as [r s'] eqn:E.
  split; [repeat constructor; exact H | ].
  cbn. exists s. now rewrite E.
Qed.

Lemma spec_call_signStruct (P : event -> Prop) (a : Account) (d : DepositData.t)
    (domain : bytes) :
  P (Ev_signStruct a d domain) ->
  spec P (fun r => r = signStruct a d domain) (call_signStruct a d domain).
Proof.
  intros H. unfold call_signStruct.
  eapply spec_bind with (Q := fun _ => True).
  - apply spec_emit; auto.
  - intros _ _. apply spec_ret. reflexivity.
Qed.

Lemma spec_for_range {A : Type} (P : event -> Prop) (R : A -> Prop)
    (l : list A) (body : A -> M unit) :
  (forall x, spec P (fun _ => R x) (body x)) ->
  spec P (fun _ => Forall R l) (for_range l body).
Proof.
  intros Hbody. induction l as [| x l IH]; cbn [for_range].
  - apply spec_ret. constructor.
  - eapply spec_bind; [apply Hbody |]. intros ? Hx. cbn beta in Hx.
    eapply spec_weaken; [apply IH | auto |]. intros ? Hl. constructor; assumption.
Qed.

Lemma spec_for_range_with {A B : Type} (P : event -> Prop) (R : A -> B -> Prop)
    (l : list A) (body : list B -> A -> M (list B)) (v : list B) :
  (forall v x, spec P (fun r => exists o, r = v ++ [o] /\ R x o) (body v x)) ->
  spec P (fun r => exists new, r = v ++ new /\ Forall2 R l new) (for_range_with l body v).
Proof.
  intros Hbody. revert v. induction l as [| x l IH]; intros v; cbn [for_range_with].
  - apply spec_ret. exists []. split; [now rewrite app_nil_r | constructor].
  - eapply spec_bind; [apply Hbody |]. intros v' (o & -> & Ho).
    eapply spec_weaken; [apply IH | auto |]. intros r (new & -> & Hnew).
    exists (o :: new). split; [now rewrite <- app_assoc | constructor; assumption].
Qed.

End Logic.

Lemma given (s : string) : negb (s =? "") = true -> s <> "".
Proof. intros H E. subst s. discriminate. Qed.

Lemma not_given (s : string) : negb (s =? "") = false -> s = "".
Proof.
  intros H. apply negb_false_iff in H. now apply String.eqb_eq.
Qed.

Ltac obvious := cbn; auto; try exact I.

(** One step through a computation: the rule of its first call. *)
Ltac run_rule :=
  lazymatch goal with
  | |- spec _ _ (bind (assert _ _ _) _) =>
      eapply spec_bind; [apply spec_assert; obvious | intros ? ?]
  | |- spec _ _ (bind (errCheck _ _ _) _) =>
      eapply spec_bind; [apply spec_errCheck; intros; obvious | intros ? ?]
  | |- spec _ _ (bind (outputIf _ _) _) =>
      eapply spec_bind; [apply spec_outputIf; obvious | intros _ _]
  | |- spec _ _ (bind call_connect _) =>
      eapply spec_bind; [apply spec_call_connect; obvious | intros ? _]
  | |- spec _ _ (bind call_FetchChainConfig _) =>
      eapply spec_bind; [apply spec_call_FetchChainConfig; obvious | intros ? ?]
  | |- spec _ _ (bind (emit _) _) =>
      eapply spec_bind with (Q := fun _ => True);
      [apply spec_emit; obvious | intros _ _]
  | |- spec _ _ (assert _ _ _) =>
      eapply spec_post; [apply spec_assert; obvious | intros ? ?]
  | |- spec _ _ (errCheck _ _ _) =>
      eapply spec_post; [apply spec_errCheck; intros; obvious | intros ? ?]
  | |- spec _ _ (outputIf _ _) =>
      eapply spec_post; [apply spec_outputIf; obvious | intros _ _]
  | |- spec _ _ (emit _) => apply spec_emit; [obvious |]
  | |- spec _ _ (ret _) => apply spec_ret
  | |- spec _ _ panic => apply spec_panic
  | |- spec _ _ (os_Exit _) => apply spec_os_Exit; discriminate
  end.

Ltac run_step := run_rule; cbn beta in *.

Section Stages.

Context {C : Collaborators}.
Variable flags : Flags.

Lemma validator_accounts_spec :
  spec message (fun x => validators flags (fst x) (snd x)) (validator_accounts flags).
Proof.
  unfold validator_accounts.
  run_step. run_step. destruct a0 as [w accts]. run_step.
  eapply spec_bind.
  - apply spec_for_range with (R := fun a => exists key, bestPublicKey a = Ok key).
    intros x. run_step. run_step.
    run_step. eauto.
  - intros ? Hkeys. run_step. cbn. repeat split; auto.
    + now apply given.
    + destruct accts; [discriminate | congruence].
Qed.

Lemma set_first_spec (P : event -> Prop) (b : bytes) (x : byte) :
  spec P (fun r => b <> [] /\ r = Layout.with_prefix x b) (set_first b x).
Proof.
  destruct b as [| y rest]; cbn [set_first]; run_step.
  split; [discriminate | reflexivity].
Qed.

Lemma withdrawal_credentials_spec :
  spec message (credentials flags) (withdrawal_credentials flags).
Proof.
  unfold withdrawal_credentials. run_step.
  eapply spec_bind with
    (Q := fun d => exists key, withdrawal_key flags key /\ d = SHA256 (PublicKey_Marshal key)).
  - destruct (negb (validatorDepositDataWithdrawalAccount flags =? "")) eqn:Eacc.
    + run_step. destruct a0 as [w acct]. run_step. run_step. run_step.
      exists a0. split; [left | reflexivity].
      split; [now apply given | eauto].
    + run_step. run_step. run_step. run_step.
      exists a2. split; [right | reflexivity].
      split; [now apply not_given |].
      exists a0. repeat split; auto. now apply Nat.eqb_eq.
  - intros d (key & Hkey & ->).
    eapply spec_bind; [apply set_first_spec |]. intros wc [_ ->].
    run_step. run_step. exists key. auto.
Qed.

Lemma deposit_value_spec : spec message (amount flags) (deposit_value flags).
Proof.
  unfold deposit_value. run_step. run_step. run_step. run_step.
  repeat split; auto.
  - now apply given.
  - now apply N.leb_le.
Qed.

Lemma prelude_spec : spec message (settled flags) (prelude flags).
Proof.
  unfold prelude.
  eapply spec_bind; [apply validator_accounts_spec |]. intros [w accts] Hv.
  eapply spec_bind; [apply withdrawal_credentials_spec |]. intros wc Hwc.
  eapply spec_bind; [apply deposit_value_spec |]. intros val Hval.
  run_step. cbn. auto.
Qed.

Variable wc : bytes.
Variable val : N.

Lemma fork_version_spec :
  spec (deposit_event flags wc val) (fork_version_source flags) (fork_version flags).
Proof.
  unfold fork_version.
  destruct (negb (validatorDepositDataForkVersion flags =? "")) eqn:Efv.
  - run_step. run_step. run_step.
    left. repeat split; auto.
    + now apply given.
    + now apply Nat.eqb_eq.
  - apply not_given in Efv.
    run_step. run_step. run_step. destruct H0 as [s Hs].
    eapply spec_bind with (Q := fun cfg => a1 = Ok cfg).
    + destruct a1 as [cfg | e]; [run_step; reflexivity |].
      run_step. run_step.
    + intros cfg ->. run_step.
      destruct (config_get cfg "GenesisForkVersion") as [[b |] |] eqn:Eget;
        cbn [as_bytes]; run_step.
      right. split; [assumption |]. exists s, cfg. auto.
Qed.

Lemma print_signed_spec (d : SignedDepositData.t) :
  spec (deposit_event flags wc val) (fun _ => True) (print_signed flags d).
Proof.
  unfold print_signed. destruct (debug flags) eqn:Edebug.
  - repeat run_step. exact I.
  - run_step. exact I.
Qed.

Lemma explicit_when_given (forkVersion : bytes) :
  fork_version_source flags forkVersion ->
  validatorDepositDataForkVersion flags <> "" ->
  explicit_fork_version flags forkVersion.
Proof. intros [H | [H _]] Hgiven; [assumption | contradiction]. Qed.

Lemma deposit_spec (w : Wallet) (outputs : list string) (a : Account) :
  spec (deposit_event flags wc val)
    (fun r => exists o, r = outputs ++ [o] /\ deposit_result flags w wc val a o)
    (deposit flags w wc val outputs a).
Proof.
  unfold deposit. run_step. rename a0 into key, H into Hkey. run_step.
  eapply spec_bind; [apply fork_version_spec |]. intros forkVersion Hfv.
  run_step. run_step.
  eapply spec_bind.
  { apply spec_call_signStruct. cbn. repeat split; auto.
    exists forkVersion. auto. }
  intros signed ->. run_step. rename a0 into sig, H into Hsig.
  eapply spec_bind; [apply print_signed_spec |]. intros _ _.
  run_step. rename a0 into root, H into Hroot. run_step.
  unfold deposit_result.
  destruct (validatorDepositDataRaw flags) eqn:Eraw;
    [| destruct (validatorDepositDataLaunchpad flags) eqn:Elaunchpad ].
  - run_step. eexists. split; [reflexivity |].
    exists key, forkVersion, sig, root. cbn zeta. auto.
  - run_step. run_step. eexists. split; [reflexivity |].
    exists key, forkVersion, sig, root. cbn zeta.
    repeat split; auto. eauto.
  - run_step. eexists. split; [reflexivity |].
    exists key, forkVersion, sig, root. cbn zeta. auto.
Qed.

Lemma loop_spec (w : Wallet) (accts : list Account) (outputs : list string) :
  spec (deposit_event flags wc val)
    (fun r => exists new, r = outputs ++ new /\ Forall2 (deposit_result flags w wc val) accts new)
    (for_range_with accts (deposit flags w wc val) outputs).
Proof. apply spec_for_range_with. intros v x. apply deposit_spec. Qed.

End Stages.

Section Whole.

Context {C : Collaborators}.
Variable flags : Flags.

Lemma message_deposit_event (wc : bytes) (val : N) (e : event) :
  message e -> deposit_event flags wc val e.
Proof. destruct e; cbn; tauto. Qed.

(** The events of lines 56-199 and what they end with. *)
Lemma generate_spec (s : NodeState) :
  exists wc val,
    Forall (deposit_event flags wc val) (events_of (generate flags s)) /\
    match outcome_of (generate flags s) with
    | Ret outputs =>
        exists w accts,
          settled flags (w, accts, wc, val) /\
          Forall2 (deposit_result flags w wc val) accts outputs
    | o => failure o
    end.
Proof.
  unfold generate, bind.
  destruct (prelude_spec flags s) as [Htr Ho].
  destruct (prelude flags s) as [[tr0 s0] [[[[w accts] wc] val] | code |]];
    cbn in Htr, Ho |- *.
  - exists wc, val.
    destruct (loop_spec flags wc val w accts [] s0) as [Htr1 Ho1].
    destruct (for_range_with accts (deposit flags w wc val) [] s0) as [[tr1 s1] o1].
    cbn in Htr1, Ho1 |- *. split.
    + apply Forall_app. split; [| assumption].
      eapply Forall_impl; [apply message_deposit_event | assumption].
    + destruct o1 as [outputs | code |]; try assumption.
      destruct Ho1 as (new & -> & Hnew). exists w, accts. auto.
  - exists [], 0%N. split; [| assumption].
    eapply Forall_impl; [apply message_deposit_event | assumption].
  - exists [], 0%N. split; [| assumption].
    eapply Forall_impl; [apply message_deposit_event | assumption].
Qed.

(** When lines 56-95 cannot return, nothing but messages has been produced. *)
Lemma generate_stops_early :
  spec message (fun _ => False) (prelude flags) ->
  forall s,
    Forall message (events_of (generate flags s)) /\
    failure (outcome_of (generate flags s)).
Proof.
  intros Hprelude s.
  assert (Hg : spec message (fun _ : list string => False) (generate flags)).
  { unfold generate. eapply spec_bind; [exact Hprelude | intros a []]. }
  destruct (Hg s) as [Htr Ho]. split; [assumption |].
  destruct (outcome_of (generate flags s)); [contradiction | assumption | assumption].
Qed.

Lemma Sprintf_line (x : string) :
  Sprintf ("%s" ++ Format.nl) [a_string x] = (x ++ Format.nl)%string.
Proof. reflexivity. Qed.

Lemma print_outputs_run (outputs : list string) (s : NodeState) :
  print_outputs flags outputs s =
  if quiet flags then ([], s, Exit 0%Z) else (print_events outputs, s, Ret tt).
Proof.
  unfold print_outputs, print_events, bind.
  destruct (quiet flags); [reflexivity |]. cbn.
  destruct (List.length outputs =? 1)%nat; reflexivity.
Qed.

Lemma printed_print_events (outputs : list string) :
  printed (print_events outputs) = Layout.batch outputs.
Proof.
  unfold print_events, Layout.batch.
  destruct outputs as [| one [| two rest]]; cbn -[Join Format.nl].
  - reflexivity.
  - apply append_nil_r.
  - rewrite append_nil_r. reflexivity.
Qed.

(** [Run] after [generate]. *)
Lemma Run_after_generate (s : NodeState) :
  match outcome_of (generate flags s) with
  | Ret outputs =>
      if quiet flags then
        events_of (Run flags s) = events_of (generate flags s) /\
        outcome_of (Run flags s) = Exit 0%Z
      else
        events_of (Run flags s) = events_of (generate flags s) ++ print_events outputs /\
        outcome_of (Run flags s) = Ret tt
  | o =>
      events_of (Run flags s) = events_of (generate flags s) /\
      exit_status (outcome_of (Run flags s)) = exit_status o
  end.
Proof.
  unfold Run, bind.
  destruct (generate flags s) as [[tr s'] [outputs | code |]]; cbn; auto.
  rewrite print_outputs_run. destruct (quiet flags); cbn; auto using app_nil_r.
Qed.

End Whole.

Section Formats.

Context {C : Collaborators}.

Lemma path_text (w : Wallet) (a : Account) :
  path w a = (Wallet_Name w ++ "/" ++ Account_Name a)%string.
Proof.
  unfold path. cbn [Sprintf with_operand format_s]. now rewrite append_nil_r.
Qed.

Lemma default_output_object (w : Wallet) (a : Account) (d : SignedDepositData.t)
    (val : N) (root : bytes) :
  SignedDepositData.PubKey d <> [] ->
  SignedDepositData.WithdrawalCredentials d <> [] ->
  SignedDepositData.Signature d <> [] ->
  root <> [] ->
  default_output w a d val root =
  Layout.written_object
    (Layout.deposit_object (Wallet_Name w ++ "/" ++ Account_Name a)
       (SignedDepositData.PubKey d) (SignedDepositData.WithdrawalCredentials d)
       (SignedDepositData.Signature d) val root).
Proof.
  intros Hpk Hwc Hsig Hroot.
  unfold default_output, Format.default. rewrite path_text.
  cbn [Sprintf with_operand format_s format_sharp_x format_d].
  rewrite !verb_sharp_x_nonempty by assumption.
  unfold Layout.written_object, Layout.deposit_object, Layout.written_member,
    Layout.written_value, Layout.hex0x, Format.dq.
  cbn [map Join fst snd].
  repeat (rewrite ?append_assoc; cbn [append]).
  reflexivity.
Qed.

(** *** Strings that need no escaping *)

Lemma escape_plain (s : string) : Layout.plain s = true -> Layout.escape s = s.
Proof.
  induction s as [| c s IH]; [reflexivity |].
  cbn [Layout.plain Layout.escape]. intros H.
  apply andb_true_iff in H as [Hc Hs].
  unfold Layout.escape_char. rewrite Hc, (IH Hs). reflexivity.
Qed.

Lemma plain_append (a b : string) :
  Layout.plain (a ++ b) = Layout.plain a && Layout.plain b.
Proof.
  induction a as [| c a IH]; [reflexivity |].
  cbn [append Layout.plain]. now rewrite IH, andb_assoc.
Qed.

Lemma plain_digit (i : nat) : Layout.plain_char (digit_at i) = true.
Proof. do 16 (destruct i as [| i]; [reflexivity |]). reflexivity. Qed.

Lemma plain_EncodeToString (b : bytes) : Layout.plain (EncodeToString b) = true.
Proof.
  induction b as [| c b IH]; [reflexivity |].
  cbn [EncodeToString Layout.plain]. now rewrite !plain_digit, IH.
Qed.

Lemma plain_hex0x (b : bytes) : Layout.plain (Layout.hex0x b) = true.
Proof. unfold Layout.hex0x. rewrite plain_append, plain_EncodeToString. reflexivity. Qed.

Lemma written_plain_member (m : string * Layout.value) :
  Layout.plain_member m = true -> Layout.written_member m = Layout.render_member m.
Proof.
  destruct m as [k v]. unfold Layout.plain_member. cbn [fst snd].
  intros H. apply andb_true_iff in H as [Hk Hv].
  unfold Layout.written_member, Layout.render_member. cbn [fst snd].
  rewrite (escape_plain _ Hk).
  destruct v as [t | n]; cbn [Layout.written_value Layout.render_value];
    [now rewrite (escape_plain _ Hv) | reflexivity].
Qed.

Lemma written_plain_object (members : list (string * Layout.value)) :
  forallb Layout.plain_member members = true ->
  Layout.written_object members = Layout.render_object members.
Proof.
  intros H. unfold Layout.written_object, Layout.render_object.
  rewrite (map_ext_in Layout.written_member Layout.render_member); [reflexivity |].
  intros m Hm. apply written_plain_member.
  rewrite forallb_forall in H. now apply H.
Qed.

Lemma plain_deposit_object (name : string) (pubkey credentials signature : bytes)
    (amount : N) (root : bytes) :
  Layout.plain name = true ->
  forallb Layout.plain_member
    (Layout.deposit_object name pubkey credentials signature amount root) = true.
Proof.
  intros Hname. unfold Layout.deposit_object.
  cbn [forallb]. unfold Layout.plain_member. cbn [fst snd].
  rewrite !plain_hex0x, plain_append, Hname. reflexivity.
Qed.

(** *** The reader undoes the rendering *)

Lemma length_append (a b : string) :
  String.length (a ++ b) = String.length a + String.length b.
Proof. induction a as [| c a IH]; simpl; [reflexivity | now rewrite IH]. Qed.

Lemma read_escaped_char (c : ascii) (fuel : nat) (rest : string) :
  Layout.read_string (S fuel) (Layout.escape_char c ++ rest) =
  match Layout.read_string fuel rest with
  | Some (str, tail) => Some (String c str, tail)
  | None => None
  end.
Proof.
  destruct c as [[] [] [] [] [] [] [] []]; cbn; reflexivity.
Qed.

Lemma escape_char_length (c : ascii) : 1 <= String.length (Layout.escape_char c).
Proof.
  unfold Layout.escape_char.
  destruct (Layout.plain_char c); [cbn; lia |].
  destruct (_ || _); cbn; lia.
Qed.

Lemma escape_length (s : string) : String.length s <= String.length (Layout.escape s).
Proof.
  induction s as [| c s IH]; [reflexivity |].
  cbn [Layout.escape String.length]. rewrite length_append.
  pose proof (escape_char_length c). lia.
Qed.

Lemma read_string_escape (s rest : string) (fuel : nat) :
  String.length s < fuel ->
  Layout.read_string fuel (Layout.escape s ++ Format.dq ++ rest) = Some (s, rest).
Proof.
  revert fuel. induction s as [| c s IH]; intros fuel Hfuel.
  - destruct fuel as [| fuel]; [inversion Hfuel | reflexivity].
  - destruct fuel as [| fuel]; [inversion Hfuel |].
    cbn [Layout.escape]. rewrite append_assoc, read_escaped_char.
    rewrite IH by (cbn [String.length] in Hfuel; lia). reflexivity.
Qed.

Lemma closing_head (tail : string) :
  Layout.closing tail = true ->
  exists c rest, tail = String c rest /\ Layout.is_digit c = false /\
    Layout.is_space c = false /\ (N_of_ascii c =? 34)%N = false.
Proof.
  destruct tail as [| c rest]; [discriminate |]. cbn [Layout.closing]. intros H.
  exists c, rest. split; [reflexivity |].
  unfold Layout.is_digit, Layout.is_space.
  apply orb_true_iff in H as [H | H]; apply N.eqb_eq in H; rewrite H; repeat split.
Qed.

Lemma digits_of_closing (tail : string) :
  Layout.closing tail = true -> Layout.digits_of tail = ("", tail).
Proof.
  intros H. destruct (closing_head _ H) as (c & rest & -> & Hd & _).
  cbn [Layout.digits_of]. now rewrite Hd.
Qed.

Lemma digits_of_uint (d : Decimal.uint) (tail : string) :
  Layout.closing tail = true ->
  Layout.digits_of (NilEmpty.string_of_uint d ++ tail) = (NilEmpty.string_of_uint d, tail).
Proof.
  intros Htail.
  induction d as [| d IH | d IH | d IH | d IH | d IH | d IH | d IH | d IH | d IH | d IH];
    [now apply digits_of_closing | ..];
    cbn [NilEmpty.string_of_uint append Layout.digits_of];
    (replace (Layout.is_digit _) with true by reflexivity); now rewrite IH.
Qed.

Lemma nzhead_head (d d' : Decimal.uint) : Decimal.nzhead d <> Decimal.D0 d'.
Proof. induction d; cbn; try discriminate. exact IHd. Qed.

Lemma unorm_head (d d' : Decimal.uint) :
  Decimal.unorm d = Decimal.D0 d' -> d' = Decimal.Nil.
Proof.
  unfold Decimal.unorm. pose proof (nzhead_head d) as H.
  destruct (Decimal.nzhead d); try discriminate.
  - intros E. now injection E as <-.
  - intros E. now destruct (H d').
Qed.

Lemma read_number_verb_d (n : N) (tail : string) :
  Layout.closing tail = true -> Layout.read_number (verb_d n ++ tail) = Some (n, tail).
Proof.
  intros Htail. unfold Layout.read_number, verb_d.
  rewrite (digits_of_uint _ _ Htail), NilEmpty.usu, DecimalN.Unsigned.of_to.
  assert (Hnorm : Decimal.unorm (N.to_uint n) = N.to_uint n).
  { rewrite <- (DecimalN.Unsigned.of_to n) at 2. symmetry. apply DecimalN.Unsigned.to_of. }
  destruct (N.to_uint n) as [| d | d | d | d | d | d | d | d | d | d];
    try reflexivity.
  - discriminate Hnorm.
  - rewrite (unorm_head _ _ Hnorm). reflexivity.
Qed.

Lemma verb_d_head (n : N) :
  exists c rest, verb_d n = String c rest /\ Layout.is_digit c = true.
Proof.
  unfold verb_d.
  assert (Hnorm : Decimal.unorm (N.to_uint n) = N.to_uint n).
  { rewrite <- (DecimalN.Unsigned.of_to n) at 2. symmetry. apply DecimalN.Unsigned.to_of. }
  destruct (N.to_uint n) as [| d | d | d | d | d | d | d | d | d | d];
    [discriminate Hnorm | ..]; cbn [NilEmpty.string_of_uint];
    eexists; eexists; (split; [reflexivity | reflexivity]).
Qed.

Lemma digit_is_no_quote (c : ascii) :
  Layout.is_digit c = true -> (N_of_ascii c =? 34)%N = false.
Proof.
  unfold Layout.is_digit. intros H. apply andb_true_iff in H as [H _].
  apply N.leb_le in H. apply N.eqb_neq. lia.
Qed.

Lemma read_value_render (v : Layout.value) (tail : string) :
  Layout.closing tail = true ->
  Layout.read_value (Layout.render_value v ++ tail) = Some (v, tail).
Proof.
  intros Htail. destruct v as [s | n]; cbn [Layout.render_value].
  - unfold Format.dq at 1. rewrite !append_assoc. cbn [append Layout.read_value].
    replace (N_of_ascii _ =? 34)%N with true by reflexivity.
    rewrite read_string_escape; [reflexivity |].
    rewrite length_append. unfold Format.dq. cbn [append String.length].
    pose proof (escape_length s). lia.
  - pose proof (read_number_verb_d n tail Htail) as Hn.
    destruct (verb_d_head n) as (c & rest & E & Hc).
    rewrite E in *. cbn [append Layout.read_value].
    rewrite (digit_is_no_quote _ Hc). cbn [append] in Hn. now rewrite Hn.
Qed.

Lemma skip_space_token (c : ascii) (rest : string) :
  Layout.is_space c = false -> Layout.skip_space (String c rest) = String c rest.
Proof. intros H. cbn [Layout.skip_space]. now rewrite H. Qed.

Lemma read_member_render (m : string * Layout.value) (tail : string) :
  Layout.closing tail = true ->
  Layout.read_member (Layout.render_member m ++ tail) = Some (fst m, snd m, tail).
Proof.
  intros Htail. destruct m as [key v]. unfold Layout.render_member. cbn [fst snd].
  unfold Format.dq at 1. rewrite !append_assoc. cbn [append].
  unfold Layout.read_member. rewrite skip_space_token by reflexivity.
  replace (N_of_ascii _ =? 34)%N with true by reflexivity.
  rewrite read_string_escape.
  - cbn [append]. rewrite skip_space_token by reflexivity.
    assert (Hv : Layout.skip_space (Layout.render_value v ++ tail)
                 = (Layout.render_value v ++ tail)%string).
    { destruct v as [s | n]; cbn [Layout.render_value].
      - unfold Format.dq at 1. rewrite append_assoc. cbn [append].
        now apply skip_space_token.
      - destruct (verb_d_head n) as (c & rest & -> & Hc). cbn [append].
        apply skip_space_token. revert Hc. unfold Layout.is_digit, Layout.is_space.
        intros H. apply andb_true_iff in H as [H _]. apply N.leb_le in H.
        repeat (apply orb_false_iff; split); apply N.eqb_neq; lia. }
    rewrite Hv, (read_value_render _ _ Htail). reflexivity.
  - rewrite length_append. unfold Format.dq. cbn [append String.length].
    pose proof (escape_length key). lia.
Qed.

Lemma members_after_closing (rest : list (string * Layout.value)) :
  Layout.closing (Layout.members_after rest) = true.
Proof. destruct rest; reflexivity. Qed.

Lemma members_after_length (rest : list (string * Layout.value)) :
  List.length rest < String.length (Layout.members_after rest).
Proof.
  induction rest as [| m rest IH]; cbn [Layout.members_after List.length String.length append].
  - lia.
  - rewrite length_append. lia.
Qed.

Lemma render_object_cons (m : string * Layout.value) (rest : list (string * Layout.value)) :
  Layout.render_object (m :: rest)
  = ("{" ++ Layout.render_member m ++ Layout.members_after rest)%string.
Proof.
  unfold Layout.render_object. f_equal.
  revert m. induction rest as [| m' rest IH]; intros m; [reflexivity |].
  cbn [map Join Layout.members_after] in *. rewrite !append_assoc.
  f_equal. f_equal.
  specialize (IH m'). destruct (map Layout.render_member rest); exact IH.
Qed.

Lemma read_more_render (rest : list (string * Layout.value)) (fuel : nat) :
  List.length rest < fuel ->
  Layout.read_more fuel (Layout.members_after rest) = Some (rest, "").
Proof.
  revert fuel. induction rest as [| [key v] rest IH]; intros fuel Hfuel;
    (destruct fuel as [| fuel]; [inversion Hfuel |]).
  - reflexivity.
  - cbn [Layout.members_after append Layout.read_more].
    rewrite skip_space_token by reflexivity.
    rewrite (read_member_render (key, v) _ (members_after_closing rest)).
    cbn [fst snd]. rewrite IH by (cbn [List.length] in Hfuel; lia). reflexivity.
Qed.

Lemma read_object_render (members : list (string * Layout.value)) :
  Layout.read_object (Layout.render_object members) = Some members.
Proof.
  destruct members as [| [key v] rest]; [reflexivity |].
  rewrite render_object_cons. cbn [append]. unfold Layout.read_object.
  rewrite skip_space_token by reflexivity.
  assert (Hhead : exists text,
            (Layout.render_member (key, v) ++ Layout.members_after rest)%string
            = String (ascii_of_nat 34) text).
  { unfold Layout.render_member, Format.dq. cbn [append]. eexists; reflexivity. }
  destruct Hhead as (text & Hhead).
  rewrite Hhead at 1. rewrite skip_space_token by reflexivity. cbn iota.
  rewrite (read_member_render (key, v) _ (members_after_closing rest)).
  cbn [fst snd]. rewrite read_more_render by apply members_after_length.
  reflexivity.
Qed.

End Formats.

Section Returning.

Context {C : Collaborators}.

(** *** Rules of [succeeds] *)

Lemma succeeds_ret {A : Type} (a : A) : succeeds (ret a).
Proof. intros s. exists a. reflexivity. Qed.

Lemma succeeds_bind {A B : Type} (P : event -> Prop) (Q : A -> Prop)
    (m : M A) (k : A -> M B) :
  succeeds m -> spec P Q m -> (forall a, Q a -> succeeds (k a)) -> succeeds (bind m k).
Proof.
  intros Hm Hspec Hk s. destruct (Hm s) as [a Ha]. destruct (Hspec s) as [_ Hq].
  unfold bind. destruct (m s) as [[tr s'] o]. cbn in Ha, Hq. subst o.
  destruct (Hk a Hq s') as [b Hb].
  destruct (k a s') as [[tr' s''] o']. cbn in Hb |- *. eauto.
Qed.

Lemma succeeds_then {A B : Type} (m : M A) (k : A -> M B) :
  succeeds m -> (forall a, succeeds (k a)) -> succeeds (bind m k).
Proof.
  intros Hm Hk. apply succeeds_bind with (P := fun _ => True) (Q := fun _ => True); auto.
  intros s. split; [apply Forall_forall; auto |].
  destruct (Hm s) as [a ->]. exact I.
Qed.

Lemma succeeds_emit (e : event) : succeeds (emit e).
Proof. intros s. exists tt. reflexivity. Qed.

Lemma succeeds_outputIf (condition : bool) (msg : string) :
  succeeds (outputIf condition msg).
Proof. unfold outputIf. destruct condition; [apply succeeds_emit | apply succeeds_ret]. Qed.

Lemma succeeds_assert (flags : Flags) (condition : bool) (msg : string) :
  condition = true -> succeeds (assert flags condition msg).
Proof. intros ->. apply succeeds_ret. Qed.

Lemma succeeds_errCheck {A : Type} (flags : Flags) (r : result A) (msg : string) (v : A) :
  r = Ok v -> succeeds (errCheck flags r msg).
Proof. intros ->. apply succeeds_ret. Qed.

Lemma succeeds_call_signStruct (a : Account) (d : DepositData.t) (domain : bytes) :
  succeeds (call_signStruct a d domain).
Proof. intros s. eexists. reflexivity. Qed.

Lemma succeeds_for_range {A : Type} (l : list A) (body : A -> M unit) :
  (forall x, In x l -> succeeds (body x)) -> succeeds (for_range l body).
Proof.
  induction l as [| x l IH]; intros Hbody; cbn [for_range].
  - apply succeeds_ret.
  - apply succeeds_then; [apply Hbody; now left |].
    intros _. apply IH. intros y Hy. apply Hbody. now right.
Qed.

Lemma succeeds_for_range_with {A V : Type} (l : list A) (body : V -> A -> M V) (v : V) :
  (forall v x, In x l -> succeeds (body v x)) -> succeeds (for_range_with l body v).
Proof.
  revert v. induction l as [| x l IH]; intros v Hbody; cbn [for_range_with].
  - apply succeeds_ret.
  - apply succeeds_then; [apply Hbody; now left |].
    intros v'. apply IH. intros v'' y Hy. apply Hbody. now right.
Qed.

(** *** Rules of [tally] *)

Lemma count_app (f : event -> bool) (a b : list event) :
  count f (a ++ b) = count f a + count f b.
Proof. unfold count. now rewrite filter_app, length_app. Qed.

Lemma tally_ret {A : Type} (f : event -> bool) (a : A) : tally f 0 (ret a).
Proof. intros s b _. reflexivity. Qed.

Lemma tally_bind {A B : Type} (f : event -> bool) (n1 n2 : nat)
    (m : M A) (k : A -> M B) :
  tally f n1 m -> (forall a, tally f n2 (k a)) -> tally f (n1 + n2) (bind m k).
Proof.
  intros Hm Hk s b. specialize (Hm s). unfold bind.
  destruct (m s) as [[tr s'] [a | code |]];
    cbn [events_of outcome_of fst snd] in Hm |- *; try discriminate.
  specialize (Hk a s' b). destruct (k a s') as [[tr' s''] o].
  cbn [events_of outcome_of fst snd] in Hk |- *.
  intros Ho. rewrite count_app. f_equal; eauto.
Qed.

Lemma tally_stops {A : Type} (f : event -> bool) (n : nat) (m : M A) :
  (forall s a, outcome_of (m s) <> Ret a) -> tally f n m.
Proof. intros H s a Ha. now apply H in Ha. Qed.

Lemma tally_os_Exit {A : Type} (f : event -> bool) (n : nat) (code : Z) :
  tally f n (@os_Exit _ A code).
Proof. apply tally_stops. discriminate. Qed.

Lemma tally_panic {A : Type} (f : event -> bool) (n : nat) : tally f n (@panic _ A).
Proof. apply tally_stops. discriminate. Qed.

Lemma tally_emit (f : event -> bool) (e : event) :
  tally f (if f e then 1 else 0) (emit e).
Proof. intros s a _. unfold count. cbn. destruct (f e); reflexivity. Qed.

Lemma tally_outputIf (f : event -> bool) (condition : bool) (msg : string) :
  silent f -> tally f 0 (outputIf condition msg).
Proof.
  intros Hf. unfold outputIf. destruct condition; [| apply tally_ret].
  pose proof (tally_emit f (Ev_outputIf msg)) as H.
  destruct (Hf msg) as [E _]. rewrite E in H. exact H.
Qed.

Lemma tally_assert (flags : Flags) (f : event -> bool) (condition : bool) (msg : string) :
  tally f 0 (assert flags condition msg).
Proof.
  unfold assert. destruct condition; [apply tally_ret |].
  apply tally_stops. intros s a. unfold bind.
  destruct (quiet flags); cbn; discriminate.
Qed.

Lemma tally_errCheck {A : Type} (flags : Flags) (f : event -> bool)
    (r : result A) (msg : string) :
  tally f 0 (errCheck flags r msg).
Proof.
  unfold errCheck. destruct r; [apply tally_ret |].
  apply tally_stops. intros s a. unfold bind.
  destruct (quiet flags); cbn; discriminate.
Qed.

Lemma tally_for_range {A : Type} (f : event -> bool) (l : list A) (body : A -> M unit) :
  (forall x, tally f 0 (body x)) -> tally f 0 (for_range l body).
Proof.
  intros Hbody. induction l as [| x l IH]; cbn [for_range].
  - apply tally_ret.
  - apply (tally_bind f 0 0); auto.
Qed.

Lemma tally_for_range_with {A V : Type} (f : event -> bool) (n : nat)
    (l : list A) (body : V -> A -> M V) (v : V) :
  (forall v x, tally f n (body v x)) ->
  tally f (List.length l * n) (for_range_with l body v).
Proof.
  intros Hbody. revert v. induction l as [| x l IH]; intros v; cbn [for_range_with].
  - apply tally_ret.
  - cbn [List.length Nat.mul]. apply tally_bind; auto.
Qed.

End Returning.

Lemma given_true (s : string) : s <> "" -> negb (s =? "") = true.
Proof.
  intros H. apply negb_true_iff. now apply String.eqb_neq.
Qed.

Section Succeeding.

Context {C : Collaborators}.
Variable flags : Flags.

Lemma succeeds_assert_bind {B : Type} (condition : bool) (msg : string) (k : unit -> M B) :
  condition = true -> succeeds (k tt) -> succeeds (bind (assert flags condition msg) k).
Proof.
  intros Hc Hk. apply succeeds_then; [now apply succeeds_assert | now intros []].
Qed.

Lemma succeeds_errCheck_bind {A B : Type} (r : result A) (msg : string) (v : A)
    (k : A -> M B) :
  r = Ok v -> succeeds (k v) -> succeeds (bind (errCheck flags r msg) k).
Proof.
  intros Hr Hk.
  apply succeeds_bind with (P := fun _ => True) (Q := fun x => r = Ok x).
  - now apply succeeds_errCheck with (v := v).
  - apply spec_errCheck. auto.
  - intros x Hx. rewrite Hr in Hx. now injection Hx as <-.
Qed.

Lemma succeeds_outputIf_bind {B : Type} (condition : bool) (msg : string) (k : unit -> M B) :
  succeeds (k tt) -> succeeds (bind (outputIf condition msg) k).
Proof.
  intros Hk. apply succeeds_then; [apply succeeds_outputIf | now intros []].
Qed.

Lemma succeeds_emit_bind {B : Type} (e : event) (k : unit -> M B) :
  succeeds (k tt) -> succeeds (bind (emit e) k).
Proof.
  intros Hk. apply succeeds_then; [apply succeeds_emit | now intros []].
Qed.

Lemma validator_accounts_succeeds (w : Wallet) (accts : list Account) :
  validators flags w accts -> succeeds (validator_accounts flags).
Proof.
  intros (Hgiven & Hpath & Hsome & Hkeys). unfold validator_accounts.
  apply succeeds_assert_bind; [now apply given_true |].
  eapply succeeds_errCheck_bind; [exact Hpath |].
  apply succeeds_assert_bind.
  { destruct accts; [congruence | reflexivity]. }
  apply succeeds_then; [| intros _; apply succeeds_ret].
  apply succeeds_for_range. intros a Ha.
  rewrite Forall_forall in Hkeys. destruct (Hkeys a Ha) as [key Hkey].
  apply succeeds_outputIf_bind.
  eapply succeeds_errCheck_bind; [exact Hkey |].
  apply succeeds_outputIf.
Qed.

Lemma decoded_flag_given (flag : string) (b : bytes) :
  DecodeString (TrimPrefix flag "0x") = Ok b -> b <> [] -> flag <> "".
Proof.
  intros Hb Hne ->. cbn in Hb. injection Hb as <-. contradiction.
Qed.

Lemma withdrawal_credentials_succeeds (key : PublicKey) :
  withdrawal_key flags key -> succeeds (withdrawal_credentials flags).
Proof.
  intros Hkey. unfold withdrawal_credentials.
  assert (Hdigest : forall k, succeeds (
            bind (set_first (SHA256 (PublicKey_Marshal k)) x00) (fun wc =>
              bind (outputIf (debug flags)
                      (Sprintf "Withdrawal credentials are %#x" [a_bytes wc]))
                   (fun _ => ret wc)))).
  { intros k. pose proof (SHA256_size (PublicKey_Marshal k)) as Hsize.
    destruct (SHA256 (PublicKey_Marshal k)) as [| x rest]; [discriminate |].
    cbn [set_first]. apply succeeds_then; [apply succeeds_ret |].
    intros wc. apply succeeds_outputIf_bind, succeeds_ret. }
  destruct Hkey as [(Hacc & w & a & Hpath & Hpub) | (Hacc & k & Hk & Hsize & Hparse)].
  - apply succeeds_assert_bind.
    { rewrite (given_true _ Hacc). reflexivity. }
    rewrite (given_true _ Hacc).
    eapply succeeds_bind with (P := fun _ => True)
      (Q := fun d => d = SHA256 (PublicKey_Marshal key)).
    + eapply succeeds_errCheck_bind; [exact Hpath |].
      eapply succeeds_errCheck_bind; [exact Hpub |].
      apply succeeds_outputIf_bind, succeeds_ret.
    + eapply spec_bind; [apply spec_errCheck; auto |]. intros [w' a'] E.
      rewrite Hpath in E. injection E as <- <-.
      eapply spec_bind; [apply spec_errCheck; auto |]. intros key' E.
      rewrite Hpub in E. injection E as <-.
      eapply spec_bind; [apply spec_outputIf; auto |]. intros _ _.
      now apply spec_ret.
    + intros d ->. apply Hdigest.
  - assert (Hpk : validatorDepositDataWithdrawalPubKey flags <> "").
    { apply (decoded_flag_given _ k Hk). destruct k; [discriminate | congruence]. }
    apply succeeds_assert_bind.
    { rewrite (given_true _ Hpk). apply orb_true_r. }
    rewrite Hacc. cbn [String.eqb negb].
    eapply succeeds_bind with (P := fun _ => True)
      (Q := fun d => d = SHA256 (PublicKey_Marshal key)).
    + eapply succeeds_errCheck_bind; [exact Hk |].
      apply succeeds_assert_bind; [now apply Nat.eqb_eq |].
      eapply succeeds_errCheck_bind; [exact Hparse |].
      apply succeeds_ret.
    + eapply spec_bind; [apply spec_errCheck; auto |]. intros k' E.
      rewrite Hk in E. injection E as <-.
      eapply spec_bind; [apply spec_assert; auto |]. intros _ _.
      eapply spec_bind; [apply spec_errCheck; auto |]. intros key' E.
      rewrite Hparse in E. injection E as <-.
      now apply spec_ret.
    + intros d ->. apply Hdigest.
Qed.

Lemma deposit_value_succeeds (val : N) : amount flags val -> succeeds (deposit_value flags).
Proof.
  intros (Hgiven & Hval & Hmin). unfold deposit_value.
  apply succeeds_assert_bind; [now apply given_true |].
  eapply succeeds_errCheck_bind; [exact Hval |].
  apply succeeds_assert_bind; [now apply N.leb_le |].
  apply succeeds_ret.
Qed.

Lemma prelude_succeeds (w : Wallet) (accts : list Account) (key : PublicKey) (val : N) :
  validators flags w accts -> withdrawal_key flags key -> amount flags val ->
  succeeds (prelude flags).
Proof.
  intros Hv Hk Ha. unfold prelude.
  apply succeeds_then; [now apply validator_accounts_succeeds with w accts |].
  intros [w' accts'].
  apply succeeds_then; [now apply withdrawal_credentials_succeeds with key |].
  intros wc.
  apply succeeds_then; [now apply deposit_value_succeeds with val |].
  intros val'. apply succeeds_ret.
Qed.

Lemma fork_version_succeeds : fork_version_available flags -> succeeds (fork_version flags).
Proof.
  intros [(fv & Hgiven & Hfv & Hsize) | (Hnone & Hnode)]; unfold fork_version.
  - rewrite (given_true _ Hgiven).
    eapply succeeds_errCheck_bind; [exact Hfv |].
    apply succeeds_assert_bind; [now apply Nat.eqb_eq |].
    apply succeeds_ret.
  - rewrite Hnone. cbn [String.eqb negb].
    intros s. unfold bind, call_connect, call_FetchChainConfig.
    destruct (Hnode s) as [Hconnect _].
    destruct (connect s) as [r s1]. cbn in Hconnect. subst r. cbn.
    destruct (Hnode s1) as [_ (cfg & fv & Hfetch & Hget)].
    destruct (FetchChainConfig s1) as [r s2]. cbn in Hfetch. subst r. cbn.
    rewrite Hget. cbn. eauto.
Qed.

Lemma print_signed_succeeds (d : SignedDepositData.t) : succeeds (print_signed flags d).
Proof.
  unfold print_signed. destruct (debug flags); [| apply succeeds_ret].
  repeat apply succeeds_emit_bind. apply succeeds_emit.
Qed.

Lemma deposit_succeeds (w : Wallet) (wc : bytes) (val : N) (outputs : list string)
    (a : Account) (accts : list Account) :
  In a accts ->
  (exists key, bestPublicKey a = Ok key) ->
  fork_version_available flags -> willing accts ->
  succeeds (deposit flags w wc val outputs a).
Proof.
  intros Ha [key Hkey] Hfv [Hsign Hroot]. unfold deposit.
  eapply succeeds_errCheck_bind; [exact Hkey |].
  apply succeeds_outputIf_bind.
  apply succeeds_then; [now apply fork_version_succeeds |]. intros forkVersion.
  apply succeeds_outputIf_bind. apply succeeds_outputIf_bind.
  match goal with
  | |- succeeds (bind (call_signStruct _ ?d ?domain) _) =>
      destruct (Hsign a Ha d domain) as [sig Hsig]
  end.
  eapply succeeds_bind with (P := fun _ => True);
    [apply succeeds_call_signStruct | apply spec_call_signStruct; exact I |].
  intros signed ->.
  eapply succeeds_errCheck_bind; [exact Hsig |].
  apply succeeds_then; [apply print_signed_succeeds |]. intros _.
  match goal with
  | |- succeeds (bind (errCheck _ (HashTreeRoot ?v) _) _) =>
      destruct (Hroot v) as [root Hr]
  end.
  eapply succeeds_errCheck_bind; [exact Hr |].
  apply succeeds_outputIf_bind.
  destruct (validatorDepositDataRaw flags); [apply succeeds_ret |].
  destruct (validatorDepositDataLaunchpad flags); [| apply succeeds_ret].
  match goal with
  | |- succeeds (bind (errCheck _ (HashTreeRoot ?v) _) _) =>
      destruct (Hroot v) as [messageRoot Hm]
  end.
  eapply succeeds_errCheck_bind; [exact Hm |]. apply succeeds_ret.
Qed.

(** When every collaborator does its part, lines 56-199 return. *)
Lemma generate_succeeds (w : Wallet) (accts : list Account) (key : PublicKey) (val : N) :
  validators flags w accts -> withdrawal_key flags key -> amount flags val ->
  fork_version_available flags -> willing accts ->
  succeeds (generate flags).
Proof.
  intros Hv Hk Ha Hfv Hw. unfold generate.
  eapply succeeds_bind; [now apply prelude_succeeds with w accts key val
                        | apply prelude_spec |].
  intros [[[w' accts'] wc] val'] (Hv' & _ & _).
  destruct Hv as (_ & Hpath & _ & Hkeys). destruct Hv' as (_ & Hpath' & _ & _).
  rewrite Hpath in Hpath'. injection Hpath' as <- <-.
  apply succeeds_for_range_with. intros v a Hin.
  apply deposit_succeeds with accts; auto.
  rewrite Forall_forall in Hkeys. auto.
Qed.

End Succeeding.

Section Counting.

Context {C : Collaborators}.
Variable flags : Flags.
Variable f : event -> bool.
Hypothesis f_silent : silent f.

Lemma count_messages (tr : list event) : Forall message tr -> count f tr = 0.
Proof.
  induction 1 as [| e tr He _ IH]; [reflexivity |].
  change (e :: tr) with ([e] ++ tr). rewrite count_app, IH.
  destruct e; try contradiction; unfold count; cbn;
    destruct (f_silent msg) as [E1 E2]; rewrite ?E1, ?E2; reflexivity.
Qed.

Lemma tally_call_connect : tally f (if f Ev_connect then 1 else 0) call_connect.
Proof.
  intros s a _. unfold call_connect. destruct (connect s) as [r s'].
  unfold count. cbn. destruct (f Ev_connect); reflexivity.
Qed.

Lemma tally_call_FetchChainConfig :
  tally f (if f Ev_FetchChainConfig then 1 else 0) call_FetchChainConfig.
Proof.
  intros s a _. unfold call_FetchChainConfig. destruct (FetchChainConfig s) as [r s'].
  unfold count. cbn. destruct (f Ev_FetchChainConfig); reflexivity.
Qed.

(** [fork_version] asks the node exactly when no fork version is given. *)
Lemma tally_fork_version :
  tally f
    (if validatorDepositDataForkVersion flags =? "" then
       (if f Ev_connect then 1 else 0) + (if f Ev_FetchChainConfig then 1 else 0)
     else 0)
    (fork_version flags).
Proof.
  unfold fork_version.
  destruct (validatorDepositDataForkVersion flags =? ""); cbn [negb].
  - apply tally_bind; [apply tally_call_connect |]. intros err.
    apply (tally_bind f 0); [apply tally_errCheck |]. intros _.
    rewrite <- (Nat.add_0_r (if f Ev_FetchChainConfig then 1 else 0)).
    apply tally_bind; [apply tally_call_FetchChainConfig |]. intros fetched.
    apply (tally_bind f 0 0).
    { destruct fetched; [apply tally_ret |].
      apply tally_stops. intros s a. unfold bind, outputIf.
      destruct (negb (quiet flags)); cbn; discriminate. }
    intros cfg. apply (tally_bind f 0 0); [apply tally_assert |]. intros _.
    destruct (config_get cfg "GenesisForkVersion") as [[b |] |]; cbn [as_bytes];
      [apply tally_ret | apply tally_panic | apply tally_panic].
  - apply (tally_bind f 0 0); [apply tally_errCheck |]. intros fv.
    apply (tally_bind f 0 0); [apply tally_assert |]. intros _. apply tally_ret.
Qed.

Hypothesis f_debug : forall text, f (Ev_debug text) = false.

Lemma tally_print_signed (d : SignedDepositData.t) : tally f 0 (print_signed flags d).
Proof.
  unfold print_signed. destruct (debug flags); [| apply tally_ret].
  repeat (apply (tally_bind f 0 0);
          [ match goal with
            | |- tally f 0 (emit ?e) =>
                let H := fresh in
                pose proof (tally_emit f e) as H; cbn in H; rewrite f_debug in H; exact H
            end
          | intros _ ]).
  match goal with
  | |- tally f 0 (emit ?e) =>
      let H := fresh in
      pose proof (tally_emit f e) as H; cbn in H; rewrite f_debug in H; exact H
  end.
Qed.

Variable signs : bool.
Hypothesis f_sign : forall a d domain, f (Ev_signStruct a d domain) = signs.

Lemma tally_call_signStruct (a : Account) (d : DepositData.t) (domain : bytes) :
  tally f (if signs then 1 else 0) (call_signStruct a d domain).
Proof.
  intros s r _. unfold count. cbn. rewrite f_sign. destruct signs; reflexivity.
Qed.

(** One validator: the calls of [fork_version] and one signing request. *)
Lemma tally_deposit (w : Wallet) (wc : bytes) (val : N) (outputs : list string)
    (a : Account) :
  tally f
    ((if validatorDepositDataForkVersion flags =? "" then
        (if f Ev_connect then 1 else 0) + (if f Ev_FetchChainConfig then 1 else 0)
      else 0) + (if signs then 1 else 0))
    (deposit flags w wc val outputs a).
Proof.
  unfold deposit.
  apply (tally_bind f 0); [apply tally_errCheck |]. intros key.
  apply (tally_bind f 0); [now apply tally_outputIf |]. intros _.
  apply tally_bind; [apply tally_fork_version |]. intros forkVersion.
  apply (tally_bind f 0); [now apply tally_outputIf |]. intros _.
  apply (tally_bind f 0); [now apply tally_outputIf |]. intros _.
  rewrite <- (Nat.add_0_r (if signs then 1 else 0)).
  apply tally_bind; [apply tally_call_signStruct |]. intros signed.
  apply (tally_bind f 0 0); [apply tally_errCheck |]. intros sig.
  apply (tally_bind f 0 0); [apply tally_print_signed |]. intros _.
  apply (tally_bind f 0 0); [apply tally_errCheck |]. intros root.
  apply (tally_bind f 0 0); [now apply tally_outputIf |]. intros _.
  destruct (validatorDepositDataRaw flags); [apply tally_ret |].
  destruct (validatorDepositDataLaunchpad flags); [| apply tally_ret].
  apply (tally_bind f 0 0); [apply tally_errCheck |]. intros messageRoot.
  apply tally_ret.
Qed.

(** A run that returns has asked, for each validator account, what one
    validator asks. *)
Lemma generate_tally (s : NodeState) (outputs : list string) :
  outcome_of (generate flags s) = Ret outputs ->
  exists w accts,
    validators flags w accts /\
    count f (events_of (generate flags s)) =
    List.length accts *
    ((if validatorDepositDataForkVersion flags =? "" then
        (if f Ev_connect then 1 else 0) + (if f Ev_FetchChainConfig then 1 else 0)
      else 0) + (if signs then 1 else 0)).
Proof.
  unfold generate, bind.
  destruct (prelude_spec flags s) as [Htr Ho].
  destruct (prelude flags s) as [[tr0 s0] [[[[w accts] wc] val] | code |]];
    cbn [events_of outcome_of fst snd] in Htr, Ho |- *; try discriminate.
  pose proof (tally_for_range_with f _ accts (deposit flags w wc val) []
                (tally_deposit w wc val) s0) as Hloop.
  destruct (for_range_with accts (deposit flags w wc val) [] s0) as [[tr1 s1] o1].
  cbn [events_of outcome_of fst snd] in Hloop |- *.
  intros ->. exists w, accts. split; [apply Ho |].
  rewrite count_app, (count_messages tr0 Htr). cbn [Nat.add]. eapply Hloop. reflexivity.
Qed.

End Counting.

Section Runs.

Context {C : Collaborators}.
Variable flags : Flags.

Lemma printed_app (a b : list event) : printed (a ++ b) = (printed a ++ printed b)%string.
Proof.
  induction a as [| e a IH]; [reflexivity |].
  destruct e; cbn [printed app]; rewrite IH; try reflexivity.
  now rewrite append_assoc.
Qed.

Lemma standard_output_app (a b : list event) :
  standard_output (a ++ b) = (standard_output a ++ standard_output b)%string.
Proof.
  induction a as [| e a IH]; [reflexivity |].
  destruct e; cbn [standard_output app]; rewrite IH; try reflexivity;
    now rewrite append_assoc.
Qed.

Lemma standard_output_print_events (outputs : list string) :
  standard_output (print_events outputs) = printed (print_events outputs).
Proof. unfold print_events. destruct (List.length outputs =? 1)%nat; reflexivity. Qed.

Lemma nothing_printed (wc : bytes) (val : N) (tr : list event) :
  Forall (deposit_event flags wc val) tr ->
  Forall (fun e => is_print e = false) tr /\
  printed tr = "" /\
  (debug flags = false -> standard_output tr = "").
Proof.
  induction 1 as [| e tr He _ (IH1 & IH2 & IH3)]; [repeat split; auto |].
  destruct e; cbn in He; try contradiction; cbn [printed standard_output];
    (repeat split; [constructor; [reflexivity | assumption] | assumption | ]);
    try exact IH3.
  intros Hd. congruence.
Qed.

Lemma no_requests_in_messages (tr : list event) :
  Forall message tr -> signing_requests tr = [].
Proof.
  induction 1 as [| e tr He _ IH]; [reflexivity |].
  destruct e; cbn in He; try contradiction; exact IH.
Qed.

Lemma requests_of_events (wc : bytes) (val : N) (tr : list event) :
  Forall (deposit_event flags wc val) tr ->
  forall a d domain, In (a, d, domain) (signing_requests tr) ->
    DepositData.WithdrawalCredentials d = wc /\
    DepositData.Value d = val /\
    exists forkVersion,
      fork_version_source flags forkVersion /\
      domain = Domain DomainDeposit forkVersion ZeroGenesisValidatorsRoot.
Proof.
  induction 1 as [| e tr He _ IH]; intros a d domain Hin; [contradiction |].
  destruct e; cbn [signing_requests In] in Hin; try exact (IH _ _ _ Hin).
  destruct Hin as [E | Hin]; [| exact (IH _ _ _ Hin)].
  injection E as -> -> ->. exact He.
Qed.

Lemma signing_requests_app (a b : list event) :
  signing_requests (a ++ b) = signing_requests a ++ signing_requests b.
Proof.
  induction a as [| e a IH]; [reflexivity |].
  destruct e; cbn [signing_requests app]; rewrite IH; reflexivity.
Qed.

Lemma signing_requests_print_events (outputs : list string) :
  signing_requests (print_events outputs) = [].
Proof. unfold print_events. destruct (List.length outputs =? 1)%nat; reflexivity. Qed.

Lemma count_print_events (f : event -> bool) (outputs : list string) :
  (forall text, f (Ev_print text) = false) -> count f (print_events outputs) = 0.
Proof.
  intros Hf. unfold print_events, count.
  destruct (List.length outputs =? 1)%nat; cbn; rewrite ?Hf; reflexivity.
Qed.

(** A run fails exactly when lines 56-199 do, and then has produced what
    they produced. *)
Lemma Run_failure (s : NodeState) :
  failure (outcome_of (Run flags s)) <->
  (forall outputs, outcome_of (generate flags s) <> Ret outputs).
Proof.
  pose proof (Run_after_generate flags s) as H.
  destruct (outcome_of (generate flags s)) as [outputs | code |] eqn:Eg.
  - split.
    + intros Hf. exfalso. destruct (quiet flags); destruct H as [_ Ho];
        rewrite Ho in Hf; now apply Hf.
    + intros Hno. now destruct (Hno outputs).
  - split; [discriminate |]. intros _. destruct H as [_ Ho].
    destruct (generate_spec flags s) as (wc & val & _ & Hg). rewrite Eg in Hg.
    unfold failure. now rewrite Ho.
  - split; [discriminate |]. intros _. destruct H as [_ Ho].
    unfold failure. rewrite Ho. discriminate.
Qed.

Lemma Run_stopped (s : NodeState) :
  failure (outcome_of (Run flags s)) ->
  events_of (Run flags s) = events_of (generate flags s).
Proof.
  intros Hf. pose proof (proj1 (Run_failure s) Hf) as Hno.
  pose proof (Run_after_generate flags s) as H.
  destruct (outcome_of (generate flags s)) as [outputs | code |];
    [now destruct (Hno outputs) | apply H | apply H].
Qed.

Lemma generate_failure_is_Run_failure (s : NodeState) :
  failure (outcome_of (generate flags s)) -> failure (outcome_of (Run flags s)).
Proof.
  intros Hf. apply Run_failure. intros outputs E. rewrite E in Hf.
  now apply (not_failure_Ret outputs).
Qed.

Lemma Run_success (s : NodeState) :
  exit_status (outcome_of (Run flags s)) = 0%Z ->
  exists outputs,
    outcome_of (generate flags s) = Ret outputs /\
    events_of (Run flags s) =
    events_of (generate flags s) ++ (if quiet flags then [] else print_events outputs).
Proof.
  intros Hok. pose proof (Run_after_generate flags s) as H.
  destruct (generate_spec flags s) as (wc & val & _ & Hg).
  destruct (outcome_of (generate flags s)) as [outputs | code |].
  - exists outputs. split; [reflexivity |].
    destruct (quiet flags); destruct H as [-> _]; auto using app_nil_r.
  - destruct H as [_ Ho]. rewrite Hok in Ho. now destruct Hg.
  - destruct H as [_ Ho]. rewrite Hok in Ho. discriminate.
Qed.

(** When lines 56-95 cannot return, the run fails having produced messages
    only. *)
Lemma Run_stops_early :
  spec message (fun _ => False) (prelude flags) ->
  forall s,
    failure (outcome_of (Run flags s)) /\
    Forall message (events_of (Run flags s)).
Proof.
  intros Hp s. destruct (generate_stops_early flags Hp s) as [Htr Ho].
  pose proof (generate_failure_is_Run_failure s Ho) as Hf.
  split; [assumption |]. now rewrite Run_stopped.
Qed.

End Runs.

Section Facts.

Context {C : Collaborators}.
Variable flags : Flags.

Lemma withdrawal_key_unique (k1 k2 : PublicKey) :
  withdrawal_key flags k1 -> withdrawal_key flags k2 -> k1 = k2.
Proof.
  intros [(H1 & w1 & a1 & Hp1 & Hk1) | (H1 & b1 & Hd1 & _ & Hk1)]
         [(H2 & w2 & a2 & Hp2 & Hk2) | (H2 & b2 & Hd2 & _ & Hk2)];
    try contradiction.
  - rewrite Hp1 in Hp2. injection Hp2 as <- <-. congruence.
  - rewrite Hd1 in Hd2. injection Hd2 as <-. congruence.
Qed.

Lemma explicit_fork_version_unique (v1 v2 : bytes) :
  explicit_fork_version flags v1 -> explicit_fork_version flags v2 -> v1 = v2.
Proof. intros (_ & H1 & _) (_ & H2 & _). congruence. Qed.

Lemma with_prefix_size (x : byte) (d : bytes) :
  List.length d = 32 -> List.length (Layout.with_prefix x d) = 32.
Proof.
  intros H. unfold Layout.with_prefix. cbn [List.length].
  rewrite length_skipn, H. reflexivity.
Qed.

Lemma with_prefix_rest (x : byte) (d : bytes) (i : nat) :
  d <> [] -> 1 <= i -> nth i (Layout.with_prefix x d) x00 = nth i d x00.
Proof.
  intros Hd Hi. destruct d as [| y rest]; [congruence |].
  destruct i as [| i]; [lia | reflexivity].
Qed.

(** The credentials stage returns the digest of the withdrawal key with its
    first byte replaced. *)
Lemma withdrawal_credentials_returns (key : PublicKey) (s : NodeState) :
  withdrawal_key flags key ->
  outcome_of (withdrawal_credentials flags s) =
  Ret (Layout.with_prefix x00 (SHA256 (PublicKey_Marshal key))).
Proof.
  intros Hkey.
  destruct (withdrawal_credentials_succeeds flags key Hkey s) as [wc Hwc].
  destruct (withdrawal_credentials_spec flags s) as [_ Hpost].
  rewrite Hwc in Hpost |- *. destruct Hpost as (key' & Hkey' & ->).
  now rewrite (withdrawal_key_unique key key').
Qed.

Lemma Run_returns (s : NodeState) :
  outcome_of (Run flags s) = Ret tt ->
  quiet flags = false /\
  exists outputs,
    outcome_of (generate flags s) = Ret outputs /\
    events_of (Run flags s) = events_of (generate flags s) ++ print_events outputs.
Proof.
  intros Hret. pose proof (Run_after_generate flags s) as H.
  destruct (generate_spec flags s) as (wc & val & _ & Hg).
  destruct (outcome_of (generate flags s)) as [outputs | code |].
  - destruct (quiet flags); destruct H as [Htr Ho]; [congruence |].
    split; [reflexivity |]. exists outputs. auto.
  - destruct H as [_ Ho]. rewrite Hret in Ho. now destruct Hg.
  - destruct H as [_ Ho]. rewrite Hret in Ho. discriminate.
Qed.

End Facts.

(** ** Steps that only talk *)

Section Steady.

Context {C : Collaborators}.

Lemma notes_are_messages (notes : list event) :
  forallb is_outputIf notes = true -> Forall message notes.
Proof.
  intros H. apply Forall_forall. intros e He.
  rewrite forallb_forall in H. specialize (H e He). destruct e; try discriminate. exact I.
Qed.

Lemma steady_ret {A : Type} (Q : A -> Prop) (a : A) : Q a -> steady Q (ret a).
Proof. intros H s. exists [], a. auto. Qed.

Lemma steady_bind {A B : Type} (Q : A -> Prop) (R : B -> Prop) (m : M A) (k : A -> M B) :
  steady Q m -> (forall a, Q a -> steady R (k a)) -> steady R (bind m k).
Proof.
  intros Hm Hk s. destruct (Hm s) as (n1 & a & E1 & H1 & Ha).
  destruct (Hk a Ha s) as (n2 & b & E2 & H2 & Hb).
  exists (n1 ++ n2), b. unfold bind. rewrite E1, E2.
  split; [reflexivity |]. split; [| exact Hb].
  rewrite forallb_app, H1, H2. reflexivity.
Qed.

Lemma steady_outputIf (condition : bool) (msg : string) :
  steady (fun _ => True) (outputIf condition msg).
Proof.
  intros s. unfold outputIf. destruct condition.
  - exists [Ev_outputIf msg], tt. auto.
  - exists [], tt. auto.
Qed.

Lemma steady_assert (flags : Flags) (condition : bool) (msg : string) :
  condition = true -> steady (fun _ => True) (assert flags condition msg).
Proof. intros ->. now apply steady_ret. Qed.

Lemma steady_errCheck {A : Type} (flags : Flags) (r : result A) (msg : string) (v : A) :
  r = Ok v -> steady (fun x => x = v) (errCheck flags r msg).
Proof. intros ->. now apply steady_ret. Qed.

Lemma steady_for_range {A : Type} (l : list A) (body : A -> M unit) :
  (forall x, In x l -> steady (fun _ => True) (body x)) ->
  steady (fun _ => True) (for_range l body).
Proof.
  induction l as [| x l IH]; intros Hbody; cbn [for_range].
  - now apply steady_ret.
  - eapply steady_bind; [apply Hbody; now left |].
    intros _ _. apply IH. intros y Hy. apply Hbody. now right.
Qed.

(** What [bind] gives after a step that only talks. *)
Lemma after_steady {A B : Type} (Q : A -> Prop) (m : M A) (k : A -> M B) (s : NodeState) :
  steady Q m ->
  exists notes a,
    forallb is_outputIf notes = true /\ Q a /\
    bind m k s = (notes ++ events_of (k a s), state_of (k a s), outcome_of (k a s)).
Proof.
  intros Hm. destruct (Hm s) as (n & a & E & Hn & Ha). exists n, a.
  split; [exact Hn |]. split; [exact Ha |].
  unfold bind. rewrite E. now destruct (k a s) as [[tr s'] o].
Qed.

Variable flags : Flags.

Lemma validator_accounts_steady (w : Wallet) (accts : list Account) :
  validators flags w accts ->
  steady (fun x => x = (w, accts)) (validator_accounts flags).
Proof.
  intros (Hgiven & Hpath & Hsome & Hkeys). unfold validator_accounts.
  eapply steady_bind; [apply steady_assert; now apply given_true |]. intros _ _.
  eapply steady_bind; [apply steady_errCheck; exact Hpath |]. intros ? ->.
  eapply steady_bind.
  { apply steady_assert. destruct accts; [congruence | reflexivity]. }
  intros _ _. eapply steady_bind; [| intros _ _; now apply steady_ret].
  apply steady_for_range. intros a Ha.
  rewrite Forall_forall in Hkeys. destruct (Hkeys a Ha) as [key Hkey].
  eapply steady_bind; [apply steady_outputIf |]. intros _ _.
  eapply steady_bind; [apply steady_errCheck; exact Hkey |]. intros ? ->.
  apply steady_outputIf.
Qed.

Lemma withdrawal_credentials_steady (key : PublicKey) :
  withdrawal_key flags key ->
  steady (fun wc => wc = Layout.with_prefix x00 (SHA256 (PublicKey_Marshal key)))
    (withdrawal_credentials flags).
Proof.
  intros Hkey. unfold withdrawal_credentials.
  assert (Hdigest : steady
            (fun wc => wc = Layout.with_prefix x00 (SHA256 (PublicKey_Marshal key)))
            (bind (set_first (SHA256 (PublicKey_Marshal key)) x00) (fun wc =>
               bind (outputIf (debug flags)
                       (Sprintf "Withdrawal credentials are %#x" [a_bytes wc]))
                    (fun _ => ret wc)))).
  { pose proof (SHA256_size (PublicKey_Marshal key)) as Hsize.
    unfold Layout.with_prefix.
    destruct (SHA256 (PublicKey_Marshal key)) as [| x rest]; [discriminate |].
    cbn [set_first skipn].
    eapply steady_bind with (Q := fun wc => wc = x00 :: rest);
      [now apply steady_ret |]. intros wc ->.
    eapply steady_bind; [apply steady_outputIf |]. intros _ _.
    now apply steady_ret. }
  destruct Hkey as [(Hacc & w & a & Hpath & Hpub) | (Hacc & k & Hk & Hsize & Hparse)].
  - rewrite (given_true _ Hacc).
    eapply steady_bind; [now apply steady_assert |]. intros _ _.
    eapply steady_bind with (Q := fun d => d = SHA256 (PublicKey_Marshal key)).
    + eapply steady_bind; [apply steady_errCheck; exact Hpath |]. intros ? ->.
      eapply steady_bind; [apply steady_errCheck; exact Hpub |]. intros ? ->.
      eapply steady_bind; [apply steady_outputIf |]. intros _ _.
      now apply steady_ret.
    + intros d ->. exact Hdigest.
  - assert (Hpk : validatorDepositDataWithdrawalPubKey flags <> "").
    { apply (decoded_flag_given _ k Hk). destruct k; [discriminate | congruence]. }
    rewrite Hacc, (given_true _ Hpk). cbn [String.eqb negb orb].
    eapply steady_bind; [now apply steady_assert |]. intros _ _.
    eapply steady_bind with (Q := fun d => d = SHA256 (PublicKey_Marshal key)).
    + eapply steady_bind; [apply steady_errCheck; exact Hk |]. intros ? ->.
      eapply steady_bind; [apply steady_assert; now apply Nat.eqb_eq |]. intros _ _.
      eapply steady_bind; [apply steady_errCheck; exact Hparse |]. intros ? ->.
      now apply steady_ret.
    + intros d ->. exact Hdigest.
Qed.

Lemma deposit_value_steady (val : N) :
  amount flags val -> steady (fun v => v = val) (deposit_value flags).
Proof.
  intros (Hgiven & Hval & Hmin). unfold deposit_value.
  eapply steady_bind; [apply steady_assert; now apply given_true |]. intros _ _.
  eapply steady_bind; [apply steady_errCheck; exact Hval |]. intros ? ->.
  eapply steady_bind; [apply steady_assert; now apply N.leb_le |]. intros _ _.
  now apply steady_ret.
Qed.

(** Lines 56-95 only talk, when they pass. *)
Lemma prelude_steady (w : Wallet) (accts : list Account) (key : PublicKey) (val : N) :
  validators flags w accts -> withdrawal_key flags key -> amount flags val ->
  steady (fun x => x = (w, accts, Layout.with_prefix x00 (SHA256 (PublicKey_Marshal key)), val))
    (prelude flags).
Proof.
  intros Hv Hk Ha. unfold prelude.
  eapply steady_bind; [apply (validator_accounts_steady w accts Hv) |]. intros ? ->.
  eapply steady_bind; [apply (withdrawal_credentials_steady key Hk) |]. intros ? ->.
  eapply steady_bind; [apply (deposit_value_steady val Ha) |]. intros ? ->.
  now apply steady_ret.
Qed.

End Steady.

Section Stopping.

Context {C : Collaborators}.

Lemma bind_stop {A B : Type} (m : M A) (k : A -> M B) (s s' : NodeState)
    (tr : list event) (o : outcome A) :
  m s = (tr, s', o) -> (forall a, o <> Ret a) ->
  exists o' : outcome B, bind m k s = (tr, s', o') /\ stop_of o o'.
Proof.
  intros E Hstop. unfold bind. rewrite E.
  destruct o as [a | code |]; [now destruct (Hstop a) | |]; eexists; split; reflexivity.
Qed.

Lemma stop_of_trans {A B D : Type} (o : outcome A) (o' : outcome B) (o'' : outcome D) :
  stop_of o o' -> stop_of o' o'' -> stop_of o o''.
Proof. destruct o; cbn; [contradiction | |]; intros ->; cbn; auto. Qed.

Lemma stop_of_stopped {A B : Type} (o : outcome A) (o' : outcome B) :
  stop_of o o' -> forall b, o' <> Ret b.
Proof. destruct o; cbn; [contradiction | |]; intros -> b; discriminate. Qed.

(** A step that only talks, then a computation that stops. *)
Lemma steady_then_stop {A B D : Type} (Q : A -> Prop) (m : M A) (k : A -> M B)
    (s s' : NodeState) (tr : list event) (o : outcome D) :
  steady Q m ->
  (forall a, Q a -> exists notes o',
     forallb is_outputIf notes = true /\ k a s = (notes ++ tr, s', o') /\ stop_of o o') ->
  exists notes o',
    forallb is_outputIf notes = true /\ bind m k s = (notes ++ tr, s', o') /\ stop_of o o'.
Proof.
  intros Hm Hk. destruct (after_steady Q m k s Hm) as (n1 & a & Hn1 & Ha & E).
  destruct (Hk a Ha) as (n2 & o' & Hn2 & Ek & Ho).
  exists (n1 ++ n2), o'. rewrite E, Ek. cbn.
  split; [now rewrite forallb_app, Hn1, Hn2 |]. split; [| exact Ho].
  now rewrite app_assoc.
Qed.

Lemma stop_here {A B : Type} (m : M A) (k : A -> M B) (s s' : NodeState)
    (tr : list event) (o : outcome A) :
  m s = (tr, s', o) -> (forall a, o <> Ret a) ->
  exists notes (o' : outcome B),
    forallb is_outputIf notes = true /\ bind m k s = (notes ++ tr, s', o') /\ stop_of o o'.
Proof.
  intros E Hstop. destruct (bind_stop m k s s' tr o E Hstop) as (o' & E' & Ho).
  exists [], o'. auto.
Qed.

Lemma stop_inside {A B D : Type} (m : M A) (k : A -> M B) (s s' : NodeState)
    (tr : list event) (o : outcome D) :
  (exists notes o',
     forallb is_outputIf notes = true /\ m s = (notes ++ tr, s', o') /\ stop_of o o') ->
  exists notes o',
    forallb is_outputIf notes = true /\ bind m k s = (notes ++ tr, s', o') /\ stop_of o o'.
Proof.
  intros (n & o1 & Hn & E & Ho).
  destruct (bind_stop m k s s' _ o1 E (stop_of_stopped o o1 Ho)) as (o2 & E2 & Ho2).
  exists n, o2. split; [exact Hn |]. split; [exact E2 |].
  now apply (stop_of_trans o o1 o2).
Qed.

Variable flags : Flags.

(** When the fork version of the first validator cannot be had, the run
    stops there, having only talked before. *)
Lemma Run_first_fork_version (w : Wallet) (accts : list Account) (key : PublicKey)
    (val : N) (s s' : NodeState) (tr : list event) (o : outcome bytes) :
  validators flags w accts -> withdrawal_key flags key -> amount flags val ->
  fork_version flags s = (tr, s', o) -> (forall b, o <> Ret b) ->
  exists notes o',
    forallb is_outputIf notes = true /\
    Run flags s = (notes ++ tr, s', o') /\ stop_of o o'.
Proof.
  intros Hv Hk Ha Hfv Hstop. unfold Run. apply stop_inside. unfold generate.
  eapply steady_then_stop; [now apply (prelude_steady flags w accts key val) |].
  intros ? ->.
  destruct Hv as (_ & _ & Hsome & Hkeys).
  destruct accts as [| a rest]; [congruence |].
  inversion Hkeys as [| ? ? [pubKey Hpub] _]; subst.
  cbn [for_range_with]. apply stop_inside. unfold deposit.
  eapply steady_then_stop; [apply steady_errCheck; exact Hpub |]. intros ? ->.
  eapply steady_then_stop; [apply steady_outputIf |]. intros _ _.
  now apply stop_here.
Qed.

End Stopping.

(** ** The loop, validator by validator *)

Section Turns.

Context {C : Collaborators}.

Lemma bind_run {A B : Type} (m : M A) (k : A -> M B) (s : NodeState) :
  bind m k s =
  match outcome_of (m s) with
  | Ret a =>
      (events_of (m s) ++ events_of (k a (state_of (m s))),
       state_of (k a (state_of (m s))),
       outcome_of (k a (state_of (m s))))
  | Exit code => (events_of (m s), state_of (m s), Exit code)
  | Panic => (events_of (m s), state_of (m s), Panic)
  end.
Proof.
  unfold bind, events_of, outcome_of, state_of.
  destruct (m s) as [[tr s'] [a | code |]]; cbn [fst snd]; try reflexivity.
  now destruct (k a s') as [[tr' s''] o].
Qed.

Variable flags : Flags.

Lemma said_messages (msg : string) : Forall message (said flags msg).
Proof. unfold said. destruct (quiet flags); repeat constructor. Qed.

Lemma errCheck_Err {A : Type} (e msg : string) (s : NodeState) :
  errCheck flags (@Err A e) msg s = (said flags (msg ++ ": " ++ e), s, Exit _exitFailure).
Proof. unfold errCheck, bind, said. destruct (quiet flags); reflexivity. Qed.

Lemma assert_false (msg : string) (s : NodeState) :
  assert flags false msg s = (said flags msg, s, Exit _exitFailure).
Proof. unfold assert, bind, said. destruct (quiet flags); reflexivity. Qed.

(** *** The fork version of one validator *)

Lemma fork_version_explicit (s : NodeState) :
  validatorDepositDataForkVersion flags <> "" ->
  exists msgs o,
    fork_version flags s = (msgs, s, o) /\ Forall message msgs /\
    match o with
    | Ret forkVersion => explicit_fork_version flags forkVersion
    | Exit code => code = _exitFailure
    | Panic => False
    end.
Proof.
  intros Hgiven. unfold fork_version. rewrite (given_true _ Hgiven).
  destruct (DecodeString (TrimPrefix (validatorDepositDataForkVersion flags) "0x"))
    as [b | e] eqn:Eb.
  - cbn [errCheck]. rewrite bind_run. cbn.
    destruct (List.length b =? 4)%nat eqn:El.
    + cbn. exists [], (Ret b). repeat split; auto. now apply Nat.eqb_eq.
    + rewrite bind_run, assert_false. cbn.
      exists (said flags "Fork version must be exactly four bytes"), (Exit _exitFailure).
      repeat split. apply said_messages.
  - rewrite bind_run, errCheck_Err. cbn.
    eexists; eexists. split; [reflexivity |]. split; [apply said_messages | reflexivity].
Qed.

Lemma fork_version_asked (s : NodeState) :
  validatorDepositDataForkVersion flags = "" ->
  fork_version flags s =
  match fst (connect s) with
  | Err e =>
      (Ev_connect :: said flags ("Failed to connect to beacon node: " ++ e),
       snd (connect s), Exit _exitFailure)
  | Ok _ =>
      let s' := snd (FetchChainConfig (snd (connect s))) in
      match fst (FetchChainConfig (snd (connect s))) with
      | Err _ =>
          ([Ev_connect; Ev_FetchChainConfig] ++ no_fork_version_said flags s, s',
           Exit _exitFailure)
      | Ok cfg =>
          match config_get cfg "GenesisForkVersion" with
          | None =>
              ([Ev_connect; Ev_FetchChainConfig] ++ no_fork_version_said flags s, s',
               Exit _exitFailure)
          | Some (cv_bytes b) => ([Ev_connect; Ev_FetchChainConfig], s', Ret b)
          | Some cv_other => ([Ev_connect; Ev_FetchChainConfig], s', Panic)
          end
      end
  end.
Proof.
  intros Hnone. unfold fork_version, no_fork_version_said.
  rewrite Hnone. cbn [String.eqb negb].
  unfold bind at 1. unfold call_connect at 1.
  destruct (connect s) as [[u | e] s1]; cbn [fst snd].
  - cbn [errCheck]. unfold bind at 1. cbn [ret].
    unfold bind at 1. unfold call_FetchChainConfig at 1.
    destruct (FetchChainConfig s1) as [[cfg | e] s2]; cbn [fst snd].
    + unfold bind at 1. cbn [ret].
      destruct (config_get cfg "GenesisForkVersion") as [[b |] |]; cbn [is_some as_bytes].
      * reflexivity.
      * reflexivity.
      * rewrite bind_run, assert_false. reflexivity.
    + unfold bind, outputIf, said. destruct (quiet flags); reflexivity.
  - rewrite bind_run, errCheck_Err. reflexivity.
Qed.

Lemma fork_version_returned (s : NodeState) (forkVersion : bytes) :
  outcome_of (fork_version flags s) = Ret forkVersion ->
  fork_version_at flags s forkVersion /\
  state_of (fork_version flags s) = node_after flags s.
Proof.
  unfold node_after, fork_version_at.
  destruct (validatorDepositDataForkVersion flags =? "") eqn:E.
  - apply String.eqb_eq in E. rewrite (fork_version_asked s E).
    destruct (connect s) as [[[] | e] s1]; cbn [fst snd]; [| discriminate].
    destruct (FetchChainConfig s1) as [[cfg | e] s2] eqn:Ef; cbn [fst snd]; [| discriminate].
    destruct (config_get cfg "GenesisForkVersion") as [[b |] |] eqn:Eg; try discriminate.
    cbn. intros H. injection H as <-. split; [| reflexivity].
    right. split; [exact E |]. split; [reflexivity |]. exists cfg. auto.
  - apply String.eqb_neq in E.
    destruct (fork_version_explicit s E) as (msgs & o & -> & _ & Ho).
    cbn. intros ->. split; [now left | reflexivity].
Qed.

(** The events of [fork_version]: a connection and a fetch at most, and
    messages. *)
Lemma fork_version_events (s : NodeState) :
  exists calls msgs,
    events_of (fork_version flags s) = calls ++ msgs /\ Forall message msgs /\
    (calls = [] \/ calls = [Ev_connect] \/ calls = [Ev_connect; Ev_FetchChainConfig]).
Proof.
  destruct (validatorDepositDataForkVersion flags =? "") eqn:E.
  - apply String.eqb_eq in E. rewrite (fork_version_asked s E).
    unfold no_fork_version_said.
    destruct (fst (connect s)) as [u | e].
    + destruct (fst (FetchChainConfig (snd (connect s)))) as [cfg | e].
      * destruct (config_get cfg "GenesisForkVersion") as [[b |] |]; cbn.
        -- exists [Ev_connect; Ev_FetchChainConfig], []. auto.
        -- exists [Ev_connect; Ev_FetchChainConfig], []. auto.
        -- exists [Ev_connect; Ev_FetchChainConfig],
             (said flags "Failed to obtain genesis fork version").
           split; [reflexivity |]. split; [apply said_messages | auto].
      * exists [Ev_connect; Ev_FetchChainConfig],
          (if quiet flags then [] else [Ev_outputIf Format.could_not_connect]).
        split; [reflexivity |]. split; [| auto].
        destruct (quiet flags); repeat constructor.
    + exists [Ev_connect], (said flags ("Failed to connect to beacon node: " ++ e)).
      split; [reflexivity |]. split; [apply said_messages | auto].
  - apply String.eqb_neq in E.
    destruct (fork_version_explicit s E) as (msgs & o & -> & Hm & _).
    exists [], msgs. auto.
Qed.

End Turns.

Section OneValidator.

Context {C : Collaborators}.

Lemma bind_ret {A B : Type} (a : A) (k : A -> M B) (s : NodeState) :
  bind (ret a) k s = k a s.
Proof. unfold bind, ret. now destruct (k a s) as [[tr s'] o]. Qed.

Lemma bind_outputIf {B : Type} (condition : bool) (msg : string) (k : unit -> M B)
    (s : NodeState) :
  bind (outputIf condition msg) k s =
  ((if condition then [Ev_outputIf msg] else []) ++ events_of (k tt s),
   state_of (k tt s), outcome_of (k tt s)).
Proof.
  unfold bind, outputIf, emit, ret.
  destruct condition; now destruct (k tt s) as [[tr s'] o].
Qed.

Lemma bind_call_signStruct {B : Type} (a : Account) (d : DepositData.t) (domain : bytes)
    (k : result BLSSignature -> M B) (s : NodeState) :
  bind (call_signStruct a d domain) k s =
  (Ev_signStruct a d domain :: events_of (k (signStruct a d domain) s),
   state_of (k (signStruct a d domain) s), outcome_of (k (signStruct a d domain) s)).
Proof.
  unfold call_signStruct, bind, emit, ret.
  now destruct (k (signStruct a d domain) s) as [[tr s'] o].
Qed.

Lemma note_outputIf (condition : bool) (msg : string) :
  forallb is_outputIf (if condition then [Ev_outputIf msg] else []) = true.
Proof. now destruct condition. Qed.

Variable flags : Flags.

Lemma print_signed_run (d : SignedDepositData.t) (s : NodeState) :
  exists dump,
    print_signed flags d s = (dump, s, Ret tt) /\
    forallb is_debug dump = true /\
    standard_output dump = (if debug flags then dump_text d else "").
Proof.
  unfold print_signed, dump_text. destruct (debug flags).
  - eexists. split; [reflexivity |]. split; [reflexivity |].
    cbn [standard_output app]. now rewrite append_nil_r.
  - exists []. repeat split.
Qed.

(** One turn of the loop, for an account that has a public key: the fork
    version is worked out with the node as it is; with one, the account is
    asked to sign under its deposit domain, and what follows only talks and
    dumps. *)
Lemma deposit_run (w : Wallet) (wc : bytes) (val : N) (outputs : list string)
    (a : Account) (key : PublicKey) (s : NodeState) :
  bestPublicKey a = Ok key ->
  let d := DepositData.make (PublicKey_Marshal key) wc val in
  let f := fork_version flags s in
  exists n1 rest o,
    deposit flags w wc val outputs a s = (n1 ++ events_of f ++ rest, state_of f, o) /\
    forallb is_outputIf n1 = true /\
    match outcome_of f with
    | Ret forkVersion =>
        let domain := Domain DomainDeposit forkVersion ZeroGenesisValidatorsRoot in
        exists n2 more,
          rest = n2 ++ Ev_signStruct a d domain :: more /\
          forallb is_outputIf n2 = true /\
          match signStruct a d domain with
          | Err e =>
              more = said flags ("Failed to generate deposit data signature: " ++ e) /\
              o = Exit _exitFailure
          | Ok sig =>
              exists dump msgs,
                more = dump ++ msgs /\
                forallb is_debug dump = true /\
                standard_output dump =
                  (if debug flags
                   then dump_text (SignedDepositData.make (PublicKey_Marshal key) wc val
                                     (Signature_Marshal sig))
                   else "") /\
                Forall message msgs /\
                (o = Exit _exitFailure \/ exists v, o = Ret v)
          end
    | o' => rest = [] /\ stop_of o' o
    end.
Proof.
  intros Hkey d f.
  remember (deposit flags w wc val outputs a s) as r eqn:E0.
  unfold deposit in E0. rewrite Hkey in E0. cbn [errCheck] in E0.
  rewrite bind_ret in E0. cbn beta zeta in E0.
  rewrite bind_outputIf in E0. rewrite bind_run in E0. fold f in E0.
  match type of E0 with
  | _ = (?n ++ _, _, _) => exists n
  end.
  destruct (outcome_of f) as [fv | code |] eqn:Ef;
    cbn [events_of state_of outcome_of fst snd] in E0.
  2: { exists [], (Exit code). rewrite E0, app_nil_r. split; [reflexivity |].
       split; [apply note_outputIf |]. split; reflexivity. }
  2: { exists [], Panic. rewrite E0, app_nil_r. split; [reflexivity |].
       split; [apply note_outputIf |]. split; reflexivity. }
  set (sf := state_of f) in *.
  match type of E0 with
  | _ = (_ ++ _ ++ events_of ?x, _, _) => remember x as r1 eqn:E1
  end.
  rewrite bind_outputIf in E1. cbn beta in E1.
  rewrite bind_outputIf in E1. cbn beta in E1.
  rewrite bind_call_signStruct in E1. cbn beta in E1.
  cbn [events_of state_of outcome_of fst snd] in E1.
  match type of E1 with
  | _ = (_ ++ _ ++ Ev_signStruct _ _ _ :: events_of ?x, _, _) =>
      remember x as r2 eqn:E2
  end.
  assert (H2 :
    state_of r2 = sf /\
    match signStruct a d (Domain DomainDeposit fv ZeroGenesisValidatorsRoot) with
    | Err e =>
        events_of r2 = said flags ("Failed to generate deposit data signature: " ++ e) /\
        outcome_of r2 = Exit _exitFailure
    | Ok sig =>
        exists dump msgs,
          events_of r2 = dump ++ msgs /\
          forallb is_debug dump = true /\
          standard_output dump =
            (if debug flags
             then dump_text (SignedDepositData.make (PublicKey_Marshal key) wc val
                               (Signature_Marshal sig))
             else "") /\
          Forall message msgs /\
          (outcome_of r2 = Exit _exitFailure \/ exists v, outcome_of r2 = Ret v)
    end).
  { fold d in E2.
    destruct (signStruct a d (Domain DomainDeposit fv ZeroGenesisValidatorsRoot))
      as [sig | e].
    2: { rewrite bind_run, errCheck_Err in E2. rewrite E2. repeat split. }
    cbn [errCheck] in E2. rewrite bind_ret in E2. cbn beta zeta in E2.
    rewrite bind_run in E2.
    match type of E2 with
    | context [print_signed flags ?sd sf] =>
        destruct (print_signed_run sd sf) as (dump & Ep & Hd & Hout); rewrite Ep in E2
    end.
    cbn [events_of state_of outcome_of fst snd] in E2.
    match type of E2 with
    | _ = (_ ++ events_of ?x, _, _) => remember x as r3 eqn:E3
    end.
    assert (H3 : state_of r3 = sf /\ Forall message (events_of r3) /\
                 (outcome_of r3 = Exit _exitFailure \/ exists v, outcome_of r3 = Ret v)).
    { match type of E3 with
      | context [errCheck flags ?h _] => destruct h as [root | e]
      end.
      2: { rewrite bind_run, errCheck_Err in E3. rewrite E3.
           split; [reflexivity |]. split; [apply said_messages | now left]. }
      cbn [errCheck] in E3. rewrite bind_ret in E3. cbn beta in E3.
      rewrite bind_outputIf in E3. cbn beta in E3.
      assert (Hn : forall (c : bool) (msg : string),
                Forall message ((if c then [Ev_outputIf msg] else []) ++ [])).
      { intros [] msg; repeat constructor. }
      destruct (validatorDepositDataRaw flags).
      { rewrite E3. cbn. split; [reflexivity |]. split; [apply Hn | right; eauto]. }
      destruct (validatorDepositDataLaunchpad flags).
      2: { rewrite E3. cbn. split; [reflexivity |]. split; [apply Hn | right; eauto]. }
      cbn zeta in E3.
      match type of E3 with
      | context [errCheck flags ?h _] => destruct h as [messageRoot | e]
      end.
      - cbn [errCheck] in E3. rewrite bind_ret in E3. rewrite E3. cbn.
        split; [reflexivity |]. split; [apply Hn | right; eauto].
      - rewrite bind_run, errCheck_Err in E3. rewrite E3.
        cbn [events_of state_of outcome_of fst snd].
        split; [reflexivity |]. split; [| now left].
        apply Forall_app. split; [| apply said_messages].
        destruct (debug flags); repeat constructor. }
    destruct H3 as (Hs3 & Hm3 & Ho3). rewrite E2.
    cbn [events_of state_of outcome_of fst snd].
    split; [exact Hs3 |]. exists dump, (events_of r3). auto. }
  destruct H2 as (Hs2 & H2).
  match type of E1 with
  | _ = (?n2a ++ ?n2b ++ _, _, _) =>
      exists ((n2a ++ n2b) ++ Ev_signStruct a d (Domain DomainDeposit fv
                                                ZeroGenesisValidatorsRoot) :: events_of r2),
        (outcome_of r2)
  end.
  rewrite E0, E1. cbn [events_of state_of outcome_of fst snd].
  split; [| split; [apply note_outputIf |]].
  - rewrite Hs2. f_equal. f_equal. f_equal. f_equal. now rewrite <- app_assoc.
  - eexists; eexists. split; [reflexivity |].
    split; [rewrite forallb_app, !note_outputIf; reflexivity |].
    destruct (signStruct a d (Domain DomainDeposit fv ZeroGenesisValidatorsRoot))
      as [sig | e]; exact H2.
Qed.

End OneValidator.

Section Loop.

Context {C : Collaborators}.
Variable flags : Flags.

Lemma standard_output_messages (tr : list event) :
  Forall message tr -> standard_output tr = "".
Proof.
  induction 1 as [| e tr He _ IH]; [reflexivity |].
  destruct e; cbn in He; try contradiction; exact IH.
Qed.

Lemma no_fetch_in_messages (tr : list event) : Forall message tr -> count is_fetch tr = 0.
Proof. apply count_messages. intros msg. split; reflexivity. Qed.

Lemma no_requests_in_dump (tr : list event) :
  forallb is_debug tr = true -> signing_requests tr = [] /\ count is_fetch tr = 0.
Proof.
  induction tr as [| e tr IH]; [split; reflexivity |].
  cbn [forallb]. intros H. apply andb_true_iff in H as [He Htr].
  destruct e; try discriminate. exact (IH Htr).
Qed.

Lemma fork_version_quiet (s : NodeState) :
  signing_requests (events_of (fork_version flags s)) = [] /\
  standard_output (events_of (fork_version flags s)) = "".
Proof.
  destruct (fork_version_events flags s) as (calls & msgs & -> & Hm & Hc).
  rewrite signing_requests_app, standard_output_app.
  rewrite (no_requests_in_messages msgs Hm), (standard_output_messages msgs Hm).
  destruct Hc as [-> | [-> | ->]]; split; reflexivity.
Qed.

Lemma fork_version_fetches (s : NodeState) :
  validatorDepositDataForkVersion flags = "" ->
  count is_fetch (events_of (fork_version flags s)) =
  match fst (connect s) with Ok _ => 1 | Err _ => 0 end.
Proof.
  intros Hnone. rewrite (fork_version_asked flags s Hnone).
  unfold no_fork_version_said.
  destruct (fst (connect s)) as [u | e].
  - destruct (fst (FetchChainConfig (snd (connect s)))) as [cfg | e].
    + destruct (config_get cfg "GenesisForkVersion") as [[b |] |]; try reflexivity.
      unfold said. destruct (quiet flags); reflexivity.
    + destruct (quiet flags); reflexivity.
  - unfold said. destruct (quiet flags); reflexivity.
Qed.

Lemma fork_version_connected (s : NodeState) (forkVersion : bytes) :
  validatorDepositDataForkVersion flags = "" ->
  outcome_of (fork_version flags s) = Ret forkVersion ->
  fst (connect s) = Ok tt.
Proof.
  intros Hnone Hret.
  destruct (fork_version_returned flags s forkVersion Hret)
    as [[(Hgiven & _) | (_ & Hc & _)] _]; [contradiction | exact Hc].
Qed.

(** With no genesis fork version to be had from the node as it is, no fork
    version is returned; when the node is reached, the fetch is the last
    thing done before the command says so and exits. *)
Lemma fork_version_missing (s : NodeState) :
  validatorDepositDataForkVersion flags = "" ->
  no_fork_version_at s ->
  (forall forkVersion, outcome_of (fork_version flags s) <> Ret forkVersion) /\
  (fst (connect s) = Ok tt ->
   fork_version flags s =
   ([Ev_connect; Ev_FetchChainConfig] ++ no_fork_version_said flags s,
    snd (FetchChainConfig (snd (connect s))), Exit _exitFailure)).
Proof.
  intros Hnone Hno. unfold no_fork_version_at in Hno. split.
  - intros fv Hret.
    destruct (fork_version_returned flags s fv Hret)
      as [[(Hgiven & _) | (_ & _ & cfg & Hf & Hg)] _]; [contradiction |].
    rewrite Hf in Hno. congruence.
  - intros Hc. rewrite (fork_version_asked flags s Hnone), Hc.
    destruct (fst (FetchChainConfig (snd (connect s)))) as [cfg | e]; [| reflexivity].
    now rewrite Hno.
Qed.

(** *** One turn of the loop *)

Lemma deposit_facts (w : Wallet) (wc : bytes) (val : N) (outputs : list string)
    (a : Account) (key : PublicKey) (s : NodeState) :
  bestPublicKey a = Ok key ->
  let r := deposit flags w wc val outputs a s in
  let f := fork_version flags s in
  let l := signing_requests (events_of r) in
  ((l = [] /\ forall v, outcome_of r <> Ret v) \/
   (exists q, l = [q] /\ request_at flags wc val a s q)) /\
  standard_output (events_of r) = dumped flags l /\
  count is_fetch (events_of r) = count is_fetch (events_of f) /\
  (forall v, outcome_of r = Ret v ->
     state_of r = node_after flags s /\ exists fv, outcome_of f = Ret fv) /\
  ((forall fv, outcome_of f <> Ret fv) ->
   exists before,
     Forall message before /\
     events_of r = before ++ events_of f /\
     stop_of (outcome_of f) (outcome_of r)).
Proof.
  intros Hkey. cbn zeta.
  destruct (deposit_run flags w wc val outputs a key s Hkey)
    as (n1 & rest & o & -> & Hn1 & H).
  cbn [events_of state_of outcome_of fst snd].
  pose proof (notes_are_messages n1 Hn1) as Hm1.
  destruct (fork_version_quiet s) as [Hfr Hfo].
  rewrite !signing_requests_app, !standard_output_app, !count_app.
  rewrite (no_requests_in_messages n1 Hm1), (standard_output_messages n1 Hm1),
    (no_fetch_in_messages n1 Hm1), Hfr, Hfo.
  cbn [app append].
  destruct (outcome_of (fork_version flags s)) as [fv | code |] eqn:Ef.
  - cbn zeta in H. destruct H as (n2 & more & -> & Hn2 & H).
    pose proof (notes_are_messages n2 Hn2) as Hm2.
    rewrite !signing_requests_app, !standard_output_app, !count_app.
    rewrite (no_requests_in_messages n2 Hm2), (standard_output_messages n2 Hm2),
      (no_fetch_in_messages n2 Hm2).
    cbn [app append signing_requests standard_output].
    change (Ev_signStruct ?x ?y ?z :: more) with ([Ev_signStruct x y z] ++ more).
    rewrite count_app.
    destruct (fork_version_returned flags s fv Ef) as [Hat Hstate].
    assert (Hmore : signing_requests more = [] /\ count is_fetch more = 0 /\
              standard_output more =
              signed_dump flags
                (a, DepositData.make (PublicKey_Marshal key) wc val,
                 Domain DomainDeposit fv ZeroGenesisValidatorsRoot) /\
              ((forall v, o <> Ret v) \/ True)).
    { unfold signed_dump. cbn [request_account request_data request_domain fst snd].
      destruct (signStruct a (DepositData.make (PublicKey_Marshal key) wc val)
                  (Domain DomainDeposit fv ZeroGenesisValidatorsRoot)) as [sig | e].
      - destruct H as (dump & msgs & -> & Hd & Hout & Hm & _).
        destruct (no_requests_in_dump dump Hd) as [Hdr Hdf].
        rewrite signing_requests_app, count_app, standard_output_app.
        rewrite Hdr, Hdf, (no_requests_in_messages msgs Hm),
          (no_fetch_in_messages msgs Hm), (standard_output_messages msgs Hm), Hout.
        rewrite append_nil_r. repeat split; auto.
      - destruct H as [-> ->].
        pose proof (said_messages flags ("Failed to generate deposit data signature: " ++ e))
          as Hm.
        rewrite (no_requests_in_messages _ Hm), (no_fetch_in_messages _ Hm),
          (standard_output_messages _ Hm).
        repeat split; auto. now destruct (debug flags). }
    destruct Hmore as (Hr & Hf & Ho & _). rewrite Hr, Hf, Ho.
    split; [| split; [| split; [| split]]].
    + right. eexists. split; [reflexivity |].
      split; [reflexivity |]. split; [exists key; auto | exists fv; auto].
    + cbn [dumped]. now rewrite append_nil_r.
    + unfold count. cbn. lia.
    + intros v _. split; [exact Hstate | eauto].
    + intros Hno. now destruct (Hno fv).
  - destruct H as [-> Hstop]. cbn in Hstop. subst o.
    rewrite app_nil_r.
    split; [left; split; [reflexivity | discriminate] |].
    split; [reflexivity |]. split; [unfold count; cbn; lia |].
    split; [discriminate |]. intros _. exists n1. repeat split; auto.
  - destruct H as [-> Hstop]. cbn in Hstop. subst o.
    rewrite app_nil_r.
    split; [left; split; [reflexivity | discriminate] |].
    split; [reflexivity |]. split; [unfold count; cbn; lia |].
    split; [discriminate |]. intros _. exists n1. repeat split; auto.
Qed.

End Loop.

Section WholeLoop.

Context {C : Collaborators}.
Variable flags : Flags.

(** The loop of line 99 over accounts that have public keys. *)
Lemma loop_run (w : Wallet) (wc : bytes) (val : N) (accts : list Account) :
  Forall (fun a => exists key, bestPublicKey a = Ok key) accts ->
  forall (outputs : list string) (s : NodeState),
    let r := for_range_with accts (deposit flags w wc val) outputs s in
    let l := signing_requests (events_of r) in
    requests_from flags wc val accts s l /\
    standard_output (events_of r) = dumped flags l /\
    (forall v, outcome_of r = Ret v -> List.length l = List.length accts) /\
    (forall i,
       i < List.length accts ->
       (forall fv, outcome_of (fork_version flags (node_at flags i s)) <> Ret fv) ->
       (forall v, outcome_of r <> Ret v) /\
       (validatorDepositDataForkVersion flags = "" ->
        count is_fetch (events_of r) = S i ->
        exists before,
          events_of r = before ++ events_of (fork_version flags (node_at flags i s)) /\
          stop_of (outcome_of (fork_version flags (node_at flags i s))) (outcome_of r))).
Proof.
  induction 1 as [| a rest [key Hkey] _ IH]; intros outputs s; cbn zeta.
  - cbn. split; [exact I |]. split; [reflexivity |]. split; [reflexivity |].
    intros i Hi. inversion Hi.
  - cbn [for_range_with]. rewrite bind_run.
    destruct (deposit_facts flags w wc val outputs a key s Hkey)
      as (Hreq & Hout & Hfetch & Hret & Hstop).
    cbn zeta in Hreq, Hout, Hfetch, Hret, Hstop.
    destruct (outcome_of (deposit flags w wc val outputs a s)) as [v | code |] eqn:Eo;
      cbn [events_of state_of outcome_of fst snd].
    + destruct (Hret v eq_refl) as (Hstate & fv & Hfv).
      destruct Hreq as [[_ Hno] | (q & Hq & Hat)]; [now destruct (Hno v) |].
      rewrite Hstate.
      specialize (IH v (node_after flags s)). cbn zeta in IH.
      destruct IH as (IHreq & IHout & IHlen & IHbad).
      rewrite signing_requests_app, standard_output_app, Hq, Hout, Hq.
      cbn [app requests_from dumped List.length].
      split; [split; assumption |]. split; [now rewrite IHout, append_nil_r |].
      split; [intros v' E; now rewrite (IHlen v' E) |].
      intros [| i] Hi Hbad; cbn [node_at] in Hbad |- *.
      * now destruct (Hbad fv).
      * destruct (IHbad i ltac:(lia) Hbad) as [IHno IHlast].
        split; [exact IHno |]. intros Hnone Hcount.
        rewrite count_app, Hfetch, (fork_version_fetches flags s Hnone),
          (fork_version_connected flags s fv Hnone Hfv) in Hcount.
        destruct (IHlast Hnone ltac:(lia)) as (before & Hev & Hend).
        exists (events_of (deposit flags w wc val outputs a s) ++ before).
        split; [now rewrite Hev, app_assoc | exact Hend].
    + split.
      { destruct Hreq as [[-> _] | (q & -> & Hat)]; cbn [requests_from];
          [exact I | split; [exact Hat | exact I]]. }
      split; [exact Hout |]. split; [discriminate |].
      intros [| i] Hi Hbad; cbn [node_at] in Hbad |- *; (split; [discriminate |]).
      * intros _ _. destruct (Hstop Hbad) as (before & _ & Hev & Hend).
        exists before. split; [exact Hev | exact Hend].
      * intros Hnone Hcount.
        rewrite Hfetch, (fork_version_fetches flags s Hnone) in Hcount.
        destruct (fst (connect s)); lia.
    + split.
      { destruct Hreq as [[-> _] | (q & -> & Hat)]; cbn [requests_from];
          [exact I | split; [exact Hat | exact I]]. }
      split; [exact Hout |]. split; [discriminate |].
      intros [| i] Hi Hbad; cbn [node_at] in Hbad |- *; (split; [discriminate |]).
      * intros _ _. destruct (Hstop Hbad) as (before & _ & Hev & Hend).
        exists before. split; [exact Hev | exact Hend].
      * intros Hnone Hcount.
        rewrite Hfetch, (fork_version_fetches flags s Hnone) in Hcount.
        destruct (fst (connect s)); lia.
Qed.

(** Lines 56-199: either lines 56-95 stop the run, which has then only
    talked, or they settle the inputs, having only talked, and the loop
    runs with the node as it was. *)
Lemma generate_run (s : NodeState) :
  (Forall message (events_of (generate flags s)) /\
   forall v, outcome_of (generate flags s) <> Ret v) \/
  (exists w accts wc val notes,
     settled flags (w, accts, wc, val) /\
     Forall message notes /\
     generate flags s =
     (notes ++ events_of (for_range_with accts (deposit flags w wc val) [] s),
      state_of (for_range_with accts (deposit flags w wc val) [] s),
      outcome_of (for_range_with accts (deposit flags w wc val) [] s))).
Proof.
  destruct (prelude_spec flags s) as [Htr Ho].
  destruct (outcome_of (prelude flags s)) as [[[[w accts] wc] val] | code |] eqn:Ep.
  - right. destruct Ho as (Hv & (key & Hkey & Hwc) & Hval).
    unfold generate.
    destruct (after_steady _ (prelude flags)
                (fun x =>
                   let '(validatorWallet, validatorAccounts, withdrawalCredentials, val)
                     := x in
                   for_range_with validatorAccounts
                     (deposit flags validatorWallet withdrawalCredentials val) [])
                s (prelude_steady flags w accts key val Hv Hkey Hval))
      as (notes & x & Hn & -> & E).
    exists w, accts, wc, val, notes.
    split; [split; [exact Hv |]; split; [exists key; auto | exact Hval] |].
    split; [now apply notes_are_messages |].
    rewrite Hwc. exact E.
  - left. unfold generate. rewrite bind_run, Ep. cbn. split; [exact Htr | discriminate].
  - left. unfold generate. rewrite bind_run, Ep. cbn. split; [exact Htr | discriminate].
Qed.

End WholeLoop.

(** ** The last word of a run that gives up *)

Section Explained.

Context {C : Collaborators}.
Variable flags : Flags.

Lemma explained_returns {A : Type} (m : M A) :
  (forall s code, outcome_of (m s) <> Exit code) -> explained flags m.
Proof. intros H _ s code E. now destruct (H s code). Qed.

Lemma explained_ret {A : Type} (a : A) : explained flags (ret a).
Proof. apply explained_returns. discriminate. Qed.

Lemma explained_bind {A B : Type} (m : M A) (k : A -> M B) :
  explained flags m -> (forall a, explained flags (k a)) -> explained flags (bind m k).
Proof.
  intros Hm Hk Hq s code. rewrite bind_run.
  destruct (outcome_of (m s)) as [a | c |] eqn:E;
    cbn [events_of outcome_of fst snd]; intros Ho.
  - destruct (Hk a Hq _ _ Ho) as (before & e & -> & He).
    exists (events_of (m s) ++ before), e. split; [now rewrite app_assoc | exact He].
  - exact (Hm Hq s c E).
  - discriminate Ho.
Qed.

Lemma explained_outputIf (c : bool) (msg : string) : explained flags (outputIf c msg).
Proof. apply explained_returns. intros s code. unfold outputIf. now destruct c. Qed.

Lemma explained_emit (e : event) : explained flags (emit e).
Proof. apply explained_returns. discriminate. Qed.

Lemma explained_assert (c : bool) (msg : string) : explained flags (assert flags c msg).
Proof.
  intros Hq s code. destruct c; [discriminate |].
  rewrite assert_false. unfold said. rewrite Hq. intros _.
  exists [], (Ev_stderr msg). split; reflexivity.
Qed.

Lemma explained_errCheck {A : Type} (r : result A) (msg : string) :
  explained flags (errCheck flags r msg).
Proof.
  intros Hq s code. destruct r as [v | e]; [discriminate |].
  rewrite errCheck_Err. unfold said. rewrite Hq. intros _.
  exists [], (Ev_stderr (msg ++ ": " ++ e)). split; reflexivity.
Qed.

Lemma explained_call_connect : explained flags call_connect.
Proof.
  apply explained_returns. intros s code. unfold call_connect. now destruct (connect s).
Qed.

Lemma explained_call_FetchChainConfig : explained flags call_FetchChainConfig.
Proof.
  apply explained_returns. intros s code. unfold call_FetchChainConfig.
  now destruct (FetchChainConfig s).
Qed.

Lemma explained_call_signStruct (a : Account) (d : DepositData.t) (domain : bytes) :
  explained flags (call_signStruct a d domain).
Proof. apply explained_returns. discriminate. Qed.

Lemma explained_for_range {A : Type} (l : list A) (body : A -> M unit) :
  (forall x, explained flags (body x)) -> explained flags (for_range l body).
Proof.
  intros Hbody. induction l as [| x l IH]; cbn [for_range];
    [apply explained_ret | apply explained_bind; auto].
Qed.

Lemma explained_for_range_with {A V : Type} (l : list A) (body : V -> A -> M V) (v : V) :
  (forall v x, explained flags (body v x)) -> explained flags (for_range_with l body v).
Proof.
  intros Hbody. revert v. induction l as [| x l IH]; intros v; cbn [for_range_with];
    [apply explained_ret | apply explained_bind; auto].
Qed.

Ltac explained_call :=
  first [ apply explained_assert | apply explained_errCheck | apply explained_outputIf
        | apply explained_emit | apply explained_call_connect
        | apply explained_call_FetchChainConfig | apply explained_call_signStruct
        | apply explained_ret ].

Ltac explained_step :=
  first [ apply explained_bind; [explained_call | intros ?] | explained_call ].

Lemma validator_accounts_explained : explained flags (validator_accounts flags).
Proof.
  unfold validator_accounts. explained_step. explained_step.
  destruct a0 as [w accts]. explained_step.
  apply explained_bind; [| intros ?; apply explained_ret].
  apply explained_for_range. intros x. repeat explained_step.
Qed.

Lemma withdrawal_credentials_explained : explained flags (withdrawal_credentials flags).
Proof.
  unfold withdrawal_credentials. explained_step.
  apply explained_bind.
  - destruct (negb (validatorDepositDataWithdrawalAccount flags =? "")).
    + explained_step. destruct a0 as [w acct]. repeat explained_step.
    + repeat explained_step.
  - intros d. apply explained_bind; [| intros ?; repeat explained_step].
    apply explained_returns. intros s code. now destruct d.
Qed.

Lemma deposit_value_explained : explained flags (deposit_value flags).
Proof. unfold deposit_value. repeat explained_step. Qed.

Lemma fork_version_explained : explained flags (fork_version flags).
Proof.
  unfold fork_version.
  destruct (negb (validatorDepositDataForkVersion flags =? "")).
  - repeat explained_step.
  - explained_step. explained_step. explained_step.
    apply explained_bind.
    + destruct a1 as [cfg | e]; [apply explained_ret |].
      intros Hq s code _. unfold bind, outputIf. rewrite Hq. cbn.
      exists [], (Ev_outputIf Format.could_not_connect). split; reflexivity.
    + intros cfg. explained_step.
      apply explained_returns. intros s code.
      now destruct (config_get cfg "GenesisForkVersion") as [[b |] |].
Qed.

Lemma print_signed_explained (d : SignedDepositData.t) :
  explained flags (print_signed flags d).
Proof.
  apply explained_returns. intros s code.
  destruct (print_signed_run flags d s) as (dump & -> & _). discriminate.
Qed.

Lemma deposit_explained (w : Wallet) (wc : bytes) (val : N) (outputs : list string)
    (a : Account) :
  explained flags (deposit flags w wc val outputs a).
Proof.
  unfold deposit. explained_step. explained_step.
  apply explained_bind; [apply fork_version_explained | intros forkVersion].
  explained_step. explained_step. explained_step. explained_step.
  apply explained_bind; [apply print_signed_explained | intros _].
  explained_step. explained_step.
  destruct (validatorDepositDataRaw flags); [apply explained_ret |].
  destruct (validatorDepositDataLaunchpad flags); repeat explained_step.
Qed.

Lemma generate_explained : explained flags (generate flags).
Proof.
  unfold generate, prelude. apply explained_bind.
  - apply explained_bind; [apply validator_accounts_explained | intros [w accts]].
    apply explained_bind; [apply withdrawal_credentials_explained | intros wc].
    apply explained_bind; [apply deposit_value_explained | intros val].
    apply explained_ret.
  - intros [[[w accts] wc] val]. apply explained_for_range_with. intros v x.
    apply deposit_explained.
Qed.

Lemma Run_explained : explained flags (Run flags).
Proof.
  unfold Run. apply explained_bind; [apply generate_explained |].
  intros outputs Hq s code. rewrite print_outputs_run, Hq. discriminate.
Qed.

End Explained.

(** ** Arrays read back *)

Section Arrays.

Lemma closing_members_after (rest : list (string * Layout.value)) (tail : string) :
  Layout.closing (Layout.members_after rest ++ tail) = true.
Proof. destruct rest; reflexivity. Qed.

Lemma read_more_render_then (rest : list (string * Layout.value)) (tail : string)
    (fuel : nat) :
  List.length rest < fuel ->
  Layout.read_more fuel (Layout.members_after rest ++ tail) = Some (rest, tail).
Proof.
  revert fuel. induction rest as [| [key v] rest IH]; intros fuel Hfuel;
    (destruct fuel as [| fuel]; [inversion Hfuel |]).
  - reflexivity.
  - cbn [Layout.members_after]. rewrite !append_assoc. cbn [append Layout.read_more].
    rewrite skip_space_token by reflexivity.
    rewrite (read_member_render (key, v) _ (closing_members_after rest tail)).
    cbn [fst snd]. rewrite IH by (cbn [List.length] in Hfuel; lia). reflexivity.
Qed.

(** An object is read back from the head of any text. *)
Lemma read_object_then_render (members : list (string * Layout.value)) (tail : string) :
  Json.read_object_then (Layout.render_object members ++ tail) = Some (members, tail).
Proof.
  destruct members as [| [key v] rest]; [reflexivity |].
  rewrite render_object_cons, !append_assoc. cbn [append]. unfold Json.read_object_then.
  rewrite skip_space_token by reflexivity.
  assert (Hhead : exists text,
            (Layout.render_member (key, v) ++ Layout.members_after rest ++ tail)%string
            = String (ascii_of_nat 34) text).
  { unfold Layout.render_member, Format.dq. cbn [append]. eexists; reflexivity. }
  destruct Hhead as (text & Hhead).
  rewrite Hhead at 1. rewrite skip_space_token by reflexivity. cbn iota.
  rewrite (read_member_render (key, v) _ (closing_members_after rest tail)).
  cbn [fst snd]. rewrite read_more_render_then; [reflexivity |].
  rewrite length_append. pose proof (members_after_length rest). lia.
Qed.

Lemma render_object_head (members : list (string * Layout.value)) :
  exists text, Layout.render_object members = String "{" text.
Proof. unfold Layout.render_object. cbn [append]. eexists; reflexivity. Qed.

Context {E : Type}.
Variable read : string -> option (E * string).
Variable render : E -> string.

Hypothesis read_render : forall e tail, read (render e ++ tail) = Some (e, tail).
Hypothesis render_head :
  forall e, exists text, render e = String "{" text \/ render e = String "[" text.

Lemma read_elements_render (elements : list E) (tail : string) (fuel : nat) :
  List.length elements < fuel ->
  Json.read_elements read fuel
    (fold_right (fun e more => String "," (render e ++ more)) (String "]" tail) elements)
  = Some (elements, tail).
Proof.
  revert fuel. induction elements as [| e elements IH]; intros fuel Hfuel;
    (destruct fuel as [| fuel]; [inversion Hfuel |]).
  - reflexivity.
  - cbn [fold_right append Json.read_elements].
    rewrite skip_space_token by reflexivity.
    rewrite read_render, IH by (cbn [List.length] in Hfuel; lia). reflexivity.
Qed.

Lemma elements_length (elements : list E) (tail : string) :
  List.length elements <
  String.length
    (fold_right (fun e more => String "," (render e ++ more)) (String "]" tail) elements).
Proof.
  induction elements as [| e elements IH]; cbn [fold_right List.length append String.length].
  - lia.
  - rewrite length_append. lia.
Qed.

Lemma Join_elements (e : E) (elements : list E) (tail : string) :
  (Join (map render (e :: elements)) "," ++ "]" ++ tail)%string =
  (render e ++
   fold_right (fun e more => String "," (render e ++ more)) (String "]" tail) elements)%string.
Proof.
  revert e. induction elements as [| e' elements IH]; intros e; [reflexivity |].
  cbn [map] in IH |- *.
  assert (H : forall x y l, Join (x :: y :: l) "," = (x ++ "," ++ Join (y :: l) ",")%string)
    by reflexivity.
  rewrite H, !append_assoc, IH. reflexivity.
Qed.

(** An array of elements that are read back is read back, from the head of
    any text. *)
Lemma read_array_then_render (elements : list E) (tail : string) :
  Json.read_array_then read ("[" ++ Join (map render elements) "," ++ "]" ++ tail)
  = Some (elements, tail).
Proof.
  destruct elements as [| e elements]; [reflexivity |].
  rewrite Join_elements. cbn [append]. unfold Json.read_array_then.
  rewrite skip_space_token by reflexivity.
  destruct (render_head e) as (text & [Hhead | Hhead]).
  - rewrite Hhead at 1. cbn [append]. rewrite skip_space_token by reflexivity. cbn iota.
    rewrite read_render, read_elements_render by apply elements_length. reflexivity.
  - rewrite Hhead at 1. cbn [append]. rewrite skip_space_token by reflexivity. cbn iota.
    rewrite read_render, read_elements_render by apply elements_length. reflexivity.
Qed.

Lemma read_array_render (elements : list E) :
  Json.read_array read ("[" ++ Join (map render elements) "," ++ "]" ++ Format.nl)
  = Some elements.
Proof. unfold Json.read_array. now rewrite read_array_then_render. Qed.

End Arrays.

Section Results.

Context {C : Collaborators}.

Lemma launchpad_output_object (d : SignedDepositData.t) (val : N)
    (messageRoot dataRoot forkVersion : bytes) :
  launchpad_output d val messageRoot dataRoot forkVersion =
  ("[" ++ Layout.render_object
            (Launchpad.members (SignedDepositData.PubKey d)
               (SignedDepositData.WithdrawalCredentials d) val
               (SignedDepositData.Signature d) messageRoot dataRoot forkVersion)
       ++ "]")%string.
Proof.
  rewrite <- written_plain_object.
  - unfold launchpad_output, Format.launchpad.
    cbn [Sprintf with_operand format_x format_d]. unfold verb_x.
    unfold Layout.written_object, Launchpad.members, Layout.written_member,
      Layout.written_value, Format.dq.
    cbn [map Join fst snd].
    repeat (rewrite ?append_assoc; cbn [append]).
    reflexivity.
  - unfold Launchpad.members. cbn [forallb]. unfold Layout.plain_member. cbn [fst snd].
    rewrite !plain_EncodeToString. reflexivity.
Qed.

(** An array of objects. *)
Lemma read_objects (objects : list (list (string * Layout.value))) :
  Json.read_array Json.read_object_then
    ("[" ++ Join (map Layout.render_object objects) "," ++ "]" ++ Format.nl)
  = Some objects.
Proof.
  apply read_array_render.
  - apply read_object_then_render.
  - intros ms. destruct (render_object_head ms) as [text ->]. eauto.
Qed.

(** An array of arrays of one object each. *)
Lemma read_arrays_of_one (objects : list (list (string * Layout.value))) :
  Json.read_array (Json.read_array_then Json.read_object_then)
    ("[" ++ Join (map (fun ms => "[" ++ Layout.render_object ms ++ "]") objects) ","
         ++ "]" ++ Format.nl)%string
  = Some (map (fun ms => [ms]) objects).
Proof.
  rewrite <- (read_array_render (Json.read_array_then Json.read_object_then)
                (fun l => "[" ++ Join (map Layout.render_object l) "," ++ "]")%string).
  - now rewrite map_map.
  - intros l tail. rewrite !append_assoc.
    apply (read_array_then_render Json.read_object_then Layout.render_object).
    + apply read_object_then_render.
    + intros ms. destruct (render_object_head ms) as [text ->]. eauto.
  - intros l. cbn [append]. eauto.
Qed.

End Results.

(** ** The claims *)

(** C1.  For a signed deposit of the sizes of the data model, the bytes built
    in raw mode are the selector 0x22895118, the pointer words 0x80, 0xe0 and
    0x120, the deposit data root, and for each dynamic argument its length
    word followed by the value padded with zeros to a multiple of 32 bytes:
    420 bytes in all, printed in hexadecimal after [0x].  A word is 32 bytes
    that denote its value, most significant byte first. *)
Theorem raw_layout (root pubkey credentials signature : bytes) :
  List.length pubkey = 48 -> List.length credentials = 32 ->
  List.length signature = 96 -> List.length root = 32 ->
  (forall n, (n < 2 ^ 256)%N ->
     List.length (Raw.word n) = 32 /\ Raw.be_value (Raw.word n) = n) /\
  Raw.txData root pubkey credentials signature =
    Raw.abi_call root pubkey credentials signature /\
  Raw.txData root pubkey credentials signature =
    [x22; x89; x51; x18] ++ Raw.word 0x80 ++ Raw.word 0xe0 ++ Raw.word 0x120 ++ root
      ++ (Raw.word 0x30 ++ pubkey ++ repeat x00 16)
      ++ (Raw.word 0x20 ++ credentials)
      ++ (Raw.word 0x60 ++ signature) /\
  List.length (Raw.txData root pubkey credentials signature) = 420 /\
  Raw.output root pubkey credentials signature =
    ("0x" ++ EncodeToString (Raw.txData root pubkey credentials signature))%string.
Proof.
  intros Hpk Hwc Hsig Hroot.
  split; [| split; [| split; [| split]]].
  - intros n Hn. split; [apply word_size | now apply word_value].
  - rewrite txData_layout, abi_call_layout by assumption. reflexivity.
  - apply txData_layout.
  - now apply txData_length.
  - unfold Raw.output. apply Sprintf_sharp_x. now apply txData_nonempty.
Qed.

Lemma raw_layout_witness :
  List.length Mock.pubkey = 48 /\
  List.length (Raw.txData Mock.data_root Mock.pubkey Mock.withdrawal Mock.signature) = 420.
Proof.
  split; [reflexivity |].
  apply (raw_layout Mock.data_root Mock.pubkey Mock.withdrawal Mock.signature);
    reflexivity.
Defined.

(** C4.  Reading the raw-mode bytes back at their fixed places gives the
    public key, the withdrawal credentials, the signature and the deposit
    data root that went in; so does following the pointers and lengths as the
    contract does, and the printed text decodes to those bytes. *)
Theorem raw_round_trip (root pubkey credentials signature : bytes) :
  List.length pubkey = 48 -> List.length credentials = 32 ->
  List.length signature = 96 -> List.length root = 32 ->
  let tx := Raw.txData root pubkey credentials signature in
  Raw.parse_fixed tx = Raw.mk_fields pubkey credentials signature root /\
  Raw.decode_call tx = Some (Raw.mk_fields pubkey credentials signature root) /\
  DecodeString (TrimPrefix (Raw.output root pubkey credentials signature) "0x") = Ok tx.
Proof.
  intros Hpk Hwc Hsig Hroot. cbn zeta. repeat split.
  - now apply parse_fixed_txData.
  - now apply decode_call_txData.
  - now apply output_decodes.
Qed.

Lemma raw_round_trip_witness :
  List.length Mock.signature = 96 /\
  Raw.parse_fixed (Raw.txData Mock.data_root Mock.pubkey Mock.withdrawal Mock.signature) =
  Raw.mk_fields Mock.pubkey Mock.withdrawal Mock.signature Mock.data_root.
Proof.
  split; [reflexivity |].
  apply (raw_round_trip Mock.data_root Mock.pubkey Mock.withdrawal Mock.signature);
    reflexivity.
Defined.

Section Claims.

Context {C : Collaborators}.
Variable flags : Flags.

(** C2.  The withdrawal credentials are the SHA-256 digest of the 48-byte
    withdrawal public key with byte 0 replaced by 0x00: 32 bytes, the first
    one 0x00 whatever the digest starts with, the others those of the
    digest.  The key is the one of the withdrawal account or the one parsed
    from [--withdrawalpubkey]. *)
Theorem credentials_are_prefixed_digest (key : PublicKey) (s : NodeState) :
  withdrawal_key flags key ->
  let digest := SHA256 (PublicKey_Marshal key) in
  exists wc,
    outcome_of (withdrawal_credentials flags s) = Ret wc /\
    wc = x00 :: skipn 1 digest /\
    List.length (PublicKey_Marshal key) = 48 /\
    List.length wc = 32 /\
    nth 0 wc xff = x00 /\
    (forall i, 1 <= i -> nth i wc x00 = nth i digest x00).
Proof.
  intros Hkey digest. exists (Layout.with_prefix x00 digest).
  pose proof (SHA256_size (PublicKey_Marshal key)) as Hsize.
  repeat split.
  - now apply withdrawal_credentials_returns.
  - apply PublicKey_Marshal_size.
  - now apply with_prefix_size.
  - intros i Hi. apply with_prefix_rest; [| assumption].
    intros E. fold digest in Hsize. rewrite E in Hsize. discriminate.
Qed.

(** A run that returned results has a fork version for its first validator. *)
Lemma returned_with_fork_version (s : NodeState) (outputs : list string) :
  outcome_of (generate flags s) = Ret outputs ->
  exists forkVersion, fork_version_source flags forkVersion.
Proof.
  intros Hg. destruct (generate_spec flags s) as (wc & val & _ & Hpost).
  rewrite Hg in Hpost. destruct Hpost as (w & accts & ((_ & _ & Hsome & _) & _) & Hall).
  destruct Hall as [| a o accts' outputs' Ha _]; [congruence |].
  destruct Ha as (key & forkVersion & sig & root & _ & Hfv & _). eauto.
Qed.

Lemma failed_without_output (s : NodeState) :
  failure (outcome_of (Run flags s)) ->
  Forall (fun e => is_print e = false) (events_of (Run flags s)) /\
  (debug flags = false -> standard_output (events_of (Run flags s)) = "").
Proof.
  intros Hf. rewrite (Run_stopped flags s Hf).
  destruct (generate_spec flags s) as (wc & val & Hev & _).
  destruct (nothing_printed flags wc val _ Hev) as (Hnone & _ & Hquiet). auto.
Qed.

Lemma no_node_calls (wc : bytes) (val : N) (tr : list event) :
  Forall (deposit_event flags wc val) tr ->
  validatorDepositDataForkVersion flags <> "" ->
  count is_connect tr = 0 /\ count is_fetch tr = 0.
Proof.
  intros Hev Hgiven. induction Hev as [| e tr He _ [IH1 IH2]]; [split; reflexivity |].
  change (e :: tr) with ([e] ++ tr). rewrite !count_app, IH1, IH2.
  destruct e; cbn in He; try contradiction; split; reflexivity.
Qed.

Lemma Run_events (s : NodeState) :
  exists extra,
    events_of (Run flags s) = events_of (generate flags s) ++ extra /\
    (extra = [] \/ exists outputs, extra = print_events outputs).
Proof.
  pose proof (Run_after_generate flags s) as H.
  destruct (outcome_of (generate flags s)) as [outputs | code |].
  - destruct (quiet flags); destruct H as [-> _].
    + exists []. split; [now rewrite app_nil_r | now left].
    + exists (print_events outputs). split; [reflexivity | right; eauto].
  - destruct H as [-> _]. exists []. split; [now rewrite app_nil_r | now left].
  - destruct H as [-> _]. exists []. split; [now rewrite app_nil_r | now left].
Qed.

Lemma Run_count (f : event -> bool) (s : NodeState) :
  (forall text, f (Ev_print text) = false) ->
  count f (events_of (Run flags s)) = count f (events_of (generate flags s)).
Proof.
  intros Hf. destruct (Run_events s) as (extra & -> & [-> | [outputs ->]]).
  - now rewrite app_nil_r.
  - rewrite count_app, count_print_events by assumption. lia.
Qed.

Lemma Run_requests (s : NodeState) :
  signing_requests (events_of (Run flags s)) =
  signing_requests (events_of (generate flags s)).
Proof.
  destruct (Run_events s) as (extra & -> & [-> | [outputs ->]]).
  - now rewrite app_nil_r.
  - now rewrite signing_requests_app, signing_requests_print_events, app_nil_r.
Qed.

Lemma silent_is_connect : silent is_connect.
Proof. intros msg. split; reflexivity. Qed.

Lemma silent_is_fetch : silent is_fetch.
Proof. intros msg. split; reflexivity. Qed.

Lemma silent_is_sign : silent is_sign.
Proof. intros msg. split; reflexivity. Qed.

(** The steps before the loop cannot return without an amount of at least
    the minimum. *)
Lemma prelude_needs (P : Prop) :
  (forall w accts wc val, settled flags (w, accts, wc, val) -> P -> False) ->
  P -> spec message (fun _ => False) (prelude flags).
Proof.
  intros Hno HP. eapply spec_post; [apply prelude_spec |].
  intros [[[w accts] wc] val] Hs. exact (Hno w accts wc val Hs HP).
Qed.

Lemma succeeded (s : NodeState) :
  succeeds (generate flags) -> exit_status (outcome_of (Run flags s)) = 0%Z.
Proof.
  intros Hg. destruct (Hg s) as [outputs Ho].
  pose proof (Run_after_generate flags s) as H. rewrite Ho in H.
  destruct (quiet flags); destruct H as [_ ->]; reflexivity.
Qed.

(** C7.  An amount below 1000000000 Gwei ends the run with a nonzero exit
    status before anything but messages has happened: no signing has been
    asked for.  The check of line 95 is what stops it, with its message, when
    the run gets that far.  An amount of exactly 1000000000 Gwei passes the
    check, and the run succeeds when the collaborators do their part. *)
Theorem minimum_deposit :
  (forall val,
     StringToGWei (validatorDepositDataDepositValue flags) = Ok val ->
     (val < 1000000000)%N ->
     forall s,
       failure (outcome_of (Run flags s)) /\
       Forall message (events_of (Run flags s)) /\
       signing_requests (events_of (Run flags s)) = [] /\
       (validatorDepositDataDepositValue flags <> "" ->
        deposit_value flags s =
        ((if quiet flags then []
          else [Ev_stderr "deposit value must be at least 1 Ether"]),
         s, Exit _exitFailure))) /\
  (validatorDepositDataDepositValue flags <> "" ->
   StringToGWei (validatorDepositDataDepositValue flags) = Ok 1000000000%N ->
   (forall s, deposit_value flags s = ([], s, Ret 1000000000%N)) /\
   (forall w accts key,
      validators flags w accts -> withdrawal_key flags key ->
      fork_version_available flags -> willing accts ->
      forall s, exit_status (outcome_of (Run flags s)) = 0%Z)).
Proof.
  split.
  - intros val Hval Hlow s.
    assert (Hp : spec message (fun _ => False) (prelude flags)).
    { apply (prelude_needs (val < 1000000000)%N); [| exact Hlow].
      intros w accts wc val' (_ & _ & _ & Hval' & Hmin) Hlt.
      rewrite Hval in Hval'. injection Hval' as <-. lia. }
    destruct (Run_stops_early flags Hp s) as [Hf Hmsg].
    split; [exact Hf |]. split; [exact Hmsg |].
    split; [now apply no_requests_in_messages |].
    intros Hgiven. unfold deposit_value, bind, assert, errCheck.
    rewrite (given_true _ Hgiven), Hval.
    apply N.leb_gt in Hlow. cbn. rewrite Hlow.
    destruct (quiet flags); reflexivity.
  - intros Hgiven Hval. split.
    + intros s. unfold deposit_value, bind, assert, errCheck.
      rewrite (given_true _ Hgiven), Hval. reflexivity.
    + intros w accts key Hv Hk Hfv Hw s. apply succeeded.
      apply (generate_succeeds flags w accts key 1000000000%N); try assumption.
      split; [assumption |]. split; [assumption | reflexivity].
Qed.

(** C9.  What line 197 writes.  In the default mode, the output of each
    validator account of a successful run is the text of the members [name],
    [account], [pubkey], [withdrawal_credentials], [signature], [value],
    [deposit_data_root] and [version], in this order, between braces:
    [version] is 2, [value] is the amount in Gwei in decimal, the byte strings
    are in hexadecimal after [0x], and the wallet and account names stand
    between the quotes as they are.  When the names hold no double quote, no
    backslash and no control character, this text is the JSON object of these
    eight members, and is read back as them; a name that holds one of them is
    not escaped, and the text is no JSON object. *)
Theorem default_output_members (s : NodeState) :
  exit_status (outcome_of (Run flags s)) = 0%Z ->
  validatorDepositDataRaw flags = false ->
  validatorDepositDataLaunchpad flags = false ->
  exists w accts wc val outputs,
    outcome_of (generate flags s) = Ret outputs /\
    validators flags w accts /\ credentials flags wc /\ amount flags val /\
    Forall2
      (fun a o =>
         exists key forkVersion sig root,
           bestPublicKey a = Ok key /\
           fork_version_source flags forkVersion /\
           signStruct a (DepositData.make (PublicKey_Marshal key) wc val)
             (Domain DomainDeposit forkVersion ZeroGenesisValidatorsRoot) = Ok sig /\
           HashTreeRoot
             (ssz_signed
                (SignedDepositData.make (PublicKey_Marshal key) wc val
                   (Signature_Marshal sig))) = Ok root /\
           let members :=
             [("name", Layout.J_string
                         ("Deposit for " ++ Wallet_Name w ++ "/" ++ Account_Name a));
              ("account", Layout.J_string (Wallet_Name w ++ "/" ++ Account_Name a));
              ("pubkey", Layout.J_string ("0x" ++ EncodeToString (PublicKey_Marshal key)));
              ("withdrawal_credentials", Layout.J_string ("0x" ++ EncodeToString wc));
              ("signature",
               Layout.J_string ("0x" ++ EncodeToString (Signature_Marshal sig)));
              ("value", Layout.J_number val);
              ("deposit_data_root", Layout.J_string ("0x" ++ EncodeToString root));
              ("version", Layout.J_number 2)] in
           o = Layout.written_object members /\
           (Layout.plain (Wallet_Name w) = true ->
            Layout.plain (Account_Name a) = true ->
            o = Layout.render_object members /\
            Layout.read_object o = Some members))
      accts outputs.
Proof.
  intros Hok Hraw Hlaunchpad.
  destruct (Run_success flags s Hok) as (outputs & Hg & _).
  destruct (generate_spec flags s) as (wc & val & _ & Hpost).
  rewrite Hg in Hpost. destruct Hpost as (w & accts & (Hv & Hwc & Hval) & Hall).
  exists w, accts, wc, val, outputs.
  split; [exact Hg |]. split; [exact Hv |]. split; [exact Hwc |]. split; [exact Hval |].
  eapply Forall2_impl; [| exact Hall]. intros a o.
  intros (key & fv & sig & root & Hkey & Hfv & Hsig & Hroot & Ho).
  rewrite Hraw, Hlaunchpad in Ho. exists key, fv, sig, root.
  split; [exact Hkey |]. split; [exact Hfv |]. split; [exact Hsig |].
  split; [exact Hroot |].
  assert (Hne : forall (b : bytes) n, List.length b = S n -> b <> []).
  { intros b n Hb E. rewrite E in Hb. discriminate. }
  assert (Hwritten :
    o = Layout.written_object
          (Layout.deposit_object (Wallet_Name w ++ "/" ++ Account_Name a)
             (PublicKey_Marshal key) wc (Signature_Marshal sig) val root)).
  { rewrite Ho. apply default_output_object; cbn.
    - apply (Hne _ _ (PublicKey_Marshal_size key)).
    - destruct Hwc as (k & _ & ->). discriminate.
    - apply (Hne _ _ (Signature_Marshal_size sig)).
    - apply (Hne _ _ (HashTreeRoot_size _ _ Hroot)). }
  split; [exact Hwritten |].
  intros Hw Ha.
  assert (Hrendered :
    o = Layout.render_object
          (Layout.deposit_object (Wallet_Name w ++ "/" ++ Account_Name a)
             (PublicKey_Marshal key) wc (Signature_Marshal sig) val root)).
  { rewrite Hwritten. apply written_plain_object, plain_deposit_object.
    rewrite !plain_append, Hw, Ha. reflexivity. }
  split; [exact Hrendered |].
  rewrite Hrendered. apply read_object_render.
Qed.

End Claims.

(** ** The claims that follow a run validator by validator *)

Section Along.

Context {C : Collaborators}.
Variable flags : Flags.

Lemma requests_from_nth (wc : bytes) (val : N)
    (l : list (Account * DepositData.t * bytes)) :
  forall (accts : list Account) (s : NodeState),
    requests_from flags wc val accts s l ->
    forall i r, nth_error l i = Some r ->
      exists a, nth_error accts i = Some a /\
        request_at flags wc val a (node_at flags i s) r.
Proof.
  induction l as [| q l IH]; intros accts s H i r Hi.
  - destruct i; discriminate Hi.
  - destruct accts as [| a accts]; [contradiction |]. destruct H as [Hq Hl].
    destruct i as [| i]; cbn [nth_error node_at] in *.
    + injection Hi as <-. exists a. auto.
    + exact (IH accts (node_after flags s) Hl i r Hi).
Qed.

Lemma requests_from_accounts (wc : bytes) (val : N)
    (l : list (Account * DepositData.t * bytes)) :
  forall (accts : list Account) (s : NodeState),
    requests_from flags wc val accts s l ->
    map request_account l = firstn (List.length l) accts.
Proof.
  induction l as [| q l IH]; intros accts s H; [reflexivity |].
  destruct accts as [| a accts]; [contradiction |]. destruct H as [(Ha & _) Hl].
  cbn [map List.length firstn]. now rewrite Ha, (IH accts _ Hl).
Qed.

(** What a run asks to be signed, and what it leaves on standard output
    before the results. *)
Lemma Run_along (s : NodeState) :
  let l := signing_requests (events_of (Run flags s)) in
  (l = [] /\ standard_output (events_of (generate flags s)) = "" /\
   forall v, outcome_of (generate flags s) <> Ret v) \/
  (exists w accts wc val,
     settled flags (w, accts, wc, val) /\
     requests_from flags wc val accts s l /\
     standard_output (events_of (generate flags s)) = dumped flags l /\
     (forall v, outcome_of (generate flags s) = Ret v ->
        List.length l = List.length accts)).
Proof.
  cbn zeta. rewrite Run_requests.
  destruct (generate_run flags s)
    as [[Hm Hno] | (w & accts & wc & val & notes & Hset & Hn & E)].
  - left. split; [now apply no_requests_in_messages |].
    split; [now apply standard_output_messages | exact Hno].
  - right. exists w, accts, wc, val. split; [exact Hset |].
    destruct Hset as ((_ & _ & _ & Hkeys) & _).
    destruct (loop_run flags w wc val accts Hkeys [] s) as (Hreq & Hout & Hlen & _).
    cbn zeta in Hreq, Hout, Hlen. rewrite E.
    cbn [events_of state_of outcome_of fst snd].
    rewrite signing_requests_app, standard_output_app,
      (no_requests_in_messages notes Hn), (standard_output_messages notes Hn).
    cbn [app append]. auto.
Qed.

(** C6, as amended.  The withdrawal credentials and the amount are settled
    once, before the loop, and every signing request carries them: the
    request of index [i] is the one of the validator account of index [i],
    with its public key, the credentials and the amount of the run.  The
    fork version and the domain are worked out again for every validator:
    the request of index [i] is under the deposit domain of the fork version
    given on the command line or, without one, of the one the node gives
    when it is connected to and asked for the validator of index [i], in the
    state the earlier validators have left it in.  With a fork version on
    the command line the node is never asked and every request is under the
    same domain.  Without one, a run that returns has connected, fetched the
    configuration and signed once per validator account. *)
Theorem settled_once_asked_per_validator (s : NodeState) :
  let tr := events_of (Run flags s) in
  let l := signing_requests tr in
  (l <> [] ->
   exists w accts wc val,
     validators flags w accts /\ credentials flags wc /\ amount flags val /\
     forall i r, nth_error l i = Some r ->
       exists a, nth_error accts i = Some a /\
         request_at flags wc val a (node_at flags i s) r) /\
  (validatorDepositDataForkVersion flags <> "" ->
   count is_connect tr = 0 /\ count is_fetch tr = 0 /\
   forall r1 r2, In r1 l -> In r2 l -> snd r1 = snd r2) /\
  (validatorDepositDataForkVersion flags = "" ->
   exit_status (outcome_of (Run flags s)) = 0%Z ->
   exists w accts,
     validators flags w accts /\
     count is_connect tr = List.length accts /\
     count is_fetch tr = List.length accts /\
     count is_sign tr = List.length accts).
Proof.
  cbn zeta. split; [| split].
  - intros Hsome.
    destruct (Run_along s) as [(Hnil & _) | (w & accts & wc & val & Hset & Hreq & _)];
      [contradiction |].
    exists w, accts, wc, val. destruct Hset as (Hv & Hwc & Hval).
    split; [exact Hv |]. split; [exact Hwc |]. split; [exact Hval |].
    now apply requests_from_nth.
  - destruct (generate_spec flags s) as (wc & val & Hev & _).
    pose proof (requests_of_events flags wc val _ Hev) as Hreq.
    rewrite Run_requests.
    intros Hgiven. rewrite !Run_count by reflexivity.
    destruct (no_node_calls flags wc val _ Hev Hgiven) as [Hc Hf].
    split; [exact Hc |]. split; [exact Hf |].
    intros [[a1 d1] dom1] [[a2 d2] dom2] H1 H2. cbn [snd].
    destruct (Hreq _ _ _ H1) as (_ & _ & v1 & Hv1 & ->).
    destruct (Hreq _ _ _ H2) as (_ & _ & v2 & Hv2 & ->).
    f_equal. apply (explicit_fork_version_unique flags);
      now apply explicit_when_given.
  - intros Hnone Hok. destruct (Run_success flags s Hok) as (outputs & Hg & _).
    rewrite !Run_count by reflexivity.
    destruct (generate_tally flags is_connect silent_is_connect ltac:(reflexivity)
                false ltac:(reflexivity) s outputs Hg)
      as (w & accts & Hv & Hconnect).
    destruct (generate_tally flags is_fetch silent_is_fetch ltac:(reflexivity)
                false ltac:(reflexivity) s outputs Hg)
      as (w1 & accts1 & Hv1 & Hfetch).
    destruct (generate_tally flags is_sign silent_is_sign ltac:(reflexivity)
                true ltac:(reflexivity) s outputs Hg)
      as (w2 & accts2 & Hv2 & Hsign).
    assert (E1 : accts1 = accts).
    { destruct Hv as (_ & Hp & _), Hv1 as (_ & Hp1 & _). congruence. }
    assert (E2 : accts2 = accts).
    { destruct Hv as (_ & Hp & _), Hv2 as (_ & Hp2 & _). congruence. }
    subst accts1 accts2. rewrite Hnone in Hconnect, Hfetch, Hsign.
    cbn in Hconnect, Hfetch, Hsign.
    exists w, accts. split; [exact Hv |]. lia.
Qed.

(** The standard output of a run: the dumps of the signed deposit data,
    then the results. *)
Lemma Run_standard_output (s : NodeState) :
  standard_output (events_of (Run flags s)) =
  (dumped flags (signing_requests (events_of (Run flags s)))
   ++ printed (events_of (Run flags s)))%string.
Proof.
  assert (Hg : standard_output (events_of (generate flags s)) =
               dumped flags (signing_requests (events_of (Run flags s)))).
  { destruct (Run_along s) as [(-> & -> & _) | (w & accts & wc & val & _ & _ & -> & _)];
      reflexivity. }
  assert (Hp : printed (events_of (generate flags s)) = "").
  { destruct (generate_spec flags s) as (wc & val & Hev & _).
    now destruct (nothing_printed flags wc val _ Hev) as (_ & Hnone & _). }
  destruct (Run_events flags s) as (extra & E & Hextra). rewrite E at 1 3.
  rewrite standard_output_app, printed_app, Hg, Hp. cbn [append]. f_equal.
  destruct Hextra as [-> | [outputs ->]];
    [reflexivity | apply standard_output_print_events].
Qed.

(** C5, as amended.  When no fork version is given and the node, asked for
    the validator of index [i], fails to give its configuration or gives
    one without a genesis fork version, the run ends with a nonzero exit
    status and no result printed, whichever validator it is; when the run
    gets that far, the fetch is the last thing it does before it says so,
    through [outputIf] after a failed fetch and on the error stream when the
    key is missing, and exits with status 1.  A run that ends with a nonzero
    exit status has printed no result, and what the command has written to
    standard output is the signed deposit data of the validators that have
    signed, which lines 148-154 dump when [debug] is set: nothing without
    [debug].  Unless [quiet] is set, a run that ends through [os.Exit] has
    last said why: on the error stream, or through [outputIf] after a
    failed fetch. *)
Theorem no_result_on_failure :
  (validatorDepositDataForkVersion flags = "" ->
   forall w accts i s,
     walletAndAccountsFromPath (validatorDepositDataValidatorAccount flags)
       = Ok (w, accts) ->
     i < List.length accts ->
     no_fork_version_at (node_at flags i s) ->
     failure (outcome_of (Run flags s)) /\
     Forall (fun e => is_print e = false) (events_of (Run flags s)) /\
     (fst (connect (node_at flags i s)) = Ok tt ->
      count is_fetch (events_of (Run flags s)) = S i ->
      exit_status (outcome_of (Run flags s)) = 1%Z /\
      exists before,
        events_of (Run flags s) =
        before ++ [Ev_connect; Ev_FetchChainConfig]
          ++ no_fork_version_said flags (node_at flags i s))) /\
  (forall s,
     failure (outcome_of (Run flags s)) ->
     Forall (fun e => is_print e = false) (events_of (Run flags s)) /\
     standard_output (events_of (Run flags s)) =
       dumped flags (signing_requests (events_of (Run flags s))) /\
     (debug flags = false -> standard_output (events_of (Run flags s)) = "")) /\
  (quiet flags = false ->
   forall s code,
     outcome_of (Run flags s) = Exit code ->
     exists before e,
       events_of (Run flags s) = before ++ [e] /\ is_reason e = true).
Proof.
  split; [| split].
  - intros Hnone w accts i s Hpath Hi Hbad.
    destruct (fork_version_missing flags _ Hnone Hbad) as [Hnofv Hlast].
    assert (H : (forall v, outcome_of (generate flags s) <> Ret v) /\
                (fst (connect (node_at flags i s)) = Ok tt ->
                 count is_fetch (events_of (generate flags s)) = S i ->
                 exit_status (outcome_of (generate flags s)) = 1%Z /\
                 exists before,
                   events_of (generate flags s) =
                   before ++ [Ev_connect; Ev_FetchChainConfig]
                     ++ no_fork_version_said flags (node_at flags i s))).
    { destruct (generate_run flags s)
        as [[Hm Hno] | (w' & accts' & wc & val & notes & Hset & Hn & E)].
      - split; [exact Hno |]. intros _ Hcount.
        rewrite (no_fetch_in_messages _ Hm) in Hcount. discriminate.
      - destruct Hset as ((_ & Hpath' & _ & Hkeys) & _).
        rewrite Hpath in Hpath'. injection Hpath' as <- <-.
        destruct (loop_run flags w wc val accts Hkeys [] s) as (_ & _ & _ & Hloop).
        destruct (Hloop i Hi Hnofv) as [Hno Hend]. rewrite E.
        cbn [events_of state_of outcome_of fst snd].
        split; [exact Hno |]. intros Hc Hcount.
        rewrite count_app, (no_fetch_in_messages notes Hn) in Hcount.
        destruct (Hend Hnone Hcount) as (before & Hev & Hstop).
        rewrite (Hlast Hc) in Hev, Hstop. cbn in Hstop. rewrite Hstop.
        split; [reflexivity |]. exists (notes ++ before).
        rewrite Hev. cbn [events_of fst]. now rewrite app_assoc. }
    destruct H as [Hno Hfar].
    assert (Hf : failure (outcome_of (Run flags s))) by now apply Run_failure.
    split; [exact Hf |]. split; [now apply failed_without_output |].
    intros Hc Hcount. rewrite (Run_stopped flags s Hf) in *.
    destruct (Hfar Hc Hcount) as [Hstatus Hev]. split; [| exact Hev].
    pose proof (Run_after_generate flags s) as Hrun.
    destruct (outcome_of (generate flags s)) as [v | code |];
      [now destruct (Hno v) | |]; destruct Hrun as [_ ->]; exact Hstatus.
  - intros s Hf. destruct (failed_without_output flags s Hf) as [Hnone Hquiet].
    split; [exact Hnone |]. split; [| exact Hquiet].
    rewrite Run_standard_output.
    assert (Hp : printed (events_of (Run flags s)) = "").
    { clear Hquiet. induction Hnone as [| e tr He _ IH]; [reflexivity |].
      destruct e; try discriminate; exact IH. }
    now rewrite Hp, append_nil_r.
  - apply Run_explained.
Qed.

End Along.

(** ** The flags that are measured *)

Section Sizes.

Context {C : Collaborators}.
Variable flags : Flags.

(** With a withdrawal account given, [--withdrawalpubkey] is not read (line
    70): the run is the same whatever it holds. *)
Lemma raw_key_unread (k : string) (s : NodeState) :
  validatorDepositDataWithdrawalAccount flags <> "" ->
  Run (set_withdrawal_pubkey k flags) s = Run flags s.
Proof.
  intros Hacc. unfold Run, generate, prelude, withdrawal_credentials.
  cbn [set_withdrawal_pubkey validatorDepositDataWithdrawalAccount
       validatorDepositDataWithdrawalPubKey debug].
  rewrite (given_true _ Hacc). reflexivity.
Qed.

Lemma fork_version_wrong_size (s : NodeState) :
  validatorDepositDataForkVersion flags <> "" ->
  (forall forkVersion,
     DecodeString (TrimPrefix (validatorDepositDataForkVersion flags) "0x") = Ok forkVersion ->
     List.length forkVersion <> 4) ->
  fork_version flags s = (said flags (invalid_fork_version flags), s, Exit _exitFailure).
Proof.
  intros Hgiven Hbad. unfold fork_version, invalid_fork_version.
  rewrite (given_true _ Hgiven).
  destruct (DecodeString (TrimPrefix (validatorDepositDataForkVersion flags) "0x"))
    as [b | e].
  - cbn [errCheck]. rewrite bind_ret.
    pose proof (Hbad b eq_refl) as El. apply Nat.eqb_neq in El. rewrite El.
    rewrite bind_run, assert_false. reflexivity.
  - rewrite bind_run, errCheck_Err. reflexivity.
Qed.

Lemma raw_key_wrong_size (s : NodeState) :
  validatorDepositDataWithdrawalAccount flags = "" ->
  (forall k,
     DecodeString (TrimPrefix (validatorDepositDataWithdrawalPubKey flags) "0x") = Ok k ->
     List.length k <> 48) ->
  withdrawal_credentials flags s =
  (said flags (invalid_withdrawal_pubkey flags), s, Exit _exitFailure).
Proof.
  intros Hnone Hbad. unfold withdrawal_credentials, invalid_withdrawal_pubkey.
  rewrite Hnone. cbn [String.eqb negb orb].
  destruct (validatorDepositDataWithdrawalPubKey flags =? ""); cbn [negb].
  - rewrite bind_run, assert_false. reflexivity.
  - cbn [assert]. rewrite bind_ret.
    destruct (DecodeString (TrimPrefix (validatorDepositDataWithdrawalPubKey flags) "0x"))
      as [k | e].
    + cbn [errCheck]. pose proof (Hbad k eq_refl) as El. apply Nat.eqb_neq in El.
      rewrite bind_run, bind_ret, bind_run, El, assert_false. reflexivity.
    + rewrite bind_run, bind_run, errCheck_Err. reflexivity.
Qed.

(** A run whose validator accounts pass and whose credentials step stops. *)
Lemma Run_stops_at_credentials (w : Wallet) (accts : list Account) (msg : string)
    (s : NodeState) :
  validators flags w accts ->
  withdrawal_credentials flags s = (said flags msg, s, Exit _exitFailure) ->
  exists notes,
    forallb is_outputIf notes = true /\
    Run flags s = (notes ++ said flags msg, s, Exit _exitFailure).
Proof.
  intros Hv Hrun.
  assert (H : exists notes (o' : outcome unit),
            forallb is_outputIf notes = true /\
            Run flags s = (notes ++ said flags msg, s, o') /\
            stop_of (@Exit bytes _exitFailure) o').
  { unfold Run. apply stop_inside. unfold generate. apply stop_inside. unfold prelude.
    eapply steady_then_stop; [apply (validator_accounts_steady flags w accts Hv) |].
    intros ? ->. apply stop_here; [exact Hrun | discriminate]. }
  destruct H as (notes & o' & Hn & E & Ho). cbn in Ho. subst o'. eauto.
Qed.

(** A run whose inputs are settled and whose first fork version is
    refused. *)
Lemma Run_stops_at_fork_version (w : Wallet) (accts : list Account) (key : PublicKey)
    (val : N) (msg : string) (s : NodeState) :
  validators flags w accts -> withdrawal_key flags key -> amount flags val ->
  fork_version flags s = (said flags msg, s, Exit _exitFailure) ->
  exists notes,
    forallb is_outputIf notes = true /\
    Run flags s = (notes ++ said flags msg, s, Exit _exitFailure).
Proof.
  intros Hv Hk Ha Hrun.
  destruct (Run_first_fork_version flags w accts key val s _ _ _ Hv Hk Ha Hrun)
    as (notes & o' & Hn & E & Ho); [discriminate |].
  cbn in Ho. subst o'. eauto.
Qed.

(** C8, as amended.  A fork version on the command line whose hex decoding is
    not exactly 4 bytes ends the run with a nonzero exit status and no result
    printed: the check of lines 115-117 says what is wrong and exits, and
    this is how the run ends when the accounts, the credentials and the
    amount have passed.  So does a [--withdrawalpubkey] whose hex decoding is
    not exactly 48 bytes when no withdrawal account is given: the run has
    produced nothing but messages, the check of lines 81-83 says what is
    wrong and exits, and this is how the run ends when the validator accounts
    have passed.  When a withdrawal account is given as well, the raw key is
    not read: the run is the same whatever the key. *)
Theorem wrong_sizes_rejected :
  (validatorDepositDataForkVersion flags <> "" ->
   (forall forkVersion,
      DecodeString (TrimPrefix (validatorDepositDataForkVersion flags) "0x") = Ok forkVersion ->
      List.length forkVersion <> 4) ->
   forall s,
     failure (outcome_of (Run flags s)) /\
     Forall (fun e => is_print e = false) (events_of (Run flags s)) /\
     fork_version flags s = (said flags (invalid_fork_version flags), s, Exit _exitFailure) /\
     forall w accts key val,
       validators flags w accts -> withdrawal_key flags key -> amount flags val ->
       exists notes,
         forallb is_outputIf notes = true /\
         Run flags s =
         (notes ++ said flags (invalid_fork_version flags), s, Exit _exitFailure)) /\
  (validatorDepositDataWithdrawalAccount flags = "" ->
   (forall k,
      DecodeString (TrimPrefix (validatorDepositDataWithdrawalPubKey flags) "0x") = Ok k ->
      List.length k <> 48) ->
   forall s,
     failure (outcome_of (Run flags s)) /\
     Forall message (events_of (Run flags s)) /\
     withdrawal_credentials flags s =
       (said flags (invalid_withdrawal_pubkey flags), s, Exit _exitFailure) /\
     forall w accts,
       validators flags w accts ->
       exists notes,
         forallb is_outputIf notes = true /\
         Run flags s =
         (notes ++ said flags (invalid_withdrawal_pubkey flags), s, Exit _exitFailure)) /\
  (validatorDepositDataWithdrawalAccount flags <> "" ->
   forall k s, Run (set_withdrawal_pubkey k flags) s = Run flags s).
Proof.
  split; [| split].
  - intros Hgiven Hbad s.
    assert (Hf : failure (outcome_of (Run flags s))).
    { apply Run_failure. intros outputs Hg.
      destruct (returned_with_fork_version flags s outputs Hg)
        as (fv & [(_ & Hfv & Hsize) | (Hnone & _)]).
      - now apply (Hbad fv).
      - contradiction. }
    pose proof (fork_version_wrong_size s Hgiven Hbad) as Hrun.
    split; [exact Hf |]. split; [now apply failed_without_output |].
    split; [exact Hrun |]. intros w accts key val Hv Hk Ha.
    now apply (Run_stops_at_fork_version w accts key val).
  - intros Hnone Hbad s.
    assert (H : failure (outcome_of (Run flags s)) /\ Forall message (events_of (Run flags s))).
    { apply Run_stops_early.
      apply (prelude_needs flags True); [| exact I].
      intros w accts wc val (_ & (key & Hkey & _) & _) _.
      destruct Hkey as [(Hacc & _) | (_ & k & Hk & Hsize & _)].
      + contradiction.
      + now apply (Hbad k). }
    destruct H as [Hf Hm].
    pose proof (raw_key_wrong_size s Hnone Hbad) as Hrun.
    split; [exact Hf |]. split; [exact Hm |]. split; [exact Hrun |].
    intros w accts Hv. now apply (Run_stops_at_credentials w accts).
  - intros Hacc k s. now apply raw_key_unread.
Qed.

(** C10, as amended.  When no withdrawal account is given and
    [--withdrawalpubkey] decodes to 48 bytes that the BLS library refuses,
    the credentials step says so and exits, and the run ends with a nonzero
    exit status having produced messages only: no signing has been asked
    for, and when the validator accounts have passed this refusal is how the
    run ends.  When the library accepts them, the credentials are the prefixed
    digest of the key as the library marshals it.  When a withdrawal account
    is given as well, the raw key is not read: the run is the same whatever
    the key. *)
Theorem raw_key_must_parse :
  (validatorDepositDataWithdrawalAccount flags = "" ->
   forall k,
     DecodeString (TrimPrefix (validatorDepositDataWithdrawalPubKey flags) "0x") = Ok k ->
     List.length k = 48 ->
     (forall e, BLSPublicKeyFromBytes k = Err e ->
      forall s,
        withdrawal_credentials flags s =
          (said flags
             ("Value supplied with --withdrawalpubkey is not a valid public key: " ++ e),
           s, Exit _exitFailure) /\
        failure (outcome_of (withdrawal_credentials flags s)) /\
        failure (outcome_of (Run flags s)) /\
        Forall message (events_of (Run flags s)) /\
        signing_requests (events_of (Run flags s)) = [] /\
        forall w accts,
          validators flags w accts ->
          exists notes,
            forallb is_outputIf notes = true /\
            Run flags s =
            (notes ++
             said flags
               ("Value supplied with --withdrawalpubkey is not a valid public key: " ++ e),
             s, Exit _exitFailure)) /\
     (forall key, BLSPublicKeyFromBytes k = Ok key ->
      forall s,
        outcome_of (withdrawal_credentials flags s) =
        Ret (x00 :: skipn 1 (SHA256 (PublicKey_Marshal key))))) /\
  (validatorDepositDataWithdrawalAccount flags <> "" ->
   forall k s, Run (set_withdrawal_pubkey k flags) s = Run flags s).
Proof.
  split; [| intros Hacc k s; now apply raw_key_unread].
  intros Hnone k Hk Hsize. split.
  - intros e Hbad s.
    assert (Hno : forall key, ~ withdrawal_key flags key).
    { intros key [(Hacc & _) | (_ & k' & Hk' & _ & Hparse)]; [contradiction |].
      rewrite Hk in Hk'. injection Hk' as <-. congruence. }
    assert (Hp : spec message (fun _ => False) (prelude flags)).
    { apply (prelude_needs flags True); [| exact I].
      intros w accts wc val (_ & (key & Hkey & _) & _) _. exact (Hno key Hkey). }
    destruct (Run_stops_early flags Hp s) as [Hf Hmsg].
    assert (Hrun : withdrawal_credentials flags s =
                   (said flags
                      ("Value supplied with --withdrawalpubkey is not a valid public key: "
                         ++ e), s, Exit _exitFailure)).
    { assert (Hpk : validatorDepositDataWithdrawalPubKey flags <> "").
      { apply (decoded_flag_given _ k Hk). destruct k; [discriminate | congruence]. }
      unfold withdrawal_credentials. rewrite Hnone, (given_true _ Hpk), Hk.
      cbn [String.eqb negb orb assert errCheck]. pose proof Hsize as El. apply Nat.eqb_eq in El.
      rewrite bind_ret, bind_run, bind_ret. cbn beta. rewrite El. cbn [assert].
      rewrite bind_ret. cbn beta. rewrite Hbad, bind_run, errCheck_Err. reflexivity. }
    split; [exact Hrun |].
    split; [rewrite Hrun; discriminate |].
    split; [exact Hf |]. split; [exact Hmsg |].
    split; [now apply no_requests_in_messages |].
    intros w accts Hv. now apply (Run_stops_at_credentials w accts).
  - intros key Hparse s. apply withdrawal_credentials_returns.
    right. split; [exact Hnone |]. exists k. auto.
Qed.

End Sizes.

Section Printed.

Context {C : Collaborators}.
Variable flags : Flags.

Lemma Forall2_rendered {A B D : Type} (R : A -> B -> Prop) (P : A -> Prop) (f : D -> B)
    (l : list A) (l' : list B) :
  (forall a b, P a -> R a b -> exists d, b = f d) ->
  Forall P l -> Forall2 R l l' -> exists ds, l' = map f ds.
Proof.
  intros Hf HP H. induction H as [| a b l l' Hab _ IH]; [now exists [] |].
  inversion HP as [| ? ? Ha Hl]; subst.
  destruct (Hf a b Ha Hab) as [d ->]. destruct (IH Hl) as [ds ->].
  now exists (d :: ds).
Qed.

(** C3.  A run that returns has printed the results of the validator
    accounts in the order the wallet gave them: one result as it is, two or
    more between brackets and separated by commas.  Where the results are
    JSON the text of two or more is a JSON array of them: in the launchpad
    mode an array of arrays of one object each, in the default mode an array
    of objects when the wallet and account names hold no double quote, no
    backslash and no control character.  Read back, the array gives the
    objects of the results, in order.  The results of the raw mode are bare
    hexadecimal words, and brackets and commas make no JSON of them. *)
Theorem batch_output (s : NodeState) :
  outcome_of (Run flags s) = Ret tt ->
  exists w accts wc val outputs,
    validators flags w accts /\
    Forall2 (deposit_result flags w wc val) accts outputs /\
    (List.length accts = 1 ->
     exists one, outputs = [one] /\
       printed (events_of (Run flags s)) = (one ++ Format.nl)%string) /\
    (2 <= List.length accts ->
     printed (events_of (Run flags s)) =
     ("[" ++ Join outputs "," ++ "]" ++ Format.nl)%string /\
     (validatorDepositDataRaw flags = false ->
      validatorDepositDataLaunchpad flags = true ->
      exists objects,
        outputs = map (fun ms => "[" ++ Layout.render_object ms ++ "]")%string objects /\
        Json.read_array (Json.read_array_then Json.read_object_then)
          (printed (events_of (Run flags s)))
        = Some (map (fun ms => [ms]) objects)) /\
     (validatorDepositDataRaw flags = false ->
      validatorDepositDataLaunchpad flags = false ->
      Layout.plain (Wallet_Name w) = true ->
      Forall (fun a => Layout.plain (Account_Name a) = true) accts ->
      exists objects,
        outputs = map Layout.render_object objects /\
        Json.read_array Json.read_object_then (printed (events_of (Run flags s)))
        = Some objects)) /\
    (debug flags = false ->
     standard_output (events_of (Run flags s)) = printed (events_of (Run flags s))).
Proof.
  intros Hret. destruct (Run_returns flags s Hret) as (_ & outputs & Hg & Htr).
  destruct (generate_spec flags s) as (wc & val & Hev & Hpost).
  rewrite Hg in Hpost. destruct Hpost as (w & accts & (Hv & Hwc & _) & Hall).
  destruct (nothing_printed flags wc val _ Hev) as (_ & Hnone & Hquiet).
  assert (Hprinted : printed (events_of (Run flags s)) = Layout.batch outputs).
  { rewrite Htr, printed_app, Hnone. apply printed_print_events. }
  pose proof (Forall2_length Hall) as Hlen.
  exists w, accts, wc, val, outputs.
  split; [exact Hv |]. split; [exact Hall |]. split; [| split].
  - intros H1. rewrite H1 in Hlen.
    destruct outputs as [| one [| two rest]]; try discriminate.
    exists one. split; [reflexivity | exact Hprinted].
  - intros H2.
    assert (Hmany : printed (events_of (Run flags s)) =
                    ("[" ++ Join outputs "," ++ "]" ++ Format.nl)%string).
    { rewrite Hprinted.
      destruct outputs as [| one [| two rest]]; cbn in Hlen; try lia. reflexivity. }
    split; [exact Hmany |]. rewrite Hmany. split.
    + intros Hraw Hlaunchpad.
      destruct (Forall2_rendered (deposit_result flags w wc val) (fun _ => True)
                  (fun ms => "[" ++ Layout.render_object ms ++ "]")%string accts outputs)
        as [objects ->].
      * intros a o _ (key & fv & sig & root & _ & _ & _ & _ & Ho).
        rewrite Hraw, Hlaunchpad in Ho. destruct Ho as (messageRoot & _ & ->).
        eexists. apply launchpad_output_object.
      * apply Forall_forall. auto.
      * exact Hall.
      * exists objects. split; [reflexivity | apply read_arrays_of_one].
    + intros Hraw Hlaunchpad Hw Hplain.
      destruct (Forall2_rendered (deposit_result flags w wc val)
                  (fun a => Layout.plain (Account_Name a) = true)
                  Layout.render_object accts outputs)
        as [objects ->].
      * intros a o Ha (key & fv & sig & root & _ & _ & _ & Hroot & Ho).
        rewrite Hraw, Hlaunchpad in Ho.
        assert (Hne : forall (b : bytes) n, List.length b = S n -> b <> []).
        { intros b n Hb E. rewrite E in Hb. discriminate. }
        exists (Layout.deposit_object (Wallet_Name w ++ "/" ++ Account_Name a)
                  (PublicKey_Marshal key) wc (Signature_Marshal sig) val root).
        rewrite <- written_plain_object.
        -- rewrite Ho. apply default_output_object; cbn.
           ++ apply (Hne _ _ (PublicKey_Marshal_size key)).
           ++ destruct Hwc as (k & _ & ->). discriminate.
           ++ apply (Hne _ _ (Signature_Marshal_size sig)).
           ++ apply (Hne _ _ (HashTreeRoot_size _ _ Hroot)).
        -- apply plain_deposit_object. rewrite !plain_append, Hw, Ha. reflexivity.
      * exact Hplain.
      * exact Hall.
      * exists objects. split; [reflexivity | apply read_objects].
  - intros Hdebug.
    rewrite Htr, standard_output_app, printed_app, Hnone, (Hquiet Hdebug).
    now rewrite standard_output_print_events.
Qed.

End Printed.

(** ** The claims on concrete runs *)

Lemma credentials_are_prefixed_digest_witness :
  exists wc,
    outcome_of (withdrawal_credentials (C := Mock.world) Mock.one_validator []) = Ret wc /\
    nth 0 wc xff = x00 /\ nth 0 (Mock.digest (repeat xbb 48)) xff = xbb.
Proof.
  destruct (credentials_are_prefixed_digest (C := Mock.world) Mock.one_validator xbb [])
    as (wc & Hret & _ & _ & _ & Hzero & _).
  - left. split; [discriminate |]. exists "primary", "current". split; reflexivity.
  - exists wc. split; [exact Hret |]. split; [exact Hzero | reflexivity].
Defined.

Lemma minimum_deposit_witness :
  failure (outcome_of (Run (C := Mock.world)
                         (Mock.with_value "999999999 Gwei" Mock.one_validator) [])) /\
  exit_status (outcome_of (Run (C := Mock.world)
                             (Mock.with_value "1 Ether" Mock.one_validator) [])) = 0%Z.
Proof.
  split.
  - apply (proj1 (minimum_deposit (C := Mock.world)
                    (Mock.with_value "999999999 Gwei" Mock.one_validator))
             999999999%N eq_refl eq_refl []).
  - destruct (minimum_deposit (C := Mock.world)
                (Mock.with_value "1 Ether" Mock.one_validator)) as [_ Hpass].
    destruct Hpass as [_ Hruns]; [discriminate | reflexivity |].
    apply (Hruns "primary" ["validator"] xbb).
    + split; [discriminate |]. split; [reflexivity |]. split; [discriminate |].
      repeat constructor. exists xaa. reflexivity.
    + left. split; [discriminate |]. exists "primary", "current". split; reflexivity.
    + left. exists [x00; x00; x00; x01]. split; [discriminate |]. split; reflexivity.
    + split.
      * intros a [<- | []] d domain. eexists. reflexivity.
      * intros [d | d]; eexists; reflexivity.
Defined.

(** C9, the input the code fails on: an account name that holds a double
    quote is written as it is, and the text of that validator is the object
    of no members; the text of the validator before it is read back as the
    eight members. *)
Lemma default_output_members_counterexample :
  exit_status (outcome_of (Run (C := Mock.world) Mock.odd_names [])) = 0%Z /\
  validatorDepositDataRaw Mock.odd_names = false /\
  validatorDepositDataLaunchpad Mock.odd_names = false /\
  exists first second,
    outcome_of (generate (C := Mock.world) Mock.odd_names []) = Ret [first; second] /\
    option_map (map fst) (Layout.read_object first) =
      Some ["name"; "account"; "pubkey"; "withdrawal_credentials"; "signature";
            "value"; "deposit_data_root"; "version"] /\
    String.prefix ("{" ++ Format.dq ++ "name" ++ Format.dq ++ ":" ++ Format.dq
                     ++ "Deposit for odd/" ++ Format.dq ++ "quoted" ++ Format.dq ++ ",")
      second = true /\
    Layout.read_object second = None /\
    forall members, Layout.render_object members <> second.
Proof.
  split; [reflexivity |]. split; [reflexivity |]. split; [reflexivity |].
  eexists. eexists. split; [vm_compute; reflexivity |].
  split; [vm_compute; reflexivity |]. split; [vm_compute; reflexivity |].
  split; [vm_compute; reflexivity |].
  intros members E. pose proof (read_object_render members) as Hread.
  rewrite E in Hread. vm_compute in Hread. discriminate Hread.
Qed.

Lemma default_output_members_witness :
  exit_status (outcome_of (Run (C := Mock.world) Mock.one_validator [])) = 0%Z /\
  exists output,
    outcome_of (generate (C := Mock.world) Mock.one_validator []) = Ret [output] /\
    output =
      Layout.render_object
        (Layout.deposit_object "primary/validator" (repeat xaa 48)
           (x00 :: repeat xbb 31) (repeat xaa 96) 32000000000 (repeat x22 32)) /\
    Layout.read_object output =
      Some (Layout.deposit_object "primary/validator" (repeat xaa 48)
              (x00 :: repeat xbb 31) (repeat xaa 96) 32000000000 (repeat x22 32)).
Proof.
  split; [reflexivity |].
  destruct (default_output_members (C := Mock.world) Mock.one_validator []
              eq_refl eq_refl eq_refl)
    as (w & accts & wc & val & outputs & Hg & (_ & Hpath & _) & Hwc & Hval & Hall).
  injection Hpath as <- <-.
  destruct Hwc as (k & [(_ & w & a & Ha & Hk) | (Hnone & _)] & ->); [| discriminate Hnone].
  vm_compute in Ha. injection Ha as <- <-. vm_compute in Hk. injection Hk as <-.
  destruct Hval as (_ & Hval & _). vm_compute in Hval. injection Hval as <-.
  inversion Hall as [| a o accts' outputs' Hone Hrest]; subst.
  inversion Hrest; subst.
  destruct Hone as (key & fv & sig & root & Hkey & _ & Hsig & Hroot & _ & Hobject).
  vm_compute in Hkey. injection Hkey as <-.
  vm_compute in Hsig. injection Hsig as <-.
  vm_compute in Hroot. injection Hroot as <-.
  destruct (Hobject eq_refl eq_refl) as [Hrendered Hread].
  exists o. split; [exact Hg |]. split.
  - rewrite Hrendered. vm_compute. reflexivity.
  - rewrite Hread. vm_compute. reflexivity.
Defined.

(** C3, the input the code fails on: the batch of two validators in the raw
    mode is printed between brackets and is no JSON array, nor JSON at all;
    the batches of the default mode and of the launchpad mode are. *)
Lemma batch_output_counterexample :
  outcome_of (Run (C := Mock.world) Batches.raw []) = Ret tt /\
  (exists one two,
     outcome_of (generate (C := Mock.world) Batches.raw []) = Ret [one; two] /\
     printed (events_of (Run (C := Mock.world) Batches.raw [])) =
     ("[" ++ one ++ "," ++ two ++ "]" ++ Format.nl)%string) /\
  String.prefix "[0x22895118"
    (printed (events_of (Run (C := Mock.world) Batches.raw []))) = true /\
  Json.is_array (printed (events_of (Run (C := Mock.world) Batches.raw []))) = false /\
  Json.valid (printed (events_of (Run (C := Mock.world) Batches.raw []))) = false /\
  Json.is_array (printed (events_of (Run (C := Mock.world) Mock.two_validators [])))
  = true /\
  Json.is_array (printed (events_of (Run (C := Mock.world) Batches.launchpad [])))
  = true.
Proof.
  split; [reflexivity |]. split.
  - eexists. eexists. split; vm_compute; reflexivity.
  - repeat split; vm_compute; reflexivity.
Qed.

Lemma batch_output_witness :
  outcome_of (Run (C := Mock.world) Mock.two_validators []) = Ret tt /\
  exists objects,
    List.length objects = 2 /\
    Json.read_array Json.read_object_then
      (printed (events_of (Run (C := Mock.world) Mock.two_validators [])))
    = Some objects.
Proof.
  split; [reflexivity |].
  destruct (batch_output (C := Mock.world) Mock.two_validators [] eq_refl)
    as (w & accts & wc & val & outputs & (_ & Hpath & _) & Hall & _ & Hmany & _).
  injection Hpath as <- <-.
  assert (H2 : 2 <= List.length ["validator"; "second"]) by (cbn; lia).
  destruct (Hmany H2) as (_ & _ & Hdefault).
  destruct (Hdefault eq_refl eq_refl eq_refl) as (objects & Hout & Hread).
  { repeat constructor. }
  exists objects. split; [| exact Hread].
  pose proof (Forall2_length Hall) as Hlen. rewrite Hout, length_map in Hlen.
  symmetry. exact Hlen.
Defined.

(** C5, the claim as written fails: with [debug] set, the second of two
    validators locked, the run ends with exit status 1 after the signed
    deposit data of the first validator has been written to standard output. *)
Lemma no_result_on_failure_counterexample :
  exit_status (outcome_of (Run (C := Mock.world) Mock.mixed_debug [])) = 1%Z /\
  String.prefix "Signed deposit data:"
    (standard_output (events_of (Run (C := Mock.world) Mock.mixed_debug []))) = true.
Proof. split; reflexivity. Qed.

(** A node that answers once: the second of two validators finds it gone. *)
Lemma no_result_on_failure_witness :
  no_fork_version_at (C := Mock.world)
    (node_at (C := Mock.world) Mock.two_validators_ask 1 [Mock.mainnet]) /\
  failure (outcome_of (Run (C := Mock.world) Mock.two_validators_ask [Mock.mainnet])) /\
  exists before,
    events_of (Run (C := Mock.world) Mock.two_validators_ask [Mock.mainnet]) =
    before ++ [Ev_connect; Ev_FetchChainConfig; Ev_outputIf Format.could_not_connect].
Proof.
  split; [exact I |].
  destruct (no_result_on_failure (C := Mock.world) Mock.two_validators_ask)
    as (Hfails & _ & _).
  destruct (Hfails eq_refl "primary" ["validator"; "second"] 1 [Mock.mainnet] eq_refl)
    as (Hf & _ & Hlast).
  - cbn. lia.
  - exact I.
  - split; [exact Hf |]. destruct (Hlast eq_refl eq_refl) as (_ & before & Hev).
    exists before. exact Hev.
Defined.

(** C6, the claim as written fails: two validators and no fork version on
    the command line, a node that has changed its answer in between.  The
    configuration has been fetched twice in one successful run, and the two
    validators have been signed for under different domains. *)
Lemma settled_once_asked_per_validator_counterexample :
  exit_status
    (outcome_of (Run (C := Mock.world) Mock.two_validators_ask
                   [Mock.mainnet; Mock.testnet])) = 0%Z /\
  count is_connect
    (events_of (Run (C := Mock.world) Mock.two_validators_ask
                  [Mock.mainnet; Mock.testnet])) = 2 /\
  count is_fetch
    (events_of (Run (C := Mock.world) Mock.two_validators_ask
                  [Mock.mainnet; Mock.testnet])) = 2 /\
  map request_domain
    (signing_requests
       (events_of (Run (C := Mock.world) Mock.two_validators_ask
                     [Mock.mainnet; Mock.testnet]))) =
  [[x03; x00; x00; x00] ++ [x00; x00; x00; x00] ++ repeat x00 24;
   [x03; x00; x00; x00] ++ [x00; x00; x00; x01] ++ repeat x00 24].
Proof. repeat split; reflexivity. Qed.

Lemma settled_once_asked_per_validator_witness :
  signing_requests
    (events_of (Run (C := Mock.world) Mock.two_validators_ask
                  [Mock.mainnet; Mock.testnet])) <> [] /\
  (exists (r : @Account Mock.world * DepositData.t * bytes) (fv : bytes),
     nth_error
       (signing_requests
          (events_of (Run (C := Mock.world) Mock.two_validators_ask
                        [Mock.mainnet; Mock.testnet]))) 1 = Some r /\
     fork_version_at (C := Mock.world) Mock.two_validators_ask [Mock.testnet] fv /\
     request_domain r =
       Domain (Collaborators := Mock.world) (DomainDeposit (Collaborators := Mock.world)) fv
         (ZeroGenesisValidatorsRoot (Collaborators := Mock.world))) /\
  count is_fetch
    (events_of (Run (C := Mock.world) Mock.two_validators_ask
                  [Mock.mainnet; Mock.testnet])) = 2.
Proof.
  assert (Hsome : signing_requests
                    (events_of (Run (C := Mock.world) Mock.two_validators_ask
                                  [Mock.mainnet; Mock.testnet])) <> []).
  { intros E. vm_compute in E. discriminate E. }
  split; [exact Hsome |].
  destruct (settled_once_asked_per_validator (C := Mock.world) Mock.two_validators_ask
              [Mock.mainnet; Mock.testnet]) as (Hreq & _ & Hasked).
  split.
  - destruct (Hreq Hsome) as (w & accts & wc & val & _ & _ & _ & Hnth).
    destruct (nth_error
                (signing_requests
                   (events_of (Run (C := Mock.world) Mock.two_validators_ask
                                 [Mock.mainnet; Mock.testnet]))) 1) as [r |] eqn:E;
      [| vm_compute in E; discriminate E].
    destruct (Hnth 1 r E) as (a & _ & _ & _ & fv & Hfv & Hdomain).
    exists r, fv. split; [reflexivity |]. split; [exact Hfv | exact Hdomain].
  - destruct (Hasked eq_refl eq_refl) as (w & accts & (_ & Hpath & _) & _ & Hfetch & _).
    injection Hpath as <- <-. exact Hfetch.
Defined.

(** C8, the claim as written fails: with a withdrawal account given, a
    [--withdrawalpubkey] of two bytes is not read and the run succeeds. *)
Lemma wrong_sizes_rejected_counterexample :
  DecodeString (TrimPrefix (validatorDepositDataWithdrawalPubKey (Mock.both Mock.short_key))
                  "0x") = Ok [xbb; xbb] /\
  outcome_of (Run (C := Mock.world) (Mock.both Mock.short_key) []) = Ret tt.
Proof. split; reflexivity. Qed.

Lemma wrong_sizes_rejected_witness :
  failure (outcome_of (Run (C := Mock.world)
                         (Mock.with_fork_version "0x0001" Mock.one_validator) [])) /\
  failure (outcome_of (Run (C := Mock.world) (Mock.raw_key Mock.short_key) [])) /\
  Run (C := Mock.world) (Mock.both Mock.short_key) [] =
  Run (C := Mock.world) Mock.one_validator [].
Proof.
  split; [| split].
  - destruct (wrong_sizes_rejected (C := Mock.world)
                (Mock.with_fork_version "0x0001" Mock.one_validator)) as (Hfv & _ & _).
    apply Hfv.
    + discriminate.
    + intros fv H. cbn in H. injection H as <-. discriminate.
  - destruct (wrong_sizes_rejected (C := Mock.world) (Mock.raw_key Mock.short_key))
      as (_ & Hkey & _).
    apply Hkey.
    + reflexivity.
    + intros k H. cbn in H. injection H as <-. discriminate.
  - destruct (wrong_sizes_rejected (C := Mock.world) Mock.one_validator)
      as (_ & _ & Hboth).
    apply (Hboth ltac:(discriminate) Mock.short_key []).
Defined.

(** C10, the claim as written fails: with a withdrawal account given, 48
    bytes that are no BLS public key are not read and the run succeeds. *)
Lemma raw_key_must_parse_counterexample :
  DecodeString (TrimPrefix (validatorDepositDataWithdrawalPubKey (Mock.both Mock.bad_key))
                  "0x") = Ok (repeat xff 48) /\
  BLSPublicKeyFromBytes (Collaborators := Mock.world) (repeat xff 48)
    = Err "not a point of the curve" /\
  outcome_of (Run (C := Mock.world) (Mock.both Mock.bad_key) []) = Ret tt /\
  List.length (signing_requests
                 (events_of (Run (C := Mock.world) (Mock.both Mock.bad_key) []))) = 1.
Proof. repeat split; reflexivity. Qed.

Lemma raw_key_must_parse_witness :
  failure (outcome_of (Run (C := Mock.world) (Mock.raw_key Mock.bad_key) [])) /\
  outcome_of (withdrawal_credentials (C := Mock.world) (Mock.raw_key Mock.good_key) []) =
  Ret (x00 :: repeat xbb 31) /\
  Run (C := Mock.world) (Mock.both Mock.bad_key) [] =
  Run (C := Mock.world) Mock.one_validator [].
Proof.
  split; [| split].
  - destruct (raw_key_must_parse (C := Mock.world) (Mock.raw_key Mock.bad_key))
      as (Hraw & _).
    destruct (Hraw eq_refl (repeat xff 48) eq_refl eq_refl) as (Hbad & _).
    apply (Hbad "not a point of the curve" eq_refl []).
  - destruct (raw_key_must_parse (C := Mock.world) (Mock.raw_key Mock.good_key))
      as (Hraw & _).
    destruct (Hraw eq_refl (repeat xbb 48) eq_refl eq_refl) as (_ & Hgood).
    apply (Hgood xbb eq_refl []).
  - destruct (raw_key_must_parse (C := Mock.world) Mock.one_validator) as (_ & Hboth).
    apply (Hboth ltac:(discriminate) Mock.bad_key []).
Defined.

(** * Further properties *)

Section Modes.

Context {C : Collaborators}.
Variable flags : Flags.

(** *** The launchpad mode *)

(** X1.  In the launchpad mode, the output of each validator account of a
    successful run is an array of one object with the members [pubkey],
    [withdrawal_credentials], [amount], [signature], [deposit_message_root],
    [deposit_data_root] and [fork_version], in this order: [amount] is the
    amount in Gwei in decimal, the byte strings are in hexadecimal without a
    prefix, and the object is read back as these seven members. *)
Theorem launchpad_output_members (s : NodeState) :
  exit_status (outcome_of (Run flags s)) = 0%Z ->
  validatorDepositDataRaw flags = false ->
  validatorDepositDataLaunchpad flags = true ->
  exists w accts wc val outputs,
    outcome_of (generate flags s) = Ret outputs /\
    validators flags w accts /\ credentials flags wc /\ amount flags val /\
    Forall2
      (fun a o =>
         exists key forkVersion sig dataRoot messageRoot,
           bestPublicKey a = Ok key /\
           fork_version_source flags forkVersion /\
           signStruct a (DepositData.make (PublicKey_Marshal key) wc val)
             (Domain DomainDeposit forkVersion ZeroGenesisValidatorsRoot) = Ok sig /\
           HashTreeRoot
             (ssz_signed
                (SignedDepositData.make (PublicKey_Marshal key) wc val
                   (Signature_Marshal sig))) = Ok dataRoot /\
           HashTreeRoot (ssz_deposit (DepositData.make (PublicKey_Marshal key) wc val))
             = Ok messageRoot /\
           let members :=
             [("pubkey", Layout.J_string (EncodeToString (PublicKey_Marshal key)));
              ("withdrawal_credentials", Layout.J_string (EncodeToString wc));
              ("amount", Layout.J_number val);
              ("signature", Layout.J_string (EncodeToString (Signature_Marshal sig)));
              ("deposit_message_root", Layout.J_string (EncodeToString messageRoot));
              ("deposit_data_root", Layout.J_string (EncodeToString dataRoot));
              ("fork_version", Layout.J_string (EncodeToString forkVersion))] in
           o = ("[" ++ Layout.render_object members ++ "]")%string /\
           Layout.read_object (Layout.render_object members) = Some members)
      accts outputs.
Proof.
  intros Hok Hraw Hlaunchpad.
  destruct (Run_success flags s Hok) as (outputs & Hg & _).
  destruct (generate_spec flags s) as (wc & val & _ & Hpost).
  rewrite Hg in Hpost. destruct Hpost as (w & accts & (Hv & Hwc & Hval) & Hall).
  exists w, accts, wc, val, outputs.
  split; [exact Hg |]. split; [exact Hv |]. split; [exact Hwc |]. split; [exact Hval |].
  eapply Forall2_impl; [| exact Hall]. intros a o.
  intros (key & fv & sig & root & Hkey & Hfv & Hsig & Hroot & Ho).
  rewrite Hraw, Hlaunchpad in Ho. destruct Ho as (messageRoot & Hm & ->).
  exists key, fv, sig, root, messageRoot.
  split; [exact Hkey |]. split; [exact Hfv |]. split; [exact Hsig |].
  split; [exact Hroot |]. split; [exact Hm |].
  split; [apply launchpad_output_object | apply read_object_render].
Qed.

(** *** The raw mode *)

Lemma credentials_length (wc : bytes) : credentials flags wc -> List.length wc = 32.
Proof. intros (key & _ & ->). apply with_prefix_size, SHA256_size. Qed.

(** X2.  In the raw mode, the output of each validator account of a successful
    run is [0x] and 840 hexadecimal digits: the 420 bytes of a call of the
    deposit contract that decodes to the public key of that account, the
    withdrawal credentials of the run, the signature of that account and the
    deposit data root. *)
Theorem raw_outputs_decode (s : NodeState) :
  exit_status (outcome_of (Run flags s)) = 0%Z ->
  validatorDepositDataRaw flags = true ->
  exists w accts wc val outputs,
    outcome_of (generate flags s) = Ret outputs /\
    validators flags w accts /\ credentials flags wc /\ amount flags val /\
    Forall2
      (fun a o =>
         exists key forkVersion sig root tx,
           bestPublicKey a = Ok key /\
           fork_version_source flags forkVersion /\
           signStruct a (DepositData.make (PublicKey_Marshal key) wc val)
             (Domain DomainDeposit forkVersion ZeroGenesisValidatorsRoot) = Ok sig /\
           HashTreeRoot
             (ssz_signed
                (SignedDepositData.make (PublicKey_Marshal key) wc val
                   (Signature_Marshal sig))) = Ok root /\
           o = ("0x" ++ EncodeToString tx)%string /\
           String.length o = 842 /\
           List.length tx = 420 /\
           DecodeString (TrimPrefix o "0x") = Ok tx /\
           Raw.decode_call tx =
           Some (Raw.mk_fields (PublicKey_Marshal key) wc (Signature_Marshal sig) root))
      accts outputs.
Proof.
  intros Hok Hraw.
  destruct (Run_success flags s Hok) as (outputs & Hg & _).
  destruct (generate_spec flags s) as (wc & val & _ & Hpost).
  rewrite Hg in Hpost. destruct Hpost as (w & accts & (Hv & Hwc & Hval) & Hall).
  exists w, accts, wc, val, outputs.
  split; [exact Hg |]. split; [exact Hv |]. split; [exact Hwc |]. split; [exact Hval |].
  eapply Forall2_impl; [| exact Hall]. intros a o.
  intros (key & fv & sig & root & Hkey & Hfv & Hsig & Hroot & Ho).
  rewrite Hraw in Ho. subst o.
  pose proof (PublicKey_Marshal_size key) as Hk.
  pose proof (credentials_length wc Hwc) as Hc.
  pose proof (Signature_Marshal_size sig) as Hs.
  pose proof (HashTreeRoot_size _ _ Hroot) as Hr.
  exists key, fv, sig, root,
    (Raw.txData root (PublicKey_Marshal key) wc (Signature_Marshal sig)).
  split; [exact Hkey |]. split; [exact Hfv |]. split; [exact Hsig |].
  split; [exact Hroot |].
  assert (Ho : Raw.output root (PublicKey_Marshal key) wc (Signature_Marshal sig) =
               ("0x" ++ EncodeToString
                  (Raw.txData root (PublicKey_Marshal key) wc (Signature_Marshal sig)))%string).
  { unfold Raw.output. apply Sprintf_sharp_x. now apply txData_nonempty. }
  split; [exact Ho |]. split.
  { rewrite Ho. cbn [append String.length].
    rewrite EncodeToString_length, txData_length by assumption. reflexivity. }
  split; [now apply txData_length |].
  split; [now apply output_decodes | now apply decode_call_txData].
Qed.

(** X3.  With [--raw], [--launchpad] changes nothing: the run is the same with
    and without it. *)
Theorem raw_before_launchpad (b : bool) (s : NodeState) :
  validatorDepositDataRaw flags = true ->
  Run (set_launchpad b flags) s = Run flags s.
Proof.
  intros Hraw. unfold Run, generate, deposit.
  cbn [validatorDepositDataRaw validatorDepositDataLaunchpad set_launchpad].
  rewrite Hraw. reflexivity.
Qed.

End Modes.

(** *** Hexadecimal flags *)

(** Text that decodes does not start with [0x]: [x] is no digit. *)
Lemma TrimPrefix_decoded (h : string) (b : bytes) :
  DecodeString h = Ok b -> TrimPrefix h "0x" = h.
Proof.
  intros Hb. unfold TrimPrefix.
  destruct h as [| c1 [| c2 rest]]; [reflexivity | |].
  { cbn in Hb. destruct (fromHexChar c1); discriminate Hb. }
  cbn [String.prefix].
  destruct (ascii_dec "0" c1) as [<- |]; [| reflexivity].
  destruct (ascii_dec "x" c2) as [<- |]; [| reflexivity].
  cbn in Hb. discriminate Hb.
Qed.

Section Prefix.

Context {C : Collaborators}.
Variable flags : Flags.
Variable h : string.
Variable b : bytes.
Hypothesis h_given : h <> "".
Hypothesis h_decodes : DecodeString h = Ok b.

Lemma fork_version_0x :
  fork_version (set_fork_version ("0x" ++ h) flags) =
  fork_version (set_fork_version h flags).
Proof.
  unfold fork_version. cbn [validatorDepositDataForkVersion set_fork_version].
  rewrite TrimPrefix_0x, (TrimPrefix_decoded h b h_decodes), h_decodes.
  rewrite (given_true h h_given). reflexivity.
Qed.

Lemma withdrawal_credentials_0x :
  withdrawal_credentials (set_withdrawal_pubkey ("0x" ++ h) flags) =
  withdrawal_credentials (set_withdrawal_pubkey h flags).
Proof.
  unfold withdrawal_credentials.
  cbn [validatorDepositDataWithdrawalPubKey validatorDepositDataWithdrawalAccount
       set_withdrawal_pubkey].
  rewrite TrimPrefix_0x, (TrimPrefix_decoded h b h_decodes), h_decodes.
  rewrite (given_true h h_given). reflexivity.
Qed.

(** X4.  The hexadecimal text of [--forkversion] and of [--withdrawalpubkey]
    may be given with [0x] in front or without: for a text that is not empty
    and decodes, the run is the same either way. *)
Theorem prefix_0x_is_optional (s : NodeState) :
  Run (set_fork_version ("0x" ++ h) flags) s = Run (set_fork_version h flags) s /\
  Run (set_withdrawal_pubkey ("0x" ++ h) flags) s =
  Run (set_withdrawal_pubkey h flags) s.
Proof.
  split.
  - unfold Run, generate, deposit. rewrite fork_version_0x. reflexivity.
  - unfold Run, generate, prelude. rewrite withdrawal_credentials_0x. reflexivity.
Qed.

End Prefix.

Section Checks.

Context {C : Collaborators}.
Variable flags : Flags.

(** X5.  The flags that must be given are asked for in the order validator
    account, withdrawal key, deposit value.  Without [--validatoraccount]
    the run says so and exits with status 1, whatever else is given.  With
    validator accounts and neither [--withdrawalaccount] nor
    [--withdrawalpubkey], and with those and no [--depositvalue], the run has
    only talked through [outputIf] before it says what is missing and exits
    with status 1; the node has not been touched. *)
Theorem required_flags :
  (validatorDepositDataValidatorAccount flags = "" ->
   forall s,
     Run flags s = (said flags "--validatoraccount is required", s, Exit _exitFailure)) /\
  (forall w accts,
     validators flags w accts ->
     validatorDepositDataWithdrawalAccount flags = "" ->
     validatorDepositDataWithdrawalPubKey flags = "" ->
     forall s, exists notes,
       forallb is_outputIf notes = true /\
       Run flags s =
       (notes ++ said flags "--withdrawalaccount or --withdrawalpubkey is required",
        s, Exit _exitFailure)) /\
  (forall w accts key,
     validators flags w accts -> withdrawal_key flags key ->
     validatorDepositDataDepositValue flags = "" ->
     forall s, exists notes,
       forallb is_outputIf notes = true /\
       Run flags s =
       (notes ++ said flags "--depositvalue is required", s, Exit _exitFailure)).
Proof.
  split; [| split].
  - intros Hnone s. unfold Run, generate, prelude, validator_accounts, bind, assert, said.
    rewrite Hnone. cbn. destruct (quiet flags); reflexivity.
  - intros w accts Hv Hacc Hkey s.
    assert (H : exists notes (o' : outcome unit),
              forallb is_outputIf notes = true /\
              Run flags s =
              (notes ++ said flags "--withdrawalaccount or --withdrawalpubkey is required",
               s, o') /\
              stop_of (@Exit unit _exitFailure) o').
    { unfold Run. apply stop_inside. unfold generate. apply stop_inside. unfold prelude.
      eapply steady_then_stop; [apply (validator_accounts_steady flags w accts Hv) |].
      intros ? ->. apply stop_inside.
      unfold withdrawal_credentials. rewrite Hacc, Hkey. cbn [String.eqb negb orb].
      apply stop_here with (o := Exit _exitFailure); [| discriminate].
      unfold assert, bind, said. destruct (quiet flags); reflexivity. }
    destruct H as (notes & o' & Hn & E & Ho). cbn in Ho. subst o'. eauto.
  - intros w accts key Hv Hk Hnone s.
    assert (H : exists notes (o' : outcome unit),
              forallb is_outputIf notes = true /\
              Run flags s = (notes ++ said flags "--depositvalue is required", s, o') /\
              stop_of (@Exit unit _exitFailure) o').
    { unfold Run. apply stop_inside. unfold generate. apply stop_inside. unfold prelude.
      eapply steady_then_stop; [apply (validator_accounts_steady flags w accts Hv) |].
      intros ? ->.
      eapply steady_then_stop; [apply (withdrawal_credentials_steady flags key Hk) |].
      intros ? ->. apply stop_inside.
      unfold deposit_value. rewrite Hnone. cbn [String.eqb negb].
      apply stop_here with (o := Exit _exitFailure); [| discriminate].
      unfold assert, bind, said. destruct (quiet flags); reflexivity. }
    destruct H as (notes & o' & Hn & E & Ho). cbn in Ho. subst o'. eauto.
Qed.

(** X6.  A path that names a wallet and matches no account ends the run at line
    59, with exit status 1, before any account is looked at. *)
Theorem no_validator_account (w : Wallet) (s : NodeState) :
  validatorDepositDataValidatorAccount flags <> "" ->
  walletAndAccountsFromPath (validatorDepositDataValidatorAccount flags) = Ok (w, []) ->
  Run flags s = (said flags "Failed to obtain validator account", s, Exit _exitFailure).
Proof.
  intros Hgiven Hpath.
  unfold Run, generate, prelude, validator_accounts, bind, assert, errCheck, said.
  rewrite (given_true _ Hgiven), Hpath. cbn. destruct (quiet flags); reflexivity.
Qed.

(** X7.  Every validator account is asked for its public key before anything
    else is done (lines 61-66): when one of them has none, wherever it stands
    in the list, the run ends with a nonzero exit status having produced
    messages only.  Nothing has been signed for any account and the node has
    not been touched. *)
Theorem keys_checked_before_signing (w : Wallet) (accts : list Account) (a : Account)
    (e : string) :
  walletAndAccountsFromPath (validatorDepositDataValidatorAccount flags) = Ok (w, accts) ->
  In a accts -> bestPublicKey a = Err e ->
  forall s,
    failure (outcome_of (Run flags s)) /\
    Forall message (events_of (Run flags s)) /\
    signing_requests (events_of (Run flags s)) = [] /\
    count is_connect (events_of (Run flags s)) = 0 /\
    count is_fetch (events_of (Run flags s)) = 0.
Proof.
  intros Hpath Hin Hkey s.
  assert (Hp : spec message (fun _ => False) (prelude flags)).
  { apply (prelude_needs flags True); [| exact I].
    intros w' accts' wc val ((_ & Hpath' & _ & Hkeys) & _) _.
    rewrite Hpath in Hpath'. injection Hpath' as <- <-.
    rewrite Forall_forall in Hkeys. destruct (Hkeys a Hin) as [key Hkey'].
    congruence. }
  destruct (Run_stops_early flags Hp s) as [Hf Hmsg].
  split; [exact Hf |]. split; [exact Hmsg |].
  split; [now apply no_requests_in_messages |].
  split; apply count_messages; try assumption; intros msg; split; reflexivity.
Qed.

(** *** The node *)


Lemma fork_version_unreachable (e : string) (s : NodeState) :
  validatorDepositDataForkVersion flags = "" ->
  fst (connect s) = Err e ->
  fork_version flags s =
  (Ev_connect :: said flags ("Failed to connect to beacon node: " ++ e),
   snd (connect s), Exit _exitFailure).
Proof.
  intros Hnone Hconnect.
  unfold fork_version, bind, call_connect, said.
  rewrite Hnone. cbn [String.eqb negb].
  destruct (connect s) as [r s1]. cbn in Hconnect |- *. subst r. cbn.
  destruct (quiet flags); reflexivity.
Qed.


(** X9.  When no fork version is given and the node refuses the connection, the
    run ends at the first validator with exit status 1: it has tried to
    connect once and has neither fetched the configuration nor signed
    anything. *)
Theorem unreachable_node_is_not_asked (w : Wallet) (accts : list Account)
    (key : PublicKey) (val : N) (e : string) (s : NodeState) :
  validators flags w accts -> withdrawal_key flags key -> amount flags val ->
  validatorDepositDataForkVersion flags = "" ->
  fst (connect s) = Err e ->
  count is_fetch (events_of (Run flags s)) = 0 /\
  signing_requests (events_of (Run flags s)) = [] /\
  exists notes,
    forallb is_outputIf notes = true /\
    Run flags s =
    (notes ++ Ev_connect :: said flags ("Failed to connect to beacon node: " ++ e),
     snd (connect s), Exit _exitFailure).
Proof.
  intros Hv Hk Ha Hnone Hconnect.
  pose proof (fork_version_unreachable e s Hnone Hconnect) as Hfv.
  destruct (Run_first_fork_version flags w accts key val s _ _ _ Hv Hk Ha Hfv)
    as (notes & o' & Hn & E & Ho); [discriminate |].
  cbn in Ho. subst o'. rewrite E. unfold events_of. cbn [fst].
  pose proof (notes_are_messages notes Hn) as Hmsg.
  split; [| split; [| eauto]].
  - rewrite count_app, (count_messages is_fetch) by (try assumption; intros ?; split; reflexivity).
    unfold said. destruct (quiet flags); reflexivity.
  - rewrite signing_requests_app, (no_requests_in_messages notes Hmsg).
    unfold said. destruct (quiet flags); reflexivity.
Qed.

Lemma count_sign_requests (tr : list event) :
  count is_sign tr = List.length (signing_requests tr).
Proof.
  unfold count. induction tr as [| e tr IH]; [reflexivity |].
  destruct e; cbn [filter is_sign signing_requests List.length]; now rewrite ?IH.
Qed.

(** X10.  Only a fork version given on the command line is measured (line 117).
    The one the node gives is used as it is: whatever its length, the run
    succeeds when the collaborators do their part, and every validator is
    signed for under the deposit domain of those bytes. *)
Theorem fetched_fork_version_is_not_measured (w : Wallet) (accts : list Account)
    (key : PublicKey) (val : N) (cfg : config) (forkVersion : bytes) :
  validators flags w accts -> withdrawal_key flags key -> amount flags val ->
  willing accts ->
  validatorDepositDataForkVersion flags = "" ->
  (forall s, fst (connect s) = Ok tt) ->
  (forall s, fst (FetchChainConfig s) = Ok cfg) ->
  config_get cfg "GenesisForkVersion" = Some (cv_bytes forkVersion) ->
  forall s,
    exit_status (outcome_of (Run flags s)) = 0%Z /\
    List.length (signing_requests (events_of (Run flags s))) = List.length accts /\
    forall r, In r (signing_requests (events_of (Run flags s))) ->
      request_domain r = Domain DomainDeposit forkVersion ZeroGenesisValidatorsRoot.
Proof.
  intros Hv Hk Ha Hw Hnone Hconnect Hfetch Hget s.
  assert (Hnode : fork_version_available flags).
  { right. split; [exact Hnone |]. intros s'. split; [apply Hconnect |]. eauto. }
  pose proof (generate_succeeds flags w accts key val Hv Hk Ha Hnode Hw) as Hg.
  pose proof (succeeded flags s Hg) as Hok.
  split; [exact Hok |]. split.
  - destruct (Run_success flags s Hok) as (outputs & Hout & _).
    rewrite <- count_sign_requests, Run_count by reflexivity.
    destruct (generate_tally flags is_sign silent_is_sign ltac:(reflexivity)
                true ltac:(reflexivity) s outputs Hout) as (w' & accts' & Hv' & Hn).
    destruct Hv as (_ & Hp & _), Hv' as (_ & Hp' & _).
    rewrite Hp in Hp'. injection Hp' as <- <-.
    rewrite Hn, Hnone. cbn. lia.
  - rewrite Run_requests. intros [[a d] domain] Hin. cbn [request_domain snd].
    destruct (generate_spec flags s) as (wc & val' & Hev & _).
    destruct (requests_of_events flags wc val' _ Hev a d domain Hin)
      as (_ & _ & fv & Hsource & ->).
    destruct Hsource as [(Hgiven & _) | (_ & s' & cfg' & Hf & Hg')]; [contradiction |].
    rewrite Hfetch in Hf. injection Hf as <-. rewrite Hget in Hg'. now injection Hg' as <-.
Qed.

End Checks.

(** ** Runs that differ in what they say *)

Section Alike.

Context {C : Collaborators}.
Variable keep : event -> bool.

Lemma alike_refl {A : Type} (m : M A) : alike keep m m.
Proof. intros s. auto. Qed.

Lemma alike_bind {A B : Type} (m m' : M A) (k k' : A -> M B) :
  alike keep m m' -> (forall a, alike keep (k a) (k' a)) ->
  alike keep (bind m k) (bind m' k').
Proof.
  intros Hm Hk s. destruct (Hm s) as (Htr & Hs & Ho). unfold bind.
  destruct (m s) as [[tr s1] o], (m' s) as [[tr' s1'] o'].
  cbn [events_of outcome_of state_of fst snd] in Htr, Hs, Ho. subst s1' o'.
  destruct o as [a | code |]; cbn [events_of outcome_of state_of fst snd]; auto.
  destruct (Hk a s1) as (Htr2 & Hs2 & Ho2).
  destruct (k a s1) as [[tr2 s2] o2], (k' a s1) as [[tr2' s2'] o2'].
  cbn [events_of outcome_of state_of fst snd] in Htr2, Hs2, Ho2 |- *.
  rewrite !filter_app, Htr, Htr2. auto.
Qed.

Hypothesis outputIf_hidden : forall msg, keep (Ev_outputIf msg) = false.

Lemma alike_outputIf (c c' : bool) (msg msg' : string) :
  alike keep (outputIf c msg) (outputIf c' msg').
Proof.
  intros s. unfold outputIf.
  destruct c, c'; cbn; rewrite ?outputIf_hidden; auto.
Qed.

Variables f f' : Flags.
Hypothesis same_quiet_or_hidden :
  quiet f = quiet f' \/ forall msg, keep (Ev_stderr msg) = false.
Hypothesis same_debug_or_hidden :
  debug f = debug f' \/ forall text, keep (Ev_debug text) = false.

Lemma alike_assert (c : bool) (msg : string) :
  alike keep (assert f c msg) (assert f' c msg).
Proof.
  intros s. unfold assert, bind. destruct c; [cbn; auto |].
  destruct same_quiet_or_hidden as [<- | H]; [auto |].
  destruct (quiet f), (quiet f'); cbn; rewrite ?H; auto.
Qed.

Lemma alike_errCheck {A : Type} (r : result A) (msg : string) :
  alike keep (errCheck f r msg) (errCheck f' r msg).
Proof.
  intros s. unfold errCheck, bind. destruct r as [v | e]; [cbn; auto |].
  destruct same_quiet_or_hidden as [<- | H]; [auto |].
  destruct (quiet f), (quiet f'); cbn; rewrite ?H; auto.
Qed.

Lemma alike_print_signed (d : SignedDepositData.t) :
  alike keep (print_signed f d) (print_signed f' d).
Proof.
  intros s. unfold print_signed.
  destruct same_debug_or_hidden as [<- | H]; [auto |].
  destruct (debug f), (debug f'); cbn; rewrite ?H; auto.
Qed.

Lemma alike_for_range {A : Type} (l : list A) (body body' : A -> M unit) :
  (forall x, alike keep (body x) (body' x)) ->
  alike keep (for_range l body) (for_range l body').
Proof.
  intros Hbody. induction l as [| x l IH]; cbn [for_range].
  - apply alike_refl.
  - apply alike_bind; auto.
Qed.

Lemma alike_for_range_with {A V : Type} (l : list A) (body body' : V -> A -> M V) (v : V) :
  (forall v x, alike keep (body v x) (body' v x)) ->
  alike keep (for_range_with l body v) (for_range_with l body' v).
Proof.
  intros Hbody. revert v. induction l as [| x l IH]; intros v; cbn [for_range_with].
  - apply alike_refl.
  - apply alike_bind; auto.
Qed.

Hypothesis same : same_command f f'.

Ltac alike_call :=
  first [ apply alike_assert | apply alike_errCheck | apply alike_outputIf
        | apply alike_print_signed | apply alike_refl ].

Ltac alike_step :=
  first [ apply alike_bind; [alike_call | intros ?] | alike_call ].

Lemma validator_accounts_alike :
  alike keep (validator_accounts f) (validator_accounts f').
Proof.
  destruct same as (Hva & _). unfold validator_accounts. rewrite Hva.
  alike_step. alike_step. destruct a0 as [w accts]. alike_step.
  apply alike_bind; [| intros ?; apply alike_refl].
  apply alike_for_range. intros x. repeat alike_step.
Qed.

Lemma withdrawal_credentials_alike :
  alike keep (withdrawal_credentials f) (withdrawal_credentials f').
Proof.
  destruct same as (_ & Hwa & Hwk & _). unfold withdrawal_credentials.
  rewrite Hwa, Hwk. alike_step.
  apply alike_bind.
  - destruct (negb (validatorDepositDataWithdrawalAccount f' =? "")).
    + alike_step. destruct a0 as [w acct]. repeat alike_step.
    + repeat alike_step.
  - intros d. repeat alike_step.
Qed.

Lemma deposit_value_alike : alike keep (deposit_value f) (deposit_value f').
Proof.
  destruct same as (_ & _ & _ & Hdv & _). unfold deposit_value. rewrite Hdv.
  repeat alike_step.
Qed.

Lemma fork_version_alike : alike keep (fork_version f) (fork_version f').
Proof.
  destruct same as (_ & _ & _ & _ & _ & Hfv & _). unfold fork_version. rewrite Hfv.
  destruct (negb (validatorDepositDataForkVersion f' =? "")).
  - repeat alike_step.
  - alike_step. alike_step. alike_step.
    apply alike_bind.
    + destruct a1 as [cfg | e]; [apply alike_refl |].
      apply alike_bind; [apply alike_outputIf | intros ?; apply alike_refl].
    + intros cfg. repeat alike_step.
Qed.

Lemma deposit_alike (w : Wallet) (wc : bytes) (val : N) (outputs : list string)
    (a : Account) :
  alike keep (deposit f w wc val outputs a) (deposit f' w wc val outputs a).
Proof.
  pose proof fork_version_alike as Hfv.
  destruct same as (_ & _ & _ & _ & Hraw & _ & Hlp). unfold deposit.
  rewrite Hraw, Hlp.
  alike_step. alike_step.
  apply alike_bind; [exact Hfv | intros forkVersion].
  alike_step. alike_step. alike_step. alike_step. alike_step. alike_step. alike_step.
  destruct (validatorDepositDataRaw f'); [apply alike_refl |].
  destruct (validatorDepositDataLaunchpad f'); [| apply alike_refl].
  repeat alike_step.
Qed.

(** Lines 56-199 for two sets of flags of the same command. *)
Lemma generate_alike : alike keep (generate f) (generate f').
Proof.
  unfold generate, prelude.
  apply alike_bind.
  - apply alike_bind; [apply validator_accounts_alike | intros [w accts]].
    apply alike_bind; [apply withdrawal_credentials_alike | intros wc].
    apply alike_bind; [apply deposit_value_alike | intros val].
    apply alike_refl.
  - intros [[[w accts] wc] val].
    apply alike_for_range_with. intros v x. apply deposit_alike.
Qed.

Lemma Run_alike : quiet f = quiet f' -> alike keep (Run f) (Run f').
Proof.
  intros Hq. unfold Run. apply alike_bind; [apply generate_alike |].
  intros outputs. unfold print_outputs. rewrite Hq. apply alike_refl.
Qed.

End Alike.

Section Switches.

Context {C : Collaborators}.

Lemma printed_filter (keep : event -> bool) (tr : list event) :
  (forall text, keep (Ev_print text) = true) -> printed (filter keep tr) = printed tr.
Proof.
  intros Hkeep. induction tr as [| e tr IH]; [reflexivity |].
  destruct e; cbn [filter printed]; rewrite ?Hkeep;
    try (destruct (keep _)); cbn [printed]; now rewrite ?IH.
Qed.

Lemma signing_requests_filter (keep : event -> bool) (tr : list event) :
  (forall a d domain, keep (Ev_signStruct a d domain) = true) ->
  signing_requests (filter keep tr) = signing_requests tr.
Proof.
  intros Hkeep. induction tr as [| e tr IH]; [reflexivity |].
  destruct e; cbn [filter signing_requests]; rewrite ?Hkeep;
    try (destruct (keep _)); cbn [signing_requests]; now rewrite ?IH.
Qed.

Lemma Run_state (f : Flags) (s : NodeState) :
  state_of (Run f s) = state_of (generate f s).
Proof.
  unfold Run, bind. destruct (generate f s) as [[tr s'] [outputs | code |]];
    try reflexivity.
  rewrite print_outputs_run. destruct (quiet f); reflexivity.
Qed.

Lemma Run_status (f : Flags) (s : NodeState) :
  exit_status (outcome_of (Run f s)) = exit_status (outcome_of (generate f s)).
Proof.
  pose proof (Run_after_generate f s) as H.
  destruct (outcome_of (generate f s)) as [outputs | code |]; try apply H.
  destruct (quiet f); destruct H as [_ ->]; reflexivity.
Qed.

Lemma deeds_of_Run (f : Flags) (s : NodeState) :
  filter is_deed (events_of (Run f s)) = filter is_deed (events_of (generate f s)).
Proof.
  destruct (Run_events f s) as (extra & -> & [-> | [outputs ->]]).
  - now rewrite app_nil_r.
  - rewrite filter_app. unfold print_events.
    destruct (List.length outputs =? 1)%nat; cbn; now rewrite app_nil_r.
Qed.

(** X11.  [--verbose] and [--debug] add talk and nothing else: two runs of the
    same command that differ in them, started with the node in the same
    state, end the same way and leave the node in the same state; apart from
    what [outputIf] says and the debug dump, they have produced the same
    events in the same order, so the same results are printed and the same
    signing requests made. *)
Theorem verbose_and_debug_only_talk (f f' : Flags) (s : NodeState) :
  same_command f f' -> quiet f = quiet f' ->
  outcome_of (Run f s) = outcome_of (Run f' s) /\
  state_of (Run f s) = state_of (Run f' s) /\
  filter (fun e => negb (is_note e)) (events_of (Run f s)) =
  filter (fun e => negb (is_note e)) (events_of (Run f' s)) /\
  printed (events_of (Run f s)) = printed (events_of (Run f' s)) /\
  signing_requests (events_of (Run f s)) = signing_requests (events_of (Run f' s)).
Proof.
  intros Hsame Hquiet.
  assert (Hhidden : forall msg, negb (is_note (Ev_outputIf msg)) = false)
    by reflexivity.
  assert (Hdebug : forall text, negb (is_note (Ev_debug text)) = false) by reflexivity.
  destruct (Run_alike (fun e => negb (is_note e)) Hhidden f f'
              (or_introl Hquiet) (or_intror Hdebug) Hsame Hquiet s)
    as (Htr & Hs & Ho).
  split; [exact Ho |]. split; [exact Hs |]. split; [exact Htr |]. split.
  - rewrite <- (printed_filter (fun e => negb (is_note e)) (events_of (Run f s)))
      by reflexivity.
    rewrite Htr. now apply printed_filter.
  - rewrite <- (signing_requests_filter (fun e => negb (is_note e)) (events_of (Run f s)))
      by reflexivity.
    rewrite Htr. now apply signing_requests_filter.
Qed.

(** X12.  [--quiet], [--verbose] and [--debug] change nothing of what the command
    does: two runs of the same command that differ in them, started with the
    node in the same state, make the same calls to the node and the same
    signing requests in the same order, leave the node in the same state and
    end with the same exit status. *)
Theorem switches_change_no_deed (f f' : Flags) (s : NodeState) :
  same_command f f' ->
  exit_status (outcome_of (Run f s)) = exit_status (outcome_of (Run f' s)) /\
  state_of (Run f s) = state_of (Run f' s) /\
  filter is_deed (events_of (Run f s)) = filter is_deed (events_of (Run f' s)) /\
  signing_requests (events_of (Run f s)) = signing_requests (events_of (Run f' s)).
Proof.
  intros Hsame.
  assert (Hhidden : forall msg, is_deed (Ev_outputIf msg) = false) by reflexivity.
  assert (Hstderr : forall msg, is_deed (Ev_stderr msg) = false) by reflexivity.
  assert (Hdebug : forall text, is_deed (Ev_debug text) = false) by reflexivity.
  destruct (generate_alike is_deed Hhidden f f'
              (or_intror Hstderr) (or_intror Hdebug) Hsame s)
    as (Htr & Hs & Ho).
  split; [now rewrite !Run_status, Ho |].
  split; [now rewrite !Run_state |].
  split; [now rewrite !deeds_of_Run |].
  rewrite !Run_requests.
  rewrite <- (signing_requests_filter is_deed (events_of (generate f s))) by reflexivity.
  rewrite Htr. now apply signing_requests_filter.
Qed.

(** X13.  With [--quiet] the run never prints a result and never returns from
    [Run]: it ends through [os.Exit] (line 202) with status 0 exactly when
    the deposit data of every validator account has been generated, or it
    has stopped before. *)
Theorem quiet_run (f : Flags) (s : NodeState) :
  quiet f = true ->
  Forall (fun e => is_print e = false) (events_of (Run f s)) /\
  printed (events_of (Run f s)) = "" /\
  outcome_of (Run f s) <> Ret tt /\
  events_of (Run f s) = events_of (generate f s) /\
  (outcome_of (Run f s) = Exit 0%Z <->
   exists outputs, outcome_of (generate f s) = Ret outputs).
Proof.
  intros Hq. pose proof (Run_after_generate f s) as H. rewrite Hq in H.
  destruct (generate_spec f s) as (wc & val & Hev & Hpost).
  destruct (nothing_printed f wc val _ Hev) as (Hnone & Hprinted & _).
  assert (Htr : events_of (Run f s) = events_of (generate f s)).
  { destruct (outcome_of (generate f s)); apply H. }
  rewrite Htr. split; [exact Hnone |]. split; [exact Hprinted |].
  destruct (outcome_of (generate f s)) as [outputs | code |] eqn:Eg.
  - destruct H as [_ ->]. split; [discriminate |]. split; [reflexivity |].
    split; eauto.
  - destruct H as [_ Ho]. cbn in Ho.
    split; [intros E; rewrite E in Ho; cbn in Ho; now apply Hpost |].
    split; [reflexivity |]. split.
    + intros E. rewrite E in Ho. cbn in Ho. now destruct Hpost.
    + intros [outputs E]. discriminate E.
  - destruct H as [_ Ho]. cbn in Ho.
    split; [intros E; rewrite E in Ho; discriminate |].
    split; [reflexivity |]. split.
    + intros E. rewrite E in Ho. discriminate.
    + intros [outputs E]. discriminate E.
Qed.

End Switches.

(** ** The signing requests, one by one *)

Section Requests.

Context {C : Collaborators}.
Variable flags : Flags.

(** X14.  The validator accounts are asked to sign in the order of the wallet's
    list, each once and for itself: the signing requests of a run, in order,
    are those of the first accounts of the list, each with the public key of
    its account, the credentials and the amount the run has settled, under
    the deposit domain of the fork version the account has when the loop
    comes to it.  A run that ends with exit status 0 has asked every
    account; one that fails has asked the accounts before the one it failed
    at, and perhaps that one. *)
Theorem requests_follow_the_accounts (w : Wallet) (accts : list Account) (s : NodeState) :
  walletAndAccountsFromPath (validatorDepositDataValidatorAccount flags) = Ok (w, accts) ->
  let l := signing_requests (events_of (Run flags s)) in
  (exists wc val,
     (l <> [] -> credentials flags wc /\ amount flags val) /\
     requests_from flags wc val accts s l) /\
  map request_account l = firstn (List.length l) accts /\
  (exit_status (outcome_of (Run flags s)) = 0%Z -> map request_account l = accts).
Proof.
  intros Hpath. cbn zeta.
  destruct (Run_along flags s)
    as [(Hnil & _ & Hno) | (w' & accts' & wc & val & Hset & Hreq & _ & Hlen)].
  - rewrite Hnil. split; [| split; [reflexivity |]].
    + exists [], 0%N. split; [congruence | exact I].
    + intros Hok. destruct (Run_success flags s Hok) as (outputs & Hg & _).
      now destruct (Hno outputs).
  - destruct Hset as ((Hgiven & Hpath' & Hv) & Hwc & Hval).
    rewrite Hpath in Hpath'. injection Hpath' as <- <-.
    pose proof (requests_from_accounts flags wc val _ accts s Hreq) as Hmap.
    split; [exists wc, val; auto |]. split; [exact Hmap |].
    intros Hok. destruct (Run_success flags s Hok) as (outputs & Hg & _).
    rewrite Hmap, (Hlen outputs Hg). apply firstn_all.
Qed.

End Requests.

(** ** How a run can end *)

Section Tidy.

Context {C : Collaborators}.

Lemma tidy_ret {A : Type} (a : A) : tidy (ret a).
Proof. intros s. exact I. Qed.

Lemma tidy_bind_spec {A B : Type} (P : event -> Prop) (Q : A -> Prop)
    (m : M A) (k : A -> M B) :
  spec P Q m -> tidy m -> (forall a, Q a -> tidy (k a)) -> tidy (bind m k).
Proof.
  intros Hspec Hm Hk s. specialize (Hm s). destruct (Hspec s) as [_ Hq]. unfold bind.
  destruct (m s) as [[tr s1] [a | code |]]; cbn [outcome_of snd] in *;
    [| exact Hm | exact Hm].
  specialize (Hk a Hq s1). now destruct (k a s1) as [[tr2 s2] o2].
Qed.

Lemma tidy_bind {A B : Type} (m : M A) (k : A -> M B) :
  tidy m -> (forall a, tidy (k a)) -> tidy (bind m k).
Proof.
  intros Hm Hk s. specialize (Hm s). unfold bind.
  destruct (m s) as [[tr s1] [a | code |]]; cbn [outcome_of snd] in *;
    [| exact Hm | exact Hm].
  specialize (Hk a s1). now destruct (k a s1) as [[tr2 s2] o2].
Qed.

Lemma tidy_outputIf (c : bool) (msg : string) : tidy (outputIf c msg).
Proof. intros s. unfold outputIf. now destruct c. Qed.

Lemma tidy_emit (e : event) : tidy (emit e).
Proof. intros s. exact I. Qed.

Lemma tidy_assert (flags : Flags) (c : bool) (msg : string) : tidy (assert flags c msg).
Proof. intros s. unfold assert, bind. destruct c, (quiet flags); reflexivity. Qed.

Lemma tidy_errCheck {A : Type} (flags : Flags) (r : result A) (msg : string) :
  tidy (errCheck flags r msg).
Proof. intros s. unfold errCheck, bind. destruct r, (quiet flags); reflexivity. Qed.

Lemma tidy_call_connect : tidy call_connect.
Proof. intros s. unfold call_connect. now destruct (connect s). Qed.

Lemma tidy_call_FetchChainConfig : tidy call_FetchChainConfig.
Proof. intros s. unfold call_FetchChainConfig. now destruct (FetchChainConfig s). Qed.

Lemma tidy_call_signStruct (a : Account) (d : DepositData.t) (domain : bytes) :
  tidy (call_signStruct a d domain).
Proof. intros s. exact I. Qed.

Lemma tidy_for_range {A : Type} (l : list A) (body : A -> M unit) :
  (forall x, tidy (body x)) -> tidy (for_range l body).
Proof.
  intros Hbody. induction l as [| x l IH]; cbn [for_range];
    [apply tidy_ret | apply tidy_bind; auto].
Qed.

Lemma tidy_for_range_with {A V : Type} (l : list A) (body : V -> A -> M V) (v : V) :
  (forall v x, tidy (body v x)) -> tidy (for_range_with l body v).
Proof.
  intros Hbody. revert v. induction l as [| x l IH]; intros v; cbn [for_range_with];
    [apply tidy_ret | apply tidy_bind; auto].
Qed.

Variable flags : Flags.

Ltac tidy_call :=
  first [ apply tidy_assert | apply tidy_errCheck | apply tidy_outputIf | apply tidy_emit
        | apply tidy_call_connect | apply tidy_call_FetchChainConfig
        | apply tidy_call_signStruct | apply tidy_ret ].

Ltac tidy_step := first [ apply tidy_bind; [tidy_call | intros ?] | tidy_call ].

Lemma validator_accounts_tidy : tidy (validator_accounts flags).
Proof.
  unfold validator_accounts. tidy_step. tidy_step. destruct a0 as [w accts]. tidy_step.
  apply tidy_bind; [| intros ?; apply tidy_ret].
  apply tidy_for_range. intros x. repeat tidy_step.
Qed.

(** Line 88 cannot panic: a SHA-256 digest is not empty. *)
Lemma withdrawal_credentials_tidy : tidy (withdrawal_credentials flags).
Proof.
  unfold withdrawal_credentials. tidy_step.
  eapply tidy_bind_spec with (P := fun _ => True)
    (Q := fun d => exists key, d = SHA256 (PublicKey_Marshal key)).
  - destruct (negb (validatorDepositDataWithdrawalAccount flags =? "")).
    + run_step. destruct a0 as [w acct]. run_step. run_step. run_step. eauto.
    + run_step. run_step. run_step. run_step. eauto.
  - destruct (negb (validatorDepositDataWithdrawalAccount flags =? "")).
    + tidy_step. destruct a0 as [w acct]. repeat tidy_step.
    + repeat tidy_step.
  - intros d [key ->]. pose proof (SHA256_size (PublicKey_Marshal key)) as Hsize.
    destruct (SHA256 (PublicKey_Marshal key)) as [| x rest]; [discriminate |].
    cbn [set_first]. repeat tidy_step.
Qed.

Lemma deposit_value_tidy : tidy (deposit_value flags).
Proof. unfold deposit_value. repeat tidy_step. Qed.

Lemma print_signed_tidy (d : SignedDepositData.t) : tidy (print_signed flags d).
Proof. unfold print_signed. destruct (debug flags); repeat tidy_step. Qed.

Hypothesis typed : validatorDepositDataForkVersion flags <> "" \/ node_well_typed.

Lemma fork_version_tidy : tidy (fork_version flags).
Proof.
  unfold fork_version.
  destruct (negb (validatorDepositDataForkVersion flags =? "")) eqn:Efv.
  - repeat tidy_step.
  - apply not_given in Efv. destruct typed as [Hgiven | Htyped]; [contradiction |].
    tidy_step. tidy_step.
    eapply tidy_bind_spec with (P := fun _ => True);
      [apply spec_call_FetchChainConfig; exact I | tidy_call |].
    intros fetched [s Hs].
    eapply tidy_bind_spec with (P := fun _ => True) (Q := fun cfg => fetched = Ok cfg).
    + destruct fetched as [cfg | e]; [run_step; reflexivity |]. run_step. run_step.
    + destruct fetched as [cfg | e]; [apply tidy_ret |].
      apply tidy_bind; [apply tidy_outputIf |]. intros _ s'. reflexivity.
    + intros cfg ->. specialize (Htyped s cfg Hs).
      eapply tidy_bind_spec with (P := fun _ => True);
        [apply spec_assert; exact I | apply tidy_assert |].
      intros ? Hsome. cbn beta in Hsome.
      destruct (config_get cfg "GenesisForkVersion") as [[b |] |]; cbn [as_bytes].
      * apply tidy_ret.
      * congruence.
      * discriminate Hsome.
Qed.

Lemma deposit_tidy (w : Wallet) (wc : bytes) (val : N) (outputs : list string)
    (a : Account) :
  tidy (deposit flags w wc val outputs a).
Proof.
  unfold deposit. tidy_step. tidy_step.
  apply tidy_bind; [apply fork_version_tidy | intros forkVersion].
  tidy_step. tidy_step. tidy_step. tidy_step.
  apply tidy_bind; [apply print_signed_tidy | intros _].
  tidy_step. tidy_step.
  destruct (validatorDepositDataRaw flags); [apply tidy_ret |].
  destruct (validatorDepositDataLaunchpad flags); repeat tidy_step.
Qed.

Lemma generate_tidy : tidy (generate flags).
Proof.
  unfold generate, prelude. apply tidy_bind.
  - apply tidy_bind; [apply validator_accounts_tidy | intros [w accts]].
    apply tidy_bind; [apply withdrawal_credentials_tidy | intros wc].
    apply tidy_bind; [apply deposit_value_tidy | intros val]. apply tidy_ret.
  - intros [[[w accts] wc] val]. apply tidy_for_range_with. intros v x.
    apply deposit_tidy.
Qed.

(** X15.  The exit status is 0 or 1, as the help text of the command says (lines
    50-51), whenever a fork version is given or the node's configuration
    holds a byte slice under [GenesisForkVersion]: the run does not panic,
    and it ends with status 0 exactly when the deposit data of every
    validator account has been generated. *)
Theorem exit_status_is_0_or_1 (s : NodeState) :
  outcome_of (Run flags s) <> Panic /\
  (exit_status (outcome_of (Run flags s)) = 0%Z \/
   exit_status (outcome_of (Run flags s)) = 1%Z) /\
  (exit_status (outcome_of (Run flags s)) = 0%Z <->
   exists outputs, outcome_of (generate flags s) = Ret outputs).
Proof.
  pose proof (generate_tidy s) as Hg.
  pose proof (Run_after_generate flags s) as H.
  destruct (outcome_of (generate flags s)) as [outputs | code |] eqn:Eg;
    [| | contradiction].
  - assert (Hok : exit_status (outcome_of (Run flags s)) = 0%Z).
    { destruct (quiet flags); destruct H as [_ ->]; reflexivity. }
    split; [intros E; rewrite E in Hok; discriminate |].
    split; [now left |]. split; eauto.
  - destruct H as [_ Ho]. cbn in Ho. subst code.
    split; [intros E; rewrite E in Ho; discriminate |].
    split; [now right |]. split.
    + intros E. rewrite E in Ho. discriminate.
    + intros [outputs E]. discriminate E.
Qed.

End Tidy.

(** ** What comes first *)

Section Order.

Context {C : Collaborators}.
Variable flags : Flags.

Lemma no_deed_in_messages (tr : list event) :
  Forall message tr -> filter is_deed tr = [].
Proof.
  induction 1 as [| e tr He _ IH]; [reflexivity |].
  destruct e; cbn in He; try contradiction; exact IH.
Qed.

(** X16.  Nothing is done before everything that lines 56-95 check has been
    settled: a run that has called the node or asked for a signature had
    validator accounts that all give a public key, a withdrawal key from the
    account or from 48 bytes of hexadecimal that parse, and an amount of at
    least 1000000000 Gwei.  Whatever fails there (a wallet or an account that
    is not found, an account without a key, a key or an amount that does not
    parse) fails before the first call. *)
Theorem nothing_done_before_inputs_settle (s : NodeState) :
  filter is_deed (events_of (Run flags s)) <> [] ->
  exists w accts key val,
    validators flags w accts /\ withdrawal_key flags key /\ amount flags val.
Proof.
  rewrite deeds_of_Run. unfold generate, bind.
  destruct (prelude_spec flags s) as [Htr Ho].
  destruct (prelude flags s) as [[tr0 s0] [[[[w accts] wc] val] | code |]];
    cbn [events_of outcome_of fst snd] in Htr, Ho |- *.
  - intros _. destruct Ho as (Hv & (key & Hk & _) & Ha). exists w, accts, key, val. auto.
  - intros H. now destruct (H (no_deed_in_messages tr0 Htr)).
  - intros H. now destruct (H (no_deed_in_messages tr0 Htr)).
Qed.

End Order.

(** ** The further properties on concrete runs *)

Lemma launchpad_output_members_witness :
  exit_status
    (outcome_of (Run (C := Mock.world) (set_launchpad true Mock.one_validator) [])) = 0%Z /\
  exists outputs,
    outcome_of (generate (C := Mock.world) (set_launchpad true Mock.one_validator) [])
      = Ret outputs /\
    List.length outputs = 1.
Proof.
  split; [reflexivity |].
  destruct (launchpad_output_members (C := Mock.world)
              (set_launchpad true Mock.one_validator) [] eq_refl eq_refl eq_refl)
    as (w & accts & wc & val & outputs & Hg & (_ & Hpath & _) & _ & _ & Hall).
  injection Hpath as <- <-.
  exists outputs. split; [exact Hg | symmetry; exact (Forall2_length Hall)].
Defined.

Lemma raw_outputs_decode_witness :
  validatorDepositDataRaw (Mock.with_raw Mock.two_validators) = true /\
  exists outputs,
    outcome_of (generate (C := Mock.world) (Mock.with_raw Mock.two_validators) [])
      = Ret outputs /\
    Forall (fun o => String.length o = 842) outputs.
Proof.
  split; [reflexivity |].
  destruct (raw_outputs_decode (C := Mock.world) (Mock.with_raw Mock.two_validators) []
              eq_refl eq_refl)
    as (w & accts & wc & val & outputs & Hg & _ & _ & _ & Hall).
  exists outputs. split; [exact Hg |].
  clear Hg. induction Hall as [| a o la lo Ho _ IH]; constructor; [| exact IH].
  destruct Ho as (key & fv & sig & root & tx & _ & _ & _ & _ & _ & Hlen & _).
  exact Hlen.
Defined.

Lemma raw_before_launchpad_witness :
  validatorDepositDataRaw (Mock.with_raw Mock.one_validator) = true /\
  Run (C := Mock.world) (set_launchpad true (Mock.with_raw Mock.one_validator)) [] =
  Run (C := Mock.world) (Mock.with_raw Mock.one_validator) [].
Proof.
  split; [reflexivity |].
  apply (raw_before_launchpad (C := Mock.world) (Mock.with_raw Mock.one_validator)).
  reflexivity.
Defined.

Lemma prefix_0x_is_optional_witness :
  DecodeString "00000001" = Ok [x00; x00; x00; x01] /\
  Run (C := Mock.world) (set_fork_version "0x00000001" Mock.one_validator) [] =
  Run (C := Mock.world) (set_fork_version "00000001" Mock.one_validator) [].
Proof.
  split; [reflexivity |].
  apply (prefix_0x_is_optional (C := Mock.world) Mock.one_validator "00000001"
           [x00; x00; x00; x01]); [discriminate | reflexivity].
Defined.

(** The flags as [init] leaves them: the run asks for
    [--validatoraccount]. *)
Lemma required_flags_witness :
  validatorDepositDataValidatorAccount (init false false false) = "" /\
  Run (C := Mock.world) (init false false false) [] =
  ([Ev_stderr "--validatoraccount is required"], [], Exit 1%Z).
Proof.
  split; [reflexivity |].
  apply (proj1 (required_flags (C := Mock.world) (init false false false))).
  reflexivity.
Defined.

Lemma no_validator_account_witness :
  walletAndAccountsFromPath (Collaborators := Mock.world) "empty/.*" = Ok ("empty", []) /\
  exit_status
    (outcome_of
       (Run (C := Mock.world) (Mock.with_accounts "empty/.*" Mock.one_validator) []))
  = 1%Z.
Proof.
  split; [reflexivity |].
  rewrite (no_validator_account (C := Mock.world)
             (Mock.with_accounts "empty/.*" Mock.one_validator) "empty" []);
    [reflexivity | discriminate | reflexivity].
Defined.

Lemma keys_checked_before_signing_witness :
  bestPublicKey (Collaborators := Worlds.keyless) "keyless" = Err "no public key" /\
  signing_requests (events_of (Run (C := Worlds.keyless) Mock.two_validators [])) = [].
Proof.
  split; [reflexivity |].
  apply (keys_checked_before_signing (C := Worlds.keyless) Mock.two_validators
           "primary" ["validator"; "keyless"] "keyless" "no public key").
  - reflexivity.
  - right. left. reflexivity.
  - reflexivity.
Defined.


Lemma unreachable_node_is_not_asked_witness :
  fst (connect (Collaborators := Worlds.unreachable) []) = Err "connection refused" /\
  count is_fetch (events_of (Run (C := Worlds.unreachable) Mock.two_validators_ask [])) = 0.
Proof.
  split; [reflexivity |].
  apply (unreachable_node_is_not_asked (C := Worlds.unreachable) Mock.two_validators_ask
           "primary" ["validator"; "second"] xbb 32000000000%N "connection refused" []).
  - split; [discriminate |]. split; [reflexivity |]. split; [discriminate |].
    repeat constructor; eexists; reflexivity.
  - left. split; [discriminate |]. exists "primary", "current". split; reflexivity.
  - split; [discriminate |]. split; [reflexivity | discriminate].
  - reflexivity.
  - reflexivity.
Defined.

(** A fork version of two bytes, from the node: the run succeeds. *)
Lemma fetched_fork_version_is_not_measured_witness :
  List.length [x01; x02] = 2 /\
  exit_status
    (outcome_of
       (Run (C := Worlds.constant (Ok [("GenesisForkVersion", cv_bytes [x01; x02])]))
          Mock.two_validators_ask [])) = 0%Z.
Proof.
  split; [reflexivity |].
  apply (fetched_fork_version_is_not_measured
           (C := Worlds.constant (Ok [("GenesisForkVersion", cv_bytes [x01; x02])]))
           Mock.two_validators_ask "primary" ["validator"; "second"] xbb 32000000000%N
           [("GenesisForkVersion", cv_bytes [x01; x02])] [x01; x02]).
  - split; [discriminate |]. split; [reflexivity |]. split; [discriminate |].
    repeat constructor; eexists; reflexivity.
  - left. split; [discriminate |]. exists "primary", "current". split; reflexivity.
  - split; [discriminate |]. split; [reflexivity | discriminate].
  - split.
    + intros a [<- | [<- | []]] d domain; eexists; reflexivity.
    + intros [d | d]; eexists; reflexivity.
  - reflexivity.
  - reflexivity.
  - reflexivity.
  - reflexivity.
Defined.

Lemma verbose_and_debug_only_talk_witness :
  quiet (set_switches false true true Mock.one_validator) = quiet Mock.one_validator /\
  printed (events_of
             (Run (C := Mock.world) (set_switches false true true Mock.one_validator) [])) =
  printed (events_of (Run (C := Mock.world) Mock.one_validator [])).
Proof.
  split; [reflexivity |].
  apply (verbose_and_debug_only_talk (C := Mock.world)
           (set_switches false true true Mock.one_validator) Mock.one_validator []).
  - repeat split.
  - reflexivity.
Defined.

Lemma switches_change_no_deed_witness :
  same_command (set_switches true false true Mock.two_validators_ask)
    Mock.two_validators_ask /\
  filter is_deed
    (events_of (Run (C := Mock.world) (set_switches true false true Mock.two_validators_ask)
                  [Mock.mainnet; Mock.mainnet])) =
  filter is_deed
    (events_of (Run (C := Mock.world) Mock.two_validators_ask [Mock.mainnet; Mock.mainnet])).
Proof.
  assert (H : same_command (set_switches true false true Mock.two_validators_ask)
                Mock.two_validators_ask) by (repeat split).
  split; [exact H |].
  apply (switches_change_no_deed (C := Mock.world)
           (set_switches true false true Mock.two_validators_ask) Mock.two_validators_ask
           [Mock.mainnet; Mock.mainnet] H).
Defined.

Lemma quiet_run_witness :
  quiet (set_switches true false false Mock.one_validator) = true /\
  printed (events_of
             (Run (C := Mock.world) (set_switches true false false Mock.one_validator) []))
  = "".
Proof.
  split; [reflexivity |].
  apply (quiet_run (C := Mock.world) (set_switches true false false Mock.one_validator) []).
  reflexivity.
Defined.

Lemma requests_follow_the_accounts_witness :
  walletAndAccountsFromPath (Collaborators := Mock.world) "primary/mixed"
    = Ok ("primary", ["validator"; "locked"]) /\
  map request_account
    (signing_requests
       (events_of (Run (C := Mock.world)
                     (Mock.with_accounts "primary/mixed" Mock.one_validator) []))) =
  firstn
    (List.length
       (signing_requests
          (events_of (Run (C := Mock.world)
                        (Mock.with_accounts "primary/mixed" Mock.one_validator) []))))
    ["validator"; "locked"].
Proof.
  split; [reflexivity |].
  destruct (requests_follow_the_accounts (C := Mock.world)
              (Mock.with_accounts "primary/mixed" Mock.one_validator)
              "primary" ["validator"; "locked"] [] eq_refl) as (_ & Hfirst & _).
  exact Hfirst.
Defined.

Lemma exit_status_is_0_or_1_witness :
  validatorDepositDataForkVersion Mock.mixed_debug <> "" /\
  outcome_of (Run (C := Mock.world) Mock.mixed_debug []) <> Panic.
Proof.
  assert (H : validatorDepositDataForkVersion Mock.mixed_debug <> "") by discriminate.
  split; [exact H |].
  apply (exit_status_is_0_or_1 (C := Mock.world) Mock.mixed_debug (or_introl H) []).
Defined.

(** A run that signs has passed the checks. *)
Lemma nothing_done_before_inputs_settle_witness :
  filter is_deed (events_of (Run (C := Mock.world) Mock.one_validator [])) <> [] /\
  exists val, amount (C := Mock.world) Mock.one_validator val.
Proof.
  assert (H : filter is_deed (events_of (Run (C := Mock.world) Mock.one_validator []))
              <> []) by discriminate.
  split; [exact H |].
  destruct (nothing_done_before_inputs_settle (C := Mock.world) Mock.one_validator [] H)
    as (w & accts & key & val & _ & _ & Ha).
  exists val. exact Ha.
Defined.
